(** * stator.js: the global state store and the Reactor component

    A shallow embedding of [src/gdbgui/static/vendor/js/stator.js].
    The JavaScript heap, the browser's timer table, the event listeners,
    the console and the DOM are explicit components of a [world]; every
    function of the source is a computation in a state-and-exception monad
    over that world. *)

From Stdlib Require Import ZArith Lia.
From stdpp Require Import base decidable option list strings numbers pretty.

Local Open Scope string_scope.
Local Open Scope list_scope.
Local Open Scope Z_scope.

(** ** JavaScript values *)

(** Heap locations of plain objects and arrays. *)
Abbreviation loc := nat.

(** Numbers.  The traps only compare numbers with [===] and copy them
    through JSON, so a finite number is represented by an integer; the
    non-finite ones are kept apart because [NaN !== NaN] and because
    JSON turns all three into [null]. *)
Inductive number :=
| Fin (z : Z)
| NaN
| Inf (negative : bool).

(** Built-in objects that a plain object or an array inherits from. *)
Inductive builtin :=
| ObjectPrototype                (* Object.prototype itself *)
| ObjFn (name : string)          (* a method of Object.prototype *)
| ArrFn (name : string).         (* a method of Array.prototype *)

Inductive value :=
| VUndefined
| VNull
| VBool (b : bool)
| VNum (n : number)
| VStr (s : string)
| VBigInt (z : Z)
| VSymbol (id : nat)
| VFun (id : nat)                (* a function of the application *)
| VBuiltin (b : builtin)
| VRef (l : loc).                (* a plain object or an array *)

(** Own enumerable properties in insertion order, or array elements. *)
Inductive obj :=
| OPlain (props : list (string * value))
| OArr (elems : list value).

Abbreviation heap := (list obj).

#[global] Instance number_eq_dec : EqDecision number.
Proof. solve_decision. Defined.
#[global] Instance builtin_eq_dec : EqDecision builtin.
Proof. solve_decision. Defined.
#[global] Instance value_eq_dec : EqDecision value.
Proof. solve_decision. Defined.

(** [typeof v] *)
Definition typeof (v : value) : string :=
  match v with
  | VUndefined => "undefined"
  | VNull => "object"
  | VBool _ => "boolean"
  | VNum _ => "number"
  | VStr _ => "string"
  | VBigInt _ => "bigint"
  | VSymbol _ => "symbol"
  | VFun _ => "function"
  | VBuiltin ObjectPrototype => "object"
  | VBuiltin (ObjFn _) | VBuiltin (ArrFn _) => "function"
  | VRef _ => "object"
  end.

(** [a === b]: primitives by value (NaN differs from itself), objects,
    functions and symbols by identity. *)
Definition strict_eq (a b : value) : bool :=
  match a with
  | VNum NaN => false
  | _ => bool_decide (a = b)
  end.

(** [a !== b] *)
Definition strict_neq (a b : value) : bool := negb (strict_eq a b).

(** ToBoolean *)
Definition truthy (v : value) : bool :=
  match v with
  | VUndefined | VNull => false
  | VBool b => b
  | VNum (Fin z) => negb (z =? 0)
  | VNum NaN => false
  | VNum (Inf _) => true
  | VStr s => match s with EmptyString => false | _ => true end
  | VBigInt z => negb (z =? 0)
  | VSymbol _ | VFun _ | VBuiltin _ | VRef _ => true
  end.

(** What a thrown value can be: the source throws strings; [JSON] and
    [Proxy] throw the engine's errors.  [Unmodelled] is not an exception of
    JavaScript: it marks the one step that leaves the modelled fragment, a
    Proxy over an array. *)
Inductive exn :=
| Thrown (msg : string)
| TypeError
| SyntaxError
| Unmodelled.

Inductive completion (A : Type) :=
| Return (a : A)
| Throw (e : exn).
Arguments Return {A} a.
Arguments Throw {A} e.

(** ** JSON *)

(** The text produced by [JSON.stringify], by its syntax tree. *)
#[warnings="-register-all"]
Inductive json :=
| JNull
| JBool (b : bool)
| JNum (z : Z)
| JStr (s : string)
| JArr (items : list json)
| JObj (members : list (string * json)).

(** Result of SerializeJSONProperty: a TypeError, [undefined], or text. *)
Inductive ser_result :=
| SThrow
| SUndef
| SJson (j : json).

(** Elements of an array: [undefined] is written [null]. *)
Fixpoint ser_elems (rs : list (option ser_result)) : option ser_result :=
  match rs with
  | [] => Some (SJson (JArr []))
  | None :: _ => None
  | Some SThrow :: _ => Some SThrow
  | Some r :: rs =>
      match ser_elems rs with
      | Some (SJson (JArr js)) =>
          Some (SJson (JArr (match r with SJson j => j | _ => JNull end :: js)))
      | other => other
      end
  end.

(** Members of an object: a member whose value is [undefined] is left out. *)
Fixpoint ser_props (rs : list (string * option ser_result)) : option ser_result :=
  match rs with
  | [] => Some (SJson (JObj []))
  | (_, None) :: _ => None
  | (_, Some SThrow) :: _ => Some SThrow
  | (k, Some r) :: rs =>
      match ser_props rs with
      | Some (SJson (JObj ms)) =>
          Some (SJson (JObj (match r with SJson j => [(k, j)] | _ => [] end ++ ms)))
      | other => other
      end
  end.

(** SerializeJSONProperty.  [stack] holds the objects being serialized
    (a value found on it is a cycle: TypeError); [fuel] bounds the nesting
    depth and [None] means that it ran out, see [JSON_stringify_total].
    Objects with a callable [toJSON] member are outside the fragment. *)
Fixpoint ser (fuel : nat) (stack : list loc) (h : heap) (v : value)
  : option ser_result :=
  match fuel with
  | O => None
  | S fuel =>
      match v with
      | VUndefined | VSymbol _ | VFun _ => Some SUndef
      | VBuiltin (ObjFn _) | VBuiltin (ArrFn _) => Some SUndef
      | VBuiltin ObjectPrototype => Some (SJson (JObj []))
      | VNull => Some (SJson JNull)
      | VBool b => Some (SJson (JBool b))
      | VNum (Fin z) => Some (SJson (JNum z))
      | VNum _ => Some (SJson JNull)
      | VStr s => Some (SJson (JStr s))
      | VBigInt _ => Some SThrow
      | VRef l =>
          if bool_decide (l ∈ stack) then Some SThrow
          else match h !! l with
               | None => Some SThrow
               | Some (OArr es) =>
                   ser_elems (map (ser fuel (l :: stack) h) es)
               | Some (OPlain ps) =>
                   ser_props (map (fun kv => (kv.1, ser fuel (l :: stack) h kv.2)) ps)
               end
      end
  end.

(** [JSON.stringify(v)] *)
Definition JSON_stringify (h : heap) (v : value) : ser_result :=
  match ser (S (length h)) [] h v with
  | Some r => r
  | None => SThrow
  end.

(** [o[k] = v] on the own properties of an ordinary object. *)
Fixpoint set_own (k : string) (v : value) (ps : list (string * value))
  : list (string * value) :=
  match ps with
  | [] => [(k, v)]
  | (k', v') :: ps =>
      if bool_decide (k' = k) then (k, v) :: ps else (k', v') :: set_own k v ps
  end.

Fixpoint get_own (k : string) (ps : list (string * value)) : option value :=
  match ps with
  | [] => None
  | (k', v) :: ps => if bool_decide (k' = k) then Some v else get_own k ps
  end.

(** [JSON.parse] of a syntax tree: every array and object of the text is a
    new heap object, allocated after its parts; a member of an object is
    assigned under its name, a later one replacing an earlier one of the
    same name. *)
Definition parse_items (parse : json -> heap -> value * heap)
  : list json -> heap -> list value * heap :=
  fix items js h :=
    match js with
    | [] => ([], h)
    | j :: js =>
        let '(v, h) := parse j h in
        let '(vs, h) := items js h in
        (v :: vs, h)
    end.

Definition parse_members (parse : json -> heap -> value * heap)
  : list (string * json) -> heap -> list (string * value) * heap :=
  fix members ms h :=
    match ms with
    | [] => ([], h)
    | (k, j) :: ms =>
        let '(v, h) := parse j h in
        let '(ps, h) := members ms h in
        ((k, v) :: ps, h)
    end.

Definition define_all (ps : list (string * value)) : list (string * value) :=
  foldl (fun o kv => set_own kv.1 kv.2 o) [] ps.

Fixpoint parse (j : json) (h : heap) : value * heap :=
  match j with
  | JNull => (VNull, h)
  | JBool b => (VBool b, h)
  | JNum z => (VNum (Fin z), h)
  | JStr s => (VStr s, h)
  | JArr js =>
      let '(vs, h') := parse_items parse js h in
      (VRef (length h'), h' ++ [OArr vs])
  | JObj ms =>
      let '(ps, h') := parse_members parse ms h in
      (VRef (length h'), h' ++ [OPlain (define_all ps)])
  end.

(** [_clone_obj] *)
Definition _clone_obj (h : heap) (obj : value) : completion (value * heap) :=
  if bool_decide (obj = VUndefined) then Return (VUndefined, h)
  else match JSON_stringify h obj with
       | SThrow => Throw TypeError
       | SUndef => Throw SyntaxError      (* JSON.parse(undefined) *)
       | SJson j => Return (parse j h)
       end.

(** ** Property access on a tracked container *)

(** The target of a Proxy of the source is an ordinary object that only the
    traps can reach.  It is kept apart from the heap: its own properties in
    insertion order and its prototype, which is [Object.prototype] for an
    object built by [JSON.parse] until an assignment to [__proto__]
    replaces it. *)
Inductive prototype :=
| ProtoNull
| ProtoObject               (* Object.prototype *)
| ProtoRef (l : loc).       (* an object or array of the heap *)

Record container := Container {
  own : list (string * value);
  proto : prototype
}.

(** The methods of [Object.prototype] (ECMAScript, with Annex B). *)
Definition Object_prototype_methods : list string :=
  [ "constructor"; "hasOwnProperty"; "isPrototypeOf"; "propertyIsEnumerable";
    "toLocaleString"; "toString"; "valueOf";
    "__defineGetter__"; "__defineSetter__"; "__lookupGetter__"; "__lookupSetter__" ].

(** The methods of [Array.prototype] (ECMAScript 2023). *)
Definition Array_prototype_methods : list string :=
  [ "at"; "concat"; "constructor"; "copyWithin"; "entries"; "every"; "fill";
    "filter"; "find"; "findIndex"; "findLast"; "findLastIndex"; "flat";
    "flatMap"; "forEach"; "includes"; "indexOf"; "join"; "keys";
    "lastIndexOf"; "map"; "pop"; "push"; "reduce"; "reduceRight"; "reverse";
    "shift"; "slice"; "some"; "sort"; "splice"; "toLocaleString";
    "toReversed"; "toSorted"; "toSpliced"; "toString"; "unshift"; "values";
    "with" ].

(** What a lookup along the prototype chain finds: a data property, or the
    [__proto__] accessor of [Object.prototype]. *)
Inductive slot :=
| Data (v : value)
| ProtoAccessor.

Definition object_prototype_slot (key : string) : option slot :=
  if bool_decide (key = "__proto__") then Some ProtoAccessor
  else if bool_decide (key ∈ Object_prototype_methods)
       then Some (Data (VBuiltin (ObjFn key)))
       else None.

(** Own properties of an array: its elements under their indices, and
    [length]. *)
Definition array_own (es : list value) (key : string) : option value :=
  if bool_decide (key = "length") then Some (VNum (Fin (Z.of_nat (length es))))
  else (fix go (i : nat) (es : list value) : option value :=
          match es with
          | [] => None
          | e :: es => if bool_decide (pretty i = key) then Some e else go (S i) es
          end) O es.

Definition heap_object_slot (h : heap) (l : loc) (key : string) : option slot :=
  match h !! l with
  | None => None
  | Some (OPlain ps) =>
      match get_own key ps with
      | Some v => Some (Data v)
      | None => object_prototype_slot key
      end
  | Some (OArr es) =>
      match array_own es key with
      | Some v => Some (Data v)
      | None =>
          if bool_decide (key ∈ Array_prototype_methods)
          then Some (Data (VBuiltin (ArrFn key)))
          else object_prototype_slot key
      end
  end.

Definition find_slot (h : heap) (c : container) (key : string) : option slot :=
  match get_own key (own c) with
  | Some v => Some (Data v)
  | None =>
      match proto c with
      | ProtoNull => None
      | ProtoObject => object_prototype_slot key
      | ProtoRef l => heap_object_slot h l key
      end
  end.

(** [key in target] *)
Definition has_property (h : heap) (c : container) (key : string) : bool :=
  bool_decide (is_Some (find_slot h c key)).

Definition proto_value (p : prototype) : value :=
  match p with
  | ProtoNull => VNull
  | ProtoObject => VBuiltin ObjectPrototype
  | ProtoRef l => VRef l
  end.

(** [target[key]] *)
Definition get_property (h : heap) (c : container) (key : string) : value :=
  match find_slot h c key with
  | Some (Data v) => v
  | Some ProtoAccessor => proto_value (proto c)
  | None => VUndefined
  end.

(** [target[key] = v]: an own property is updated; a data property found on
    the prototype chain is shadowed by a new own property; the [__proto__]
    accessor replaces the prototype when [v] is an object or [null] and
    ignores a primitive.  (A function never reaches the accessor: the store
    assigns a JSON copy, the Reactor type-checks against the old prototype,
    which is an object.) *)
Definition set_property (h : heap) (c : container) (key : string) (v : value)
  : container :=
  match find_slot h c key with
  | Some ProtoAccessor =>
      match v with
      | VNull => Container (own c) ProtoNull
      | VRef l => Container (own c) (ProtoRef l)
      | VBuiltin ObjectPrototype => Container (own c) ProtoObject
      | _ => c
      end
  | _ => Container (set_own key v (own c)) (proto c)
  end.

(** ** The world: browser, stator and Reactors *)

(** What a timer runs when it fires. *)
Inductive callback :=
| CbDispatchEvent            (* stator._dispatch_event *)
| CbRender (r : nat).        (* the bound render of Reactor [r] *)

Record timer := Timer { tid : positive; due : Z; cb : callback }.

(** The value of a field that holds a timer: [undefined], [null], or the
    (positive) number returned by [setTimeout]. *)
Inductive handle :=
| HUndefined
| HNull
| HId (id : positive).

(** A listener of the [state_changed] event. *)
Inductive listener :=
| LRender (r : nat)          (* the bound render of Reactor [r] *)
| LExternal (f : nat).       (* any other function of the application *)

Inductive console_entry :=
| Log (args : list value)
| Error (msg : string).

#[global] Instance callback_eq_dec : EqDecision callback.
Proof. solve_decision. Defined.
#[global] Instance handle_eq_dec : EqDecision handle.
Proof. solve_decision. Defined.
#[global] Instance listener_eq_dec : EqDecision listener.
Proof. solve_decision. Defined.

Record browser := Browser {
  now : Z;                               (* the clock, in milliseconds *)
  timers : list timer;                   (* the pending timers *)
  next_timer : positive;
  listeners : list listener;             (* in registration order *)
  events : list Z;                       (* times of the state_changed events *)
  console : list console_entry;
  dom_writes : list (nat * value);       (* assignments to innerHTML *)
  calls : list string                    (* calls of the Reactors' functions *)
}.

Record stator_options := StatorOptions {
  debounce_ms : Z;
  max_suppressed_event_count : Z;
  type_check : bool;
  debug : bool
}.

Record stator_state := Stator {
  options : stator_options;
  _debounce_timeout : handle;
  _suppressed_event_count : nat;
  _state_created : bool
}.

(** What the callbacks of a Reactor can observe: the global state, the
    Reactor's own state and the heap they point into. *)
Record view := View {
  view_heap : heap;
  view_global : container;
  view_local : option container
}.

(** Functions of the application, by what a call returns. *)
Inductive jsfun :=
| FPred (p : view -> bool)        (* returns a boolean *)
| FHtml (r : view -> string)      (* returns html *)
| FVoid.                          (* called for its effect, returns undefined *)

(** An argument or option value: a function or a data value. *)
Inductive arg :=
| AFun (f : jsfun)
| AVal (v : value).

Record reactor := Reactor_ {
  _render_timeout : handle;
  element : option string;
  node : option nat;
  r_options : option (list (string * arg));      (* this.options *)
  _html_callback : option jsfun;
  _data : option container;                      (* the target of this.state *)
  old_node_html : value;
  force_update : value
}.

Record world := World {
  mem : heap;
  document : string -> list nat;          (* querySelectorAll *)
  br : browser;
  stator : stator_state;
  cloned_initial_state : container;       (* the target of the global Proxy *)
  reactors : list reactor
}.

Definition with_mem (h : heap) (w : world) : world :=
  World h (document w) (br w) (stator w) (cloned_initial_state w) (reactors w).
Definition with_br (b : browser) (w : world) : world :=
  World (mem w) (document w) b (stator w) (cloned_initial_state w) (reactors w).
Definition with_stator (s : stator_state) (w : world) : world :=
  World (mem w) (document w) (br w) s (cloned_initial_state w) (reactors w).
Definition with_cloned_initial_state (c : container) (w : world) : world :=
  World (mem w) (document w) (br w) (stator w) c (reactors w).
Definition with_reactors (rs : list reactor) (w : world) : world :=
  World (mem w) (document w) (br w) (stator w) (cloned_initial_state w) rs.

(** ** The monad of JavaScript computations *)

Definition js (A : Type) : Type := world -> completion A * world.

Definition ret {A} (a : A) : js A := fun w => (Return a, w).
Definition throw {A} (e : exn) : js A := fun w => (Throw e, w).
Definition bind {A B} (m : js A) (k : A -> js B) : js B :=
  fun w => match m w with
           | (Return a, w') => k a w'
           | (Throw e, w') => (Throw e, w')
           end.
Definition gets {A} (f : world -> A) : js A := fun w => (Return (f w), w).
Definition modify (f : world -> world) : js unit := fun w => (Return tt, f w).
(** A statement guarded by [if (c)] with no [else]. *)
Definition when (c : bool) (m : js unit) : js unit := if c then m else ret tt.
(** A call whose exception is reported by the browser, not propagated. *)
Definition reported {A} (m : js A) : js unit :=
  fun w => (Return tt, (m w).2).

Notation "'let*' x ':=' m 'in' k" := (bind m (fun x => k))
  (at level 10, x name, m at level 100, k at level 200).
Notation "m ';;' k" := (bind m (fun _ => k))
  (at level 100, k at level 200, right associativity).

(** ** Browser primitives *)

Definition console_log (args : list value) : js unit :=
  modify (fun w => let b := br w in
    with_br (Browser (now b) (timers b) (next_timer b) (listeners b) (events b)
               (console b ++ [Log args]) (dom_writes b) (calls b)) w).

Definition console_error (msg : string) : js unit :=
  modify (fun w => let b := br w in
    with_br (Browser (now b) (timers b) (next_timer b) (listeners b) (events b)
               (console b ++ [Error msg]) (dom_writes b) (calls b)) w).

(** [setTimeout(f, ms)]: a new timer, due [ms] from now (at once when [ms]
    is negative), under a number never used before. *)
Definition setTimeout (f : callback) (ms : Z) : js handle :=
  fun w => let b := br w in
    (Return (HId (next_timer b)),
     with_br (Browser (now b)
                (timers b ++ [Timer (next_timer b) (now b + Z.max 0 ms) f])
                (Pos.succ (next_timer b)) (listeners b) (events b)
                (console b) (dom_writes b) (calls b)) w).

(** [clearTimeout(h)]: nothing happens unless [h] names a pending timer. *)
Definition cancel (h : handle) (ts : list timer) : list timer :=
  match h with
  | HId id => filter (fun t => tid t ≠ id) ts
  | _ => ts
  end.

Definition clearTimeout (h : handle) : js unit :=
  modify (fun w => let b := br w in
    with_br (Browser (now b) (cancel h (timers b)) (next_timer b) (listeners b)
               (events b) (console b) (dom_writes b) (calls b)) w).

(** [window.addEventListener('state_changed', f)]: a function already
    registered is not registered again. *)
Definition addEventListener (f : listener) : js unit :=
  modify (fun w => let b := br w in
    if bool_decide (f ∈ listeners b) then w
    else with_br (Browser (now b) (timers b) (next_timer b) (listeners b ++ [f])
                    (events b) (console b) (dom_writes b) (calls b)) w).

Definition record_event : js unit :=
  modify (fun w => let b := br w in
    with_br (Browser (now b) (timers b) (next_timer b) (listeners b)
               (events b ++ [now b]) (console b) (dom_writes b) (calls b)) w).

Definition set_innerHTML (n : nat) (html : value) : js unit :=
  modify (fun w => let b := br w in
    with_br (Browser (now b) (timers b) (next_timer b) (listeners b) (events b)
               (console b) (dom_writes b ++ [(n, html)]) (calls b)) w).

Definition record_call (f : string) : js unit :=
  modify (fun w => let b := br w in
    with_br (Browser (now b) (timers b) (next_timer b) (listeners b) (events b)
               (console b) (dom_writes b) (calls b ++ [f])) w).

(** What a function of the application returns. *)
Definition apply_jsfun (f : jsfun) (v : view) : value :=
  match f with
  | FPred p => VBool (p v)
  | FHtml r => VStr (r v)
  | FVoid => VUndefined
  end.

(** Calling, with the Reactor [this], whatever the property [site] of the
    Reactor or of its options holds; the call is recorded. *)
Definition call (site : string) (a : option arg) (v : view) : js value :=
  match a with
  | Some (AFun f) => record_call site ;; ret (apply_jsfun f v)
  | _ => throw TypeError              (* not a function *)
  end.

(** ** Access to the fields of the world *)

Definition set__debounce_timeout (h : handle) : js unit :=
  modify (fun w => let s := stator w in
    with_stator (Stator (options s) h (_suppressed_event_count s) (_state_created s)) w).
Definition set__suppressed_event_count (n : nat) : js unit :=
  modify (fun w => let s := stator w in
    with_stator (Stator (options s) (_debounce_timeout s) n (_state_created s)) w).
Definition set__state_created (b : bool) : js unit :=
  modify (fun w => let s := stator w in
    with_stator (Stator (options s) (_debounce_timeout s) (_suppressed_event_count s) b) w).

(** [this] inside a method of Reactor [r]. *)
Definition this_ (r : nat) : js reactor :=
  fun w => match reactors w !! r with
           | Some x => (Return x, w)
           | None => (Throw TypeError, w)
           end.
Definition update_this (r : nat) (f : reactor -> reactor) : js unit :=
  modify (fun w => with_reactors (alter f r (reactors w)) w).

Definition set__render_timeout (h : handle) (x : reactor) : reactor :=
  Reactor_ h (element x) (node x) (r_options x) (_html_callback x) (_data x)
           (old_node_html x) (force_update x).
Definition set_element_node (e : string) (n : option nat) (x : reactor) : reactor :=
  Reactor_ (_render_timeout x) (Some e) n (r_options x) (_html_callback x) (_data x)
           (old_node_html x) (force_update x).
Definition set_r_options (o : list (string * arg)) (x : reactor) : reactor :=
  Reactor_ (_render_timeout x) (element x) (node x) (Some o) (_html_callback x) (_data x)
           (old_node_html x) (force_update x).
Definition set__html_callback (f : jsfun) (x : reactor) : reactor :=
  Reactor_ (_render_timeout x) (element x) (node x) (r_options x) (Some f) (_data x)
           (old_node_html x) (force_update x).
Definition set__data (c : container) (x : reactor) : reactor :=
  Reactor_ (_render_timeout x) (element x) (node x) (r_options x) (_html_callback x) (Some c)
           (old_node_html x) (force_update x).
Definition set_old_node_html (v : value) (x : reactor) : reactor :=
  Reactor_ (_render_timeout x) (element x) (node x) (r_options x) (_html_callback x) (_data x)
           v (force_update x).
Definition set_force_update (v : value) (x : reactor) : reactor :=
  Reactor_ (_render_timeout x) (element x) (node x) (r_options x) (_html_callback x) (_data x)
           (old_node_html x) v.

(** The object made by [new]: every field is still [undefined]. *)
Definition blank : reactor :=
  Reactor_ HUndefined None None None None None VUndefined VUndefined.

Definition new_object : js nat :=
  fun w => (Return (length (reactors w)), with_reactors (reactors w ++ [blank]) w).

(** Evaluating an array or object literal. *)
Definition alloc (o : obj) : js value :=
  fun w => (Return (VRef (length (mem w))), with_mem (mem w ++ [o]) w).

(** [_clone_obj] as a step of a computation. *)
Definition clone (v : value) : js value :=
  fun w => match _clone_obj (mem w) v with
           | Return (v', h') => (Return v', with_mem h' w)
           | Throw e => (Throw e, w)
           end.

(** The target of [new Proxy(v, handler)].  A Proxy needs an object; the
    source only ever passes a clone, which is never a function. *)
Definition proxy_target (v : value) : js container :=
  fun w => match v with
           | VRef l =>
               match mem w !! l with
               | Some (OPlain ps) => (Return (Container ps ProtoObject), w)
               | Some (OArr _) => (Throw Unmodelled, w)
               | None => (Throw TypeError, w)
               end
           | _ => (Throw TypeError, w)
           end.

Fixpoint get_arg (k : string) (o : list (string * arg)) : option arg :=
  match o with
  | [] => None
  | (k', a) :: o => if bool_decide (k' = k) then Some a else get_arg k o
  end.

Fixpoint set_arg (k : string) (a : arg) (o : list (string * arg)) : list (string * arg) :=
  match o with
  | [] => [(k, a)]
  | (k', a') :: o =>
      if bool_decide (k' = k) then (k, a) :: o else (k', a') :: set_arg k a o
  end.

Definition truthy_arg (a : option arg) : bool :=
  match a with
  | Some (AFun _) => true
  | Some (AVal v) => truthy v
  | None => false
  end.

Definition view_of (this : reactor) (w : world) : view :=
  View (mem w) (cloned_initial_state w) (_data this).

(** ** Reactor.prototype.render *)

Definition render (r : nat) : js unit :=
  let* this := this_ r in
  clearTimeout (_render_timeout this) ;;
  let* opts := match r_options this with
               | Some o => ret o
               | None => throw TypeError         (* this.options is undefined *)
               end in
  let* v := gets (view_of this) in
  let* go := call "should_render" (get_arg "should_render" opts) v in
  when (truthy go) (
    let* node_html := call "_html_callback" (AFun <$> _html_callback this) v in
    (* update dom only if the return value of render changed *)
    when (truthy (force_update this) || strict_neq node_html (old_node_html this)) (
      match node this with
      | Some n => set_innerHTML n node_html
      | None => throw TypeError
      end ;;
      (* cache the html that has been rendered *)
      update_this r (set_old_node_html node_html) ;;
      (let* _ := call "updated_html" (get_arg "updated_html" opts) v in ret tt) ;;
      update_this r (set_force_update (VBool false)))).

(** ** stator *)

(** [stator._clear_debounce_timeout] *)
Definition _clear_debounce_timeout : js unit :=
  let* h := gets (fun w => _debounce_timeout (stator w)) in
  clearTimeout h ;;
  set__debounce_timeout HNull.

(** [window.dispatchEvent(new CustomEvent('state_changed'))]: the listeners
    registered at that moment run in order; an exception of a listener is
    reported by the browser and the next one runs. *)
Definition run_listener (l : listener) : js unit :=
  match l with
  | LRender r => reported (render r)
  | LExternal _ => ret tt
  end.

Fixpoint run_listeners (ls : list listener) : js unit :=
  match ls with
  | [] => ret tt
  | l :: ls => run_listener l ;; run_listeners ls
  end.

Definition dispatchEvent : js unit :=
  record_event ;;
  let* ls := gets (fun w => listeners (br w)) in
  run_listeners ls.

(** [stator._dispatch_event] *)
Definition _dispatch_event : js unit :=
  dispatchEvent ;;
  _clear_debounce_timeout ;;
  set__suppressed_event_count 0.

(** The strings thrown by the traps. *)
Definition type_error (key old_type new_type : string) : exn :=
  Thrown ("Type Error: attempted to change " +:+ key +:+ " from "
            +:+ old_type +:+ " to " +:+ new_type).
Definition new_key_error (key : string) : exn :=
  Thrown ("cannot create new key after initialization (attempted to create "
            +:+ key +:+ ")").
Definition missing_key_error (key : string) : exn :=
  Thrown ("attempted to access key that was not set during initialization: " +:+ key).

(** [_check_type_match] *)
Definition _check_type_match (a b : value) (key : string) : js unit :=
  when (strict_neq a VUndefined) (
    let old_type := typeof a in
    let new_type := typeof b in
    when (negb (String.eqb old_type new_type)) (
      throw (type_error key old_type new_type))).

(** [stator.add_listener]: one function or an array of functions. *)
Inductive listener_arg :=
| One (f : listener)
| Many (fs : list listener).

Fixpoint add_listeners (fs : list listener) : js unit :=
  match fs with
  | [] => ret tt
  | f :: fs => addEventListener f ;; add_listeners fs
  end.

Definition add_listener (func : listener_arg) : js unit :=
  match func with
  | Many fs => add_listeners fs
  | One f => addEventListener f
  end.

(** [stator.create_state]: the Proxy it returns is the pair of traps
    [state_set] and [state_get] below over [cloned_initial_state]. *)
Definition create_state (initial_state : value) : js unit :=
  let* created := gets (fun w => _state_created (stator w)) in
  if created then throw (Thrown "cannot create more than one global state")
  else
    set__state_created true ;;
    let* cloned := clone initial_state in
    let* c := proxy_target cloned in
    modify (with_cloned_initial_state c).

Definition handle_truthy (h : handle) : bool :=
  match h with HId _ => true | _ => false end.

(** The debounce logic of the [set] trap (the statements after the
    assignment to [target[key]]). *)
Definition emit_or_schedule : js unit :=
  let* opts := gets (fun w => options (stator w)) in
  (* suppress active timeouts (if any) *)
  let* pending := gets (fun w => _debounce_timeout (stator w)) in
  when (handle_truthy pending) (
    _clear_debounce_timeout ;;
    let* n := gets (fun w => _suppressed_event_count (stator w)) in
    set__suppressed_event_count (S n)) ;;
  (* emit event, or schedule event to be emitted *)
  let* n := gets (fun w => _suppressed_event_count (stator w)) in
  if Z.of_nat n >=? max_suppressed_event_count opts then
    when (debug opts)
      (console_log [VStr ("suppressed " +:+ pretty n +:+ " events ("
                            +:+ pretty (max_suppressed_event_count opts)
                            +:+ " max). Emitting event now.")]) ;;
    _dispatch_event
  else
    let* id := setTimeout CbDispatchEvent (debounce_ms opts) in
    set__debounce_timeout id.

(** The [set] trap of the global state. *)
Definition state_set (key : string) (val : value) : js value :=
  let* target := gets cloned_initial_state in
  let* h := gets mem in
  if negb (has_property h target key) then
    throw (new_key_error key)
  else
    let oldval := get_property h target key in
    (* update the state *)
    when (strict_neq oldval val) (
      let* opts := gets (fun w => options (stator w)) in
      when (debug opts)
        (console_log [VStr ("stator " +:+ key); oldval; VStr " -> "; val]) ;;
      (* type check *)
      when (type_check opts) (_check_type_match oldval val key) ;;
      (* update the value *)
      let* copy := clone val in
      modify (fun w => with_cloned_initial_state
                         (set_property (mem w) (cloned_initial_state w) key copy) w) ;;
      emit_or_schedule) ;;
    ret (VBool true).

(** The [get] trap of the global state. *)
Definition state_get (key : string) : js value :=
  let* target := gets cloned_initial_state in
  let* h := gets mem in
  if has_property h target key then ret (get_property h target key)
  else throw (missing_key_error key).

(** ** Reactor *)

(** [Reactor.prototype.should_render] and [Reactor.prototype.updated_html]. *)
Definition prototype_should_render : jsfun := FPred (fun _ => true).
Definition prototype_updated_html : jsfun := FVoid.

(** The keys of [default_options]. *)
Definition option_keys : list string :=
  [ "should_render"; "updated_html"; "listen_to_global_state"; "state"; "debug" ].

(** The double quote character of the messages. *)
Definition dquote : string := String (Ascii.ascii_of_nat 34) EmptyString.

Definition invalid_option_message (o : string) : string :=
  "Reactor got invalid option " +:+ dquote +:+ o +:+ dquote.

(** [Object.assign(default_options, options)] *)
Definition assign (default_options options : list (string * arg))
  : list (string * arg) :=
  foldl (fun o ka => set_arg ka.1 ka.2 o) default_options options.

Fixpoint console_errors (msgs : list string) : js unit :=
  match msgs with
  | [] => ret tt
  | m :: msgs => console_error m ;; console_errors msgs
  end.

(** [new Reactor(element, options, html_callback)].  [options] lists the
    properties of the options object in enumeration order.  The result is
    the new Reactor, by its index in [reactors]. *)
Definition Reactor (element : string) (options : list (string * arg))
    (html_callback : arg) : js nat :=
  let* r := new_object in
  update_this r (set__render_timeout HNull) ;;
  (* select from dom once *)
  let* nodes := gets (fun w => document w element) in
  if negb (length nodes =? 1)%nat then
    throw (Thrown ("Reactor: querySelector " +:+ dquote +:+ element +:+ dquote +:+ " matched "
                     +:+ pretty (length nodes) +:+ " nodes. Expected 1."))
  else
    update_this r (set_element_node element (head nodes)) ;;
    let* state := alloc (OPlain []) in
    let default_options :=
      [ ("should_render", AFun prototype_should_render);
        ("updated_html", AFun prototype_updated_html);
        ("listen_to_global_state", AVal (VBool true));
        ("state", AVal state);
        ("debug", AVal (VBool false)) ] in
    let invalid_options :=
      filter (fun o => o ∉ map fst default_options) (map fst options) in
    if (0 <? length invalid_options)%nat then
      console_errors (map invalid_option_message invalid_options) ;;
      ret r
    else
      (* set options *)
      let opts := assign default_options options in
      update_this r (set_r_options opts) ;;
      (* store the render callback *)
      match html_callback with
      | AVal _ =>
          throw (Thrown "Reactor did not receive a render callback function. This argument should be a function that returns html to populate the DOM element.")
      | AFun f =>
          update_this r (set__html_callback f) ;;
          when (truthy_arg (get_arg "listen_to_global_state" opts))
            (* call render function when global state changes *)
            (add_listener (One (LRender r))) ;;
          (* this.options.state || {} *)
          let* data :=
            match get_arg "state" opts with
            | Some (AVal v) =>
                if truthy v then clone v
                else let* empty := alloc (OPlain []) in clone empty
            | _ => throw SyntaxError      (* JSON.parse(JSON.stringify(f)) *)
            end in
          let* c := proxy_target data in
          update_this r (set__data c) ;;
          (* call the update function immediately so it renders itself *)
          render r ;;
          ret r
      end.

(** The [set] trap of [this.state] of Reactor [r].  It ends without a
    [return]: its result is [undefined]. *)
Definition local_set (r : nat) (key : string) (val : value) : js value :=
  let* that := this_ r in
  match _data that with
  | None => throw TypeError                 (* that.state is undefined *)
  | Some target =>
      let* h := gets mem in
      if negb (has_property h target key) then
        throw (new_key_error key)
      else
        when (truthy_arg (r_options that ≫= get_arg "debug"))
          (console_log [VStr (default "undefined" (element that) +:+ ": " +:+ key);
                        get_property h target key; VStr " -> "; val]) ;;
        _check_type_match (get_property h target key) val key ;;
        update_this r (set__data (set_property h target key val)) ;;
        (* limit update rate *)
        clearTimeout (_render_timeout that) ;;
        let DEBOUNCE_MS := 10 in
        let* id := setTimeout (CbRender r) DEBOUNCE_MS in
        update_this r (set__render_timeout id) ;;
        ret VUndefined
  end.

(** The [get] trap of [this.state] of Reactor [r]. *)
Definition local_get (r : nat) (key : string) : js value :=
  let* that := this_ r in
  match _data that with
  | None => throw TypeError
  | Some target =>
      let* h := gets mem in
      if has_property h target key then ret (get_property h target key)
      else throw (missing_key_error key)
  end.

(** ** The event loop *)

(** A timer fires: it leaves the table, the clock shows its due time and
    its callback runs. *)
Definition run_callback (c : callback) : js unit :=
  match c with
  | CbDispatchEvent => reported _dispatch_event
  | CbRender r => reported (render r)
  end.

Definition fire (t : timer) : js unit :=
  modify (fun w => let b := br w in
    with_br (Browser (Z.max (now b) (due t))
               (cancel (HId (tid t)) (timers b))
               (next_timer b) (listeners b) (events b)
               (console b) (dom_writes b) (calls b)) w) ;;
  run_callback (cb t).

(** The pending timer that is due first; of two due together, the one set
    first. *)
Fixpoint earliest (ts : list timer) : option timer :=
  match ts with
  | [] => None
  | t :: ts =>
      match earliest ts with
      | Some u => if due u <? due t then Some u else Some t
      | None => Some t
      end
  end.

(** The turns of the event loop until time [t]: the timer due first fires,
    as long as one is due by [t].  No callback of the model sets a timer,
    so one turn for each pending timer is fuel enough
    ([advance_to_fires_all]). *)
Fixpoint run_timers (fuel : nat) (t : Z) : js unit :=
  match fuel with
  | O => ret tt
  | S fuel =>
      let* pending := gets (fun w => timers (br w)) in
      match earliest pending with
      | Some x => if due x <=? t then fire x ;; run_timers fuel t else ret tt
      | None => ret tt
      end
  end.

(** Time passes until [t]. *)
Definition advance_to (t : Z) : js unit :=
  let* pending := gets (fun w => timers (br w)) in
  run_timers (length pending) t ;;
  modify (fun w => let b := br w in
    with_br (Browser (Z.max (now b) t) (timers b) (next_timer b) (listeners b)
               (events b) (console b) (dom_writes b) (calls b)) w).

(** The state of the page when the script has been loaded. *)
Definition initial_world (doc : string -> list nat) : world :=
  World [] doc
    (Browser 0 [] 1 [] [] [] [] [])
    (Stator (StatorOptions 10 10 true false) HUndefined 0 false)
    (Container [] ProtoObject)
    [].

Definition exec {A} (m : js A) (w : world) : world := (m w).2.
Definition result {A} (m : js A) (w : world) : completion A := (m w).1.



(** The counter after the "suppress active timeouts" step. *)
Definition suppressed_after (s : stator_state) : nat :=
  if handle_truthy (_debounce_timeout s) then S (_suppressed_event_count s)
  else _suppressed_event_count s.

(** ** Runs of writes *)

(** A write that the [set] trap accepts as a change: it returns [true] and
    the new value differs ([!==]) from the stored one. *)
Definition accepted (key : string) (val : value) (w : world) : Prop :=
  result (state_set key val) w = Return (VBool true) /\
  strict_neq (get_property (mem w) (cloned_initial_state w) key) val = true.

(** Writes one after the other, no timer firing in between. *)
Fixpoint write_all (ws : list (string * value)) (w : world) : world :=
  match ws with
  | [] => w
  | (key, val) :: ws => write_all ws (exec (state_set key val) w)
  end.

Fixpoint all_accepted (ws : list (string * value)) (w : world) : Prop :=
  match ws with
  | [] => True
  | (key, val) :: ws =>
      accepted key val w /\ all_accepted ws (exec (state_set key val) w)
  end.

(** Writes at given times, the event loop running in between. *)
Fixpoint write_stream (ws : list (Z * string * value)) (w : world) : world :=
  match ws with
  | [] => w
  | (t, key, val) :: ws =>
      write_stream ws (exec (advance_to t ;; state_set key val) w)
  end.

Fixpoint stream_accepted (ws : list (Z * string * value)) (w : world) : Prop :=
  match ws with
  | [] => True
  | (t, key, val) :: ws =>
      accepted key val (exec (advance_to t) w) /\
      stream_accepted ws (exec (advance_to t ;; state_set key val) w)
  end.

(** ** Frames *)

(** The part of the world that rendering leaves alone. *)
Definition core (w : world) :=
  (mem w, stator w, cloned_initial_state w,
   (now (br w), next_timer (br w), listeners (br w), events (br w), console (br w)),
   map _render_timeout (reactors w)).

(** A step that at most writes to the DOM, calls functions of Reactors and
    updates the render caches of Reactors. *)
Definition calm (w w' : world) : Prop :=
  core w' = core w /\ timers (br w') = timers (br w).

(** A calm step that may also cancel render timers of Reactors. *)
Definition quiet (w w' : world) : Prop :=
  core w' = core w /\
  sublist (timers (br w')) (timers (br w)) /\
  forall t, t ∈ timers (br w) ->
    t ∈ timers (br w') \/ HId (tid t) ∈ map _render_timeout (reactors w).

Definition respects (R : relation world) {A} (m : js A) : Prop :=
  forall w, R w (m w).2.

(** ** Sample worlds *)

(** The page after [stator.create_state({count: 0, user: {name: "ann"}})]. *)
Definition sample_store : world :=
  exec (let* user := alloc (OPlain [("name", VStr "ann")]) in
        let* initial_state :=
          alloc (OPlain [("count", VNum (Fin 0)); ("user", user)]) in
        create_state initial_state)
       (initial_world (fun _ => [])).

(** ** The debounce timer over time *)

(** Timer numbers are handed out in increasing order: every pending timer
    and every handle kept by a Reactor is below the next number. *)
Definition timers_fresh (w : world) : Prop :=
  (forall t, t ∈ timers (br w) -> (tid t < next_timer (br w))%positive) /\
  (forall id, HId id ∈ map _render_timeout (reactors w) ->
     (id < next_timer (br w))%positive).

(** The latest time at which a stream of changes that began at [t1] is
    notified. *)
Definition deadline (o : stator_options) (t1 : Z) : Z :=
  t1 + Z.max 0 (max_suppressed_event_count o) * Z.max 0 (debounce_ms o).

(** No event since the stream began at [t1] (the events are still [E0]),
    and the debounce timer [id] is pending, due at [d]. *)
Definition armed (o : stator_options) (t1 : Z) (E0 : list Z)
    (id : positive) (d : Z) (w : world) : Prop :=
  timers_fresh w /\
  options (stator w) = o /\
  events (br w) = E0 /\
  _debounce_timeout (stator w) = HId id /\
  Timer id d CbDispatchEvent ∈ timers (br w) /\
  (forall t, t ∈ timers (br w) -> tid t = id -> t = Timer id d CbDispatchEvent) /\
  (HId id ∉ map _render_timeout (reactors w)) /\
  t1 <= now (br w) <= d /\
  d <= t1 + (Z.of_nat (_suppressed_event_count (stator w)) + 1) * Z.max 0 (debounce_ms o) /\
  Z.of_nat (_suppressed_event_count (stator w)) < max_suppressed_event_count o.

(** An event has been dispatched since the stream began, by the deadline. *)
Definition notified (o : stator_options) (t1 : Z) (E0 : list Z) (w : world) : Prop :=
  exists pre e post,
    events (br w) = E0 ++ pre ++ e :: post /\ t1 <= e <= deadline o t1.

(** ** Counting what a render does *)

Definition dom_write_count (w : world) : nat := length (dom_writes (br w)).

Definition hook_calls (w : world) : nat :=
  length (filter (fun site => site = "updated_html") (calls (br w))).

(** A page with one node for the selector [#app] and none for any other;
    and the same page after
    [new Reactor('#app', {}, r => 'hello')]. *)
Definition sample_document (selector : string) : list nat :=
  if bool_decide (selector = "#app") then [7%nat] else [].

Definition sample_page : world :=
  exec (Reactor "#app" [] (AFun (FHtml (fun _ => "hello"))))
       (initial_world sample_document).

(** The page after
    [new Reactor('#app', {state: {count: 0, user: {name: "ann"}}}, r => 'hello')]. *)
Definition sample_counter : world :=
  exec (let* user := alloc (OPlain [("name", VStr "ann")]) in
        let* state := alloc (OPlain [("count", VNum (Fin 0)); ("user", user)]) in
        Reactor "#app" [("state", AVal state)] (AFun (FHtml (fun _ => "hello"))))
       (initial_world sample_document).

(** [sample_store] with [max_suppressed_event_count] set to 2. *)
Definition sample_eager : world :=
  with_stator (Stator (StatorOptions 10 2 true false) HUndefined 0 true) sample_store.

(** ** Well-formed heaps and JSON texts *)

(** The own properties of an object have distinct names. *)
Definition heap_wf (h : heap) : Prop :=
  forall l ps, h !! l = Some (OPlain ps) -> NoDup (map fst ps).

#[warnings="-register-all"]
Inductive json_wf : json -> Prop :=
| wf_null : json_wf JNull
| wf_bool b : json_wf (JBool b)
| wf_num z : json_wf (JNum z)
| wf_str s : json_wf (JStr s)
| wf_arr js : Forall json_wf js -> json_wf (JArr js)
| wf_obj ms :
    NoDup (map fst ms) -> Forall (fun m => json_wf m.2) ms -> json_wf (JObj ms).

(** Nesting depth of arrays and objects. *)
Fixpoint depth (j : json) : nat :=
  match j with
  | JArr js => S (foldr (fun j d => Nat.max (depth j) d) O js)
  | JObj ms => S (foldr (fun m d => Nat.max (depth m.2) d) O ms)
  | _ => O
  end.

(** [h2] has the cells of [h] from [lo] up to [hi]. *)
Definition agree (lo hi : nat) (h h2 : heap) : Prop :=
  forall l, (lo <= l < hi)%nat -> h2 !! l = h !! l.

(** Locations outside [lo, hi). *)
Definition outside (lo hi : nat) (stack : list loc) : Prop :=
  forall l, l ∈ stack -> (l < lo \/ hi <= l)%nat.

(** [v], in the heap [h'], is a copy of the text [j] made on top of [h]:
    only new cells were added, at least as many as [j] is deep; [v] points
    to a new cell if it points anywhere; and in every heap that has these
    new cells, [v] serializes to [j] again. *)
Definition copied (j : json) (h : heap) (v : value) (h' : heap) : Prop :=
  (exists ext, h' = h ++ ext) /\
  (length h + depth j <= length h')%nat /\
  (forall l, v = VRef l -> (length h <= l < length h')%nat) /\
  (forall h2 fuel stack,
     agree (length h) (length h') h' h2 ->
     (depth j < fuel)%nat ->
     outside (length h) (length h') stack ->
     ser fuel stack h2 v = Some (SJson j)).

(** ** What JSON keeps of a value *)

(** The value that a JSON copy of a primitive is: [NaN] and the infinities
    become [null]. *)
Definition json_primitive (v : value) : option value :=
  match v with
  | VNull | VBool _ | VNum (Fin _) | VStr _ => Some v
  | VNum NaN | VNum (Inf _) => Some VNull
  | _ => None
  end.

(** Values that [JSON.stringify] leaves out of an object: [undefined],
    symbols and functions. *)
Definition json_keeps (v : value) : bool :=
  match v with
  | VUndefined | VSymbol _ | VFun _ | VBuiltin (ObjFn _) | VBuiltin (ArrFn _) => false
  | _ => true
  end.

(** A value that [JSON.stringify] refuses inside the object [l]: the object
    itself, which is a cycle, or a BigInt. *)
Definition unserializable_in (l : loc) (v : value) : Prop :=
  v = VRef l \/ exists z, v = VBigInt z.

(** [v] is held by the object or array [o], under some key or index. *)
Definition holds (o : obj) (v : value) : Prop :=
  match o with
  | OPlain ps => exists k, (k, v) ∈ ps
  | OArr es => v ∈ es
  end.

(** ** Listeners and Reactors *)

(** The functions that [stator.add_listener(func)] registers. *)
Definition functions_of (func : listener_arg) : list listener :=
  match func with
  | One f => [f]
  | Many fs => fs
  end.

(** [default_options] of the constructor; [state] is its new empty object. *)
Definition default_options (state : value) : list (string * arg) :=
  [ ("should_render", AFun prototype_should_render);
    ("updated_html", AFun prototype_updated_html);
    ("listen_to_global_state", AVal (VBool true));
    ("state", AVal state);
    ("debug", AVal (VBool false)) ].

(** The string that the constructor throws when the selector does not
    match exactly one node. *)
Definition selector_error (element : string) (matched : nat) : exn :=
  Thrown ("Reactor: querySelector " +:+ dquote +:+ element +:+ dquote +:+ " matched "
            +:+ pretty matched +:+ " nodes. Expected 1.").

(** The string that the constructor throws for a render callback that is
    no function. *)
Definition callback_error : exn :=
  Thrown "Reactor did not receive a render callback function. This argument should be a function that returns html to populate the DOM element.".

(** A Reactor as a completed constructor leaves it: its options hold
    functions for the two hooks, [f] for [should_render]; it has the render
    callback [g] and the node [n]. *)
Definition wired (this : reactor) (f g : jsfun) (n : nat) : Prop :=
  exists opts h,
    r_options this = Some opts /\
    get_arg "should_render" opts = Some (AFun f) /\
    get_arg "updated_html" opts = Some (AFun h) /\
    _html_callback this = Some g /\
    node this = Some n.

(** The fields of a Reactor that [render] never assigns. *)
Definition fixed_fields (this : reactor) :=
  (_render_timeout this, element this, node this, r_options this,
   _html_callback this, _data this).

(** The cached html of a Reactor is [html] and its force-update flag is
    unset: [render] has nothing to do while the callback returns [html]. *)
Definition shows (this : reactor) (html : value) : Prop :=
  old_node_html this = html /\ truthy (force_update this) = false.

(** ** The scheduler's invariant *)

(** Timer numbers are fresh and distinct, and a pending timer of
    [_dispatch_event] is the one that [stator._debounce_timeout] names. *)
Definition scheduler_ok (w : world) : Prop :=
  timers_fresh w /\
  NoDup (map tid (timers (br w))) /\
  forall t, t ∈ timers (br w) -> cb t = CbDispatchEvent ->
    _debounce_timeout (stator w) = HId (tid t).

(** A step that sets no timer and leaves [stator._debounce_timeout]. *)
Definition settles (w w' : world) : Prop :=
  _debounce_timeout (stator w') = _debounce_timeout (stator w) /\
  next_timer (br w') = next_timer (br w) /\
  sublist (timers (br w')) (timers (br w)) /\
  forall id, HId id ∈ map _render_timeout (reactors w') ->
    HId id ∈ map _render_timeout (reactors w).

(** The debounce timer [id], due at [d], is pending and no event has been
    dispatched since the events were [E0]. *)
Definition pending (E0 : list Z) (id : positive) (d : Z) (w : world) : Prop :=
  scheduler_ok w /\
  events (br w) = E0 /\
  _debounce_timeout (stator w) = HId id /\
  Timer id d CbDispatchEvent ∈ timers (br w) /\
  (HId id ∉ map _render_timeout (reactors w)) /\
  now (br w) <= d.

(** No debounce timer is pending. *)
Definition idle (w : world) : Prop :=
  scheduler_ok w /\ handle_truthy (_debounce_timeout (stator w)) = false.

(** ** Pages *)

(** What the scripts of a page do with the library, one call after the
    other; between two calls, time may pass. *)
Inductive op :=
| CreateState (initial_state : value)            (* stator.create_state(..) *)
| Write (key : string) (val : value)             (* state[key] = val *)
| Read (key : string)                            (* state[key] *)
| AddListener (func : listener_arg)              (* stator.add_listener(..) *)
| SetOptions (o : stator_options)                (* stator.options.x = .. *)
| New (el : string) (options : list (string * arg)) (html_callback : arg)
| LocalWrite (r : nat) (key : string) (val : value)   (* r.state[key] = val *)
| LocalRead (r : nat) (key : string)             (* r.state[key] *)
| Render (r : nat)                               (* r.render() *)
| Allocate (o : obj)                             (* an object or array literal *)
| Wait (t : Z).                                  (* the event loop, until [t] *)

Definition set_options (o : stator_options) : js unit :=
  modify (fun w => let s := stator w in
    with_stator (Stator o (_debounce_timeout s) (_suppressed_event_count s)
                   (_state_created s)) w).

(** One call.  An exception ends the call; the page goes on with the next
    one, which covers the pages that stop there. *)
Definition step (o : op) : js unit :=
  match o with
  | CreateState v => reported (create_state v)
  | Write key val => reported (state_set key val)
  | Read key => reported (state_get key)
  | AddListener func => reported (add_listener func)
  | SetOptions o => set_options o
  | New el options html_callback => reported (Reactor el options html_callback)
  | LocalWrite r key val => reported (local_set r key val)
  | LocalRead r key => reported (local_get r key)
  | Render r => reported (render r)
  | Allocate o => reported (alloc o)
  | Wait t => advance_to t
  end.

Fixpoint run (ops : list op) (w : world) : world :=
  match ops with
  | [] => w
  | o :: ops => run ops (exec (step o) w)
  end.

(** ** A Reactor that follows the global state *)

(** Reactor [r] listens to the global state, is wired with [f] and [g] on
    node [n], and sees the view [v]; it still has the cache [old0] and the
    flag [fu0], or it shows the html of [v] and, if that was a change, the
    html has been written to the node. *)
Definition follows (r : nat) (f g : jsfun) (n : nat) (v : view)
    (old0 fu0 : value) (w : world) : Prop :=
  mem w = view_heap v /\
  cloned_initial_state w = view_global v /\
  LRender r ∈ listeners (br w) /\
  exists this,
    reactors w !! r = Some this /\
    wired this f g n /\
    _data this = view_local v /\
    ((old_node_html this = old0 /\ force_update this = fu0) \/
     (shows this (apply_jsfun g v) /\
      (truthy fu0 || strict_neq (apply_jsfun g v) old0 = true ->
       (n, apply_jsfun g v) ∈ dom_writes (br w)))).

Definition refreshed (r : nat) (f g : jsfun) (n : nat) (v : view)
    (old0 fu0 : value) (w : world) : Prop :=
  follows r f g n v old0 fu0 w /\
  exists this, reactors w !! r = Some this /\ shows this (apply_jsfun g v) /\
    (truthy fu0 || strict_neq (apply_jsfun g v) old0 = true ->
     (n, apply_jsfun g v) ∈ dom_writes (br w)).

(** ** More sample worlds *)

(** The text of the number under [count]. *)
Definition count_of (c : container) : string :=
  match get_own "count" (own c) with
  | Some (VNum (Fin z)) => pretty z
  | _ => EmptyString
  end.

Definition global_count (v : view) : string := count_of (view_global v).

Definition local_count (v : view) : string :=
  match view_local v with
  | Some c => count_of c
  | None => EmptyString
  end.

(** The page after [state = stator.create_state({count: 0})] and
    [new Reactor('#app', {}, r => state.count)]. *)
Definition sample_app : world :=
  exec (let* initial_state := alloc (OPlain [("count", VNum (Fin 0))]) in
        create_state initial_state ;;
        Reactor "#app" [] (AFun (FHtml global_count)))
       (initial_world sample_document).

(** The page after
    [new Reactor('#app', {state: {count: 0}}, r => r.state.count)]. *)
Definition sample_local : world :=
  exec (let* state := alloc (OPlain [("count", VNum (Fin 0))]) in
        Reactor "#app" [("state", AVal state)] (AFun (FHtml local_count)))
       (initial_world sample_document).

(** The page after
    [new Reactor('#app', {should_render: r => false}, r => 'hello')]. *)
Definition sample_hidden : world :=
  exec (Reactor "#app" [("should_render", AFun (FPred (fun _ => false)))]
          (AFun (FHtml (fun _ => "hello"))))
       (initial_world sample_document).

(** [sample_store] after [o = {}; o.self = o]. *)
Definition sample_cyclic : world :=
  exec (alloc (OPlain [("self", VRef (length (mem sample_store)))])) sample_store.

(** The page after [o = {count: 0, name: "ann", f: function(){}, x: undefined}]. *)
Definition sample_literal : world :=
  exec (alloc (OPlain [("count", VNum (Fin 0)); ("name", VStr "ann");
                       ("f", VFun 1); ("x", VUndefined)]))
       (initial_world sample_document).


(** The page after
    [new Reactor('#app', {listen_to_global_state: false}, r => 'hello')]. *)
Definition sample_deaf : world :=
  exec (Reactor "#app" [("listen_to_global_state", AVal (VBool false))]
          (AFun (FHtml (fun _ => "hello"))))
       (initial_world sample_document).

(** A script: [o = {count: 0}; state = stator.create_state(o);
    state.count = 1; state.count = 2]. *)
Definition sample_script : list op :=
  [ Allocate (OPlain [("count", VNum (Fin 0))]);
    CreateState (VRef 0%nat);
    Write "count" (VNum (Fin 1));
    Write "count" (VNum (Fin 2)) ].


(** * Properties *)

(** ** Reasoning about computations *)

Ltac unfold_js :=
  cbv beta iota zeta delta [bind gets modify ret throw when reported exec result fst snd].

Section Respects.
Context (R : relation world) `{!PreOrder R}.

Lemma respects_ret {A} (a : A) : respects R (ret a).
Proof. intros w. reflexivity. Qed.

Lemma respects_throw {A} (e : exn) : respects R (@throw A e).
Proof. intros w. reflexivity. Qed.

Lemma respects_gets {A} (f : world -> A) : respects R (gets f).
Proof. intros w. reflexivity. Qed.

Lemma respects_modify (f : world -> world) :
  (forall w, R w (f w)) -> respects R (modify f).
Proof. intros H w. apply H. Qed.

Lemma respects_bind {A B} (m : js A) (k : A -> js B) :
  respects R m -> (forall a, respects R (k a)) -> respects R (bind m k).
Proof.
  intros Hm Hk w. unfold bind. specialize (Hm w).
  destruct (m w) as [[a|e] w1]; simpl in *; [|done].
  etrans; [exact Hm|]. apply Hk.
Qed.

Lemma respects_when (c : bool) (m : js unit) :
  respects R m -> respects R (when c m).
Proof. intros H. destruct c; [exact H | apply respects_ret]. Qed.

Lemma respects_reported {A} (m : js A) : respects R m -> respects R (reported m).
Proof. intros H w. apply H. Qed.
End Respects.

#[global] Instance calm_preorder : PreOrder calm.
Proof.
  split.
  - intros w. split; reflexivity.
  - intros a b c [H1 H2] [H3 H4]. split; congruence.
Qed.

#[global] Instance quiet_preorder : PreOrder quiet.
Proof.
  split.
  - intros w. split; [done|]. split; [done|]. intros t Ht. by left.
  - intros a b c (H1 & H2 & H3) (H4 & H5 & H6). split; [congruence|].
    split; [by etrans|].
    intros t Ht. destruct (H3 t Ht) as [Hb|Hr]; [|by right].
    destruct (H6 t Hb) as [Hc|Hr]; [by left|right].
    unfold core in H1. congruence.
Qed.

Lemma calm_quiet w w' : calm w w' -> quiet w w'.
Proof.
  intros [H1 H2]. split; [done|]. rewrite H2. split; [done|]. intros t Ht. by left.
Qed.

Lemma map_alter_frame {A B} (g : A -> B) (f : A -> A) (i : nat) (l : list A) :
  (forall x, g (f x) = g x) -> map g (alter f i l) = map g l.
Proof.
  intros H. revert i. induction l as [|x l IH]; intros [|i]; simpl; try done.
  - by rewrite H.
  - f_equal. apply IH.
Qed.

(** Updating a field other than [_render_timeout] of a Reactor is calm. *)
Lemma update_this_calm r f :
  (forall x, _render_timeout (f x) = _render_timeout x) ->
  respects calm (update_this r f).
Proof.
  intros H w. split; [|done]. unfold core. simpl.
  by rewrite (map_alter_frame _render_timeout f r _ H).
Qed.

Lemma call_calm site a v : respects calm (call site a v).
Proof.
  destruct a as [[f|x]|]; simpl; try (apply respects_throw; apply _).
  apply respects_bind; [apply _| |intros; apply respects_ret; apply _].
  intros w. split; done.
Qed.

Lemma clearTimeout_quiet h w :
  h ∈ map _render_timeout (reactors w) -> quiet w (exec (clearTimeout h) w).
Proof.
  intros Hh. split; [done|].
  destruct h as [| |id]; [split; [done|]; intros t Ht; by left ..|].
  unfold exec, clearTimeout, modify. simpl. split.
  - apply sublist_filter.
  - intros t Ht. destruct (decide (tid t = id)) as [->|Hne]; [by right|left].
    by apply list_elem_of_filter.
Qed.


Lemma set_innerHTML_calm n html : respects calm (set_innerHTML n html).
Proof. intros w. split; reflexivity. Qed.


Lemma respects_apply (R : relation world) {A} (m : js A) w :
  respects R m -> R w (m w).2.
Proof. intros H. apply H. Qed.

Ltac frame_step :=
  lazymatch goal with
  | |- respects _ (ret _) => apply respects_ret
  | |- respects _ (throw _) => apply respects_throw
  | |- respects _ (gets _) => apply respects_gets
  | |- respects _ (reported _) => apply respects_reported
  | |- respects _ (when _ _) => apply respects_when
  | |- respects _ (bind _ _) => apply respects_bind; [| | intros ?]
  | |- respects calm (call _ _ _) => apply call_calm
  | |- respects calm (set_innerHTML _ _) => apply set_innerHTML_calm
  | |- respects calm (update_this _ _) =>
      apply update_this_calm; intros []; reflexivity
  | |- respects _ (match ?x with _ => _ end) => destruct x
  end;
  try match goal with |- PreOrder _ => apply _ end.

Lemma render_quiet r : respects quiet (render r).
Proof.
  intros w. unfold render. unfold bind at 1. unfold this_ at 1.
  destruct (reactors w !! r) as [this|] eqn:E; [|reflexivity].
  unfold bind at 1.
  change ((clearTimeout (_render_timeout this)) w)
    with (Return tt, exec (clearTimeout (_render_timeout this)) w).
  cbv beta iota.
  etrans.
  { apply clearTimeout_quiet. apply list_elem_of_fmap. exists this. split; [done|].
    by eapply list_elem_of_lookup_2. }
  apply calm_quiet.
  apply (respects_apply calm). repeat frame_step.
Qed.

Lemma run_listeners_quiet ls : respects quiet (run_listeners ls).
Proof.
  induction ls as [|[r|f] ls IH]; simpl.
  - frame_step.
  - frame_step; [|exact IH]. frame_step. apply render_quiet.
  - frame_step; [|exact IH]. frame_step.
Qed.

Lemma cancel_sublist h ts : sublist (cancel h ts) ts.
Proof. destruct h; simpl; try done. apply sublist_filter. Qed.

Lemma elem_of_cancel h ts t : t ∈ cancel h ts <-> t ∈ ts /\ HId (tid t) ≠ h.
Proof.
  destruct h as [| |id]; simpl.
  1,2: split; [intros ?; by split | by intros [? _]].
  rewrite list_elem_of_filter. split; intros [H1 H2]; split; congruence.
Qed.

Lemma run_listeners_returns ls w :
  run_listeners ls w = (Return tt, exec (run_listeners ls) w).
Proof.
  revert w. induction ls as [|[r|f] ls IH]; intros w; simpl; [done|..].
  - unfold exec, bind, reported. simpl. rewrite IH. done.
  - unfold exec, bind, ret. simpl. rewrite IH. done.
Qed.

Lemma _dispatch_event_eq w :
  _dispatch_event w =
    (Return tt,
     exec (_clear_debounce_timeout ;; set__suppressed_event_count 0)
       (exec (run_listeners (listeners (br w))) (exec record_event w))).
Proof.
  unfold _dispatch_event, dispatchEvent, bind at 1 2 3. unfold record_event at 1.
  unfold modify at 1, gets at 1. cbv beta iota. rewrite run_listeners_returns.
  unfold exec, bind, _clear_debounce_timeout, set__debounce_timeout,
    set__suppressed_event_count, clearTimeout, modify, gets. reflexivity.
Qed.

(** What [stator._dispatch_event] does to the world. *)
Lemma _dispatch_event_spec w :
  result _dispatch_event w = Return tt /\
  mem (exec _dispatch_event w) = mem w /\
  cloned_initial_state (exec _dispatch_event w) = cloned_initial_state w /\
  stator (exec _dispatch_event w)
    = Stator (options (stator w)) HNull 0 (_state_created (stator w)) /\
  events (br (exec _dispatch_event w)) = events (br w) ++ [now (br w)] /\
  now (br (exec _dispatch_event w)) = now (br w) /\
  next_timer (br (exec _dispatch_event w)) = next_timer (br w) /\
  listeners (br (exec _dispatch_event w)) = listeners (br w) /\
  console (br (exec _dispatch_event w)) = console (br w) /\
  map _render_timeout (reactors (exec _dispatch_event w))
    = map _render_timeout (reactors w) /\
  sublist (timers (br (exec _dispatch_event w)))
          (cancel (_debounce_timeout (stator w)) (timers (br w))) /\
  (forall t, t ∈ timers (br w) ->
     t ∈ timers (br (exec _dispatch_event w))
     \/ HId (tid t) ∈ map _render_timeout (reactors w)
     \/ HId (tid t) = _debounce_timeout (stator w)).
Proof.
  unfold exec at 1 2 3 4 5 6 7 8 9 10 11, result. rewrite _dispatch_event_eq.
  pose proof (run_listeners_quiet (listeners (br w)) (exec record_event w))
    as (Hc & Hs & Hk).
  fold (exec (run_listeners (listeners (br w))) (exec record_event w)) in Hc, Hs, Hk.
  set (w2 := exec (run_listeners (listeners (br w))) (exec record_event w)) in *.
  unfold core in Hc. simpl in Hc, Hs, Hk.
  injection Hc as Hmem Hst Hcl Hnow Hnext Hlis Hev Hcon Hrt.
  unfold exec, bind, _clear_debounce_timeout, set__debounce_timeout,
    set__suppressed_event_count, clearTimeout, modify, gets. simpl.
  rewrite Hmem, Hst, Hcl, Hnow, Hnext, Hlis, Hev, Hcon, Hrt.
  repeat (split; [done|]). split.
  - clear Hk. induction Hs; simpl.
    + destruct (_debounce_timeout (stator w)); simpl; done.
    + destruct (_debounce_timeout (stator w)) as [| |id]; simpl in *;
        [by constructor..|].
      rewrite !filter_cons. case_decide; [by constructor | done].
    + destruct (_debounce_timeout (stator w)) as [| |id]; simpl in *;
        [by constructor..|].
      rewrite (filter_cons _ x l2). case_decide; [by constructor | done].
  - intros t Ht. destruct (Hk t Ht) as [H2|Hr]; [|by right; left].
    destruct (decide (HId (tid t) = _debounce_timeout (stator w))) as [He|Hne];
      [by right; right | left].
    apply elem_of_cancel. done.
Qed.

Lemma emit_or_schedule_eq w :
  emit_or_schedule w =
    (Return tt,
     let o := options (stator w) in
     let w1 :=
       if handle_truthy (_debounce_timeout (stator w))
       then exec (_clear_debounce_timeout ;;
                  set__suppressed_event_count (S (_suppressed_event_count (stator w)))) w
       else w in
     if Z.of_nat (suppressed_after (stator w)) >=? max_suppressed_event_count o
     then exec _dispatch_event
            (exec (when (debug o)
                     (console_log
                        [VStr ("suppressed " +:+ pretty (suppressed_after (stator w))
                               +:+ " events (" +:+ pretty (max_suppressed_event_count o)
                               +:+ " max). Emitting event now.")])) w1)
     else exec (let* id := setTimeout CbDispatchEvent (debounce_ms o) in
                set__debounce_timeout id) w1).
Proof.
  assert (Hd : forall x, _dispatch_event x = (Return tt, exec _dispatch_event x)).
  { intros x. unfold exec. by rewrite _dispatch_event_eq. }
  unfold emit_or_schedule, suppressed_after.
  destruct (_debounce_timeout (stator w)) as [| |id] eqn:Eh;
    destruct (debug (options (stator w))) eqn:Ed.
  all: unfold bind, gets, when, _clear_debounce_timeout, set__debounce_timeout,
         set__suppressed_event_count, clearTimeout, setTimeout, console_log,
         modify, ret; cbv beta iota zeta; rewrite ?Eh, ?Ed; simpl.
  all: destruct (_ >=? _); [rewrite Hd; reflexivity | reflexivity].
Qed.


(** What the debounce logic of the [set] trap does to the world. *)
Lemma emit_or_schedule_spec w :
  result emit_or_schedule w = Return tt /\
  mem (exec emit_or_schedule w) = mem w /\
  cloned_initial_state (exec emit_or_schedule w) = cloned_initial_state w /\
  options (stator (exec emit_or_schedule w)) = options (stator w) /\
  _state_created (stator (exec emit_or_schedule w)) = _state_created (stator w) /\
  now (br (exec emit_or_schedule w)) = now (br w) /\
  listeners (br (exec emit_or_schedule w)) = listeners (br w) /\
  map _render_timeout (reactors (exec emit_or_schedule w))
    = map _render_timeout (reactors w) /\
  if Z.of_nat (suppressed_after (stator w))
       >=? max_suppressed_event_count (options (stator w))
  then
    _debounce_timeout (stator (exec emit_or_schedule w)) = HNull /\
    _suppressed_event_count (stator (exec emit_or_schedule w)) = O /\
    events (br (exec emit_or_schedule w)) = events (br w) ++ [now (br w)] /\
    next_timer (br (exec emit_or_schedule w)) = next_timer (br w) /\
    sublist (timers (br (exec emit_or_schedule w)))
            (cancel (_debounce_timeout (stator w)) (timers (br w))) /\
    (forall t, t ∈ timers (br w) ->
       t ∈ timers (br (exec emit_or_schedule w))
       \/ HId (tid t) ∈ map _render_timeout (reactors w)
       \/ HId (tid t) = _debounce_timeout (stator w))
  else
    _debounce_timeout (stator (exec emit_or_schedule w)) = HId (next_timer (br w)) /\
    _suppressed_event_count (stator (exec emit_or_schedule w))
      = suppressed_after (stator w) /\
    events (br (exec emit_or_schedule w)) = events (br w) /\
    next_timer (br (exec emit_or_schedule w)) = Pos.succ (next_timer (br w)) /\
    timers (br (exec emit_or_schedule w))
      = cancel (_debounce_timeout (stator w)) (timers (br w))
        ++ [Timer (next_timer (br w))
                  (now (br w) + Z.max 0 (debounce_ms (options (stator w))))
                  CbDispatchEvent] /\
    reactors (exec emit_or_schedule w) = reactors w /\
    console (br (exec emit_or_schedule w)) = console (br w) /\
    dom_writes (br (exec emit_or_schedule w)) = dom_writes (br w).
Proof.
  unfold result, exec. rewrite emit_or_schedule_eq. cbv zeta. unfold fst, snd.
  destruct (Z.of_nat _ >=? _).
  - match goal with |- context [exec _dispatch_event ?x] => set (w1 := x) end.
    pose proof (_dispatch_event_spec w1) as (_ & H1 & H2 & H3 & H4 & H5 & H6 & H7 & H8 & H9 & H10 & H11).
    rewrite H1, H2, H3, H5, H7, H9, H4, H6. clear H1 H2 H3 H5 H7 H9 H4 H6 H8.
    subst w1.
    destruct (_debounce_timeout (stator w)) as [| |id] eqn:Eh;
      destruct (debug (options (stator w))) eqn:Ed; simpl in *.
    all: repeat (split; [done|]).
    all: try change (exec (ret tt) w) with w in *.
    all: try change (exec (ret tt) ?x) with x in *.
    all: rewrite ?Eh in H10, H11; simpl in H10.
    1,2,3,4: split; [exact H10 | exact H11].
    1,2: split; [exact H10 |].
    1,2: intros t Ht; destruct (decide (tid t = id)) as [<-|Hne];
         [by right; right |];
         destruct (H11 t) as [?|[?|?]];
         [apply elem_of_cancel; split; [done | congruence]
         | by left | by right; left | done].
  - unfold suppressed_after.
    destruct (_debounce_timeout (stator w)) as [| |id] eqn:Eh; simpl.
    all: rewrite ?Eh; repeat (split; [done|]); done.
Qed.

(** The [set] trap of the global state, case by case. *)
Lemma state_set_eq key v w :
  state_set key v w =
    let c := cloned_initial_state w in
    let h := mem w in
    let o := options (stator w) in
    let old := get_property h c key in
    if negb (has_property h c key) then (Throw (new_key_error key), w)
    else if strict_neq old v then
      let w1 := exec (when (debug o)
                        (console_log [VStr ("stator " +:+ key); old; VStr " -> "; v])) w in
      if type_check o && strict_neq old VUndefined
         && negb (String.eqb (typeof old) (typeof v))
      then (Throw (type_error key (typeof old) (typeof v)), w1)
      else match _clone_obj h v with
           | Throw e => (Throw e, w1)
           | Return (copy, h') =>
               (Return (VBool true),
                exec emit_or_schedule
                  (with_cloned_initial_state (set_property h' c key copy)
                     (with_mem h' w1)))
           end
    else (Return (VBool true), w).
Proof.
  assert (He : forall x, emit_or_schedule x = (Return tt, exec emit_or_schedule x)).
  { intros x. unfold exec. by rewrite emit_or_schedule_eq. }
  unfold state_set. cbv zeta.
  unfold bind at 1, gets at 1. cbv beta iota.
  unfold bind at 1, gets at 1. cbv beta iota.
  destruct (has_property (mem w) (cloned_initial_state w) key);
    cbv beta iota delta [negb]; [|reflexivity].
  destruct (strict_neq _ v); [|reflexivity].
  unfold bind, when, _check_type_match, console_log, clone, modify, gets, ret, throw, exec.
  cbv beta iota zeta.
  destruct (debug (options (stator w))); destruct (type_check (options (stator w)));
    simpl;
    destruct (strict_neq (get_property (mem w) (cloned_initial_state w) key) VUndefined);
    simpl;
    destruct (String.eqb (typeof (get_property (mem w) (cloned_initial_state w) key))
                (typeof v)); simpl.
  all: try reflexivity.
  all: destruct (_clone_obj (mem w) v) as [[copy h']|e]; [|reflexivity].
  all: rewrite He; reflexivity.
Qed.

Lemma strict_eq_typeof a b : strict_eq a b = true -> typeof a = typeof b.
Proof.
  unfold strict_eq. destruct a as [| | |[]| | | | | |]; try done;
    intros H%bool_decide_eq_true; by subst.
Qed.

Lemma strict_neq_undefined a : a <> VUndefined -> strict_neq a VUndefined = true.
Proof.
  intros H. unfold strict_neq, strict_eq.
  destruct a as [| | |[]| | | | | |]; try done.
Qed.

Lemma get_property_defined h c key :
  get_property h c key <> VUndefined -> has_property h c key = true.
Proof.
  unfold get_property, has_property. intros H. apply bool_decide_eq_true.
  destruct (find_slot h c key); [by eexists | done].
Qed.

(** An accepted change, taken apart: the world in which the debounce logic
    runs differs from the one before the write by the copy that was stored
    and, with [debug], by a console message. *)
Lemma accepted_inv key v w :
  accepted key v w ->
  exists copy h' w2,
    _clone_obj (mem w) v = Return (copy, h') /\
    exec (state_set key v) w = exec emit_or_schedule w2 /\
    mem w2 = h' /\
    cloned_initial_state w2 = set_property h' (cloned_initial_state w) key copy /\
    stator w2 = stator w /\
    reactors w2 = reactors w /\
    now (br w2) = now (br w) /\
    timers (br w2) = timers (br w) /\
    next_timer (br w2) = next_timer (br w) /\
    listeners (br w2) = listeners (br w) /\
    events (br w2) = events (br w).
Proof.
  intros [Hr Hn]. unfold result, exec in *. rewrite state_set_eq in *. cbv zeta in *.
  rewrite Hn in *.
  destruct (negb _); [done|].
  destruct (_ && _); [done|].
  destruct (_clone_obj (mem w) v) as [[copy h']|e]; [|done].
  eexists copy, h', _. split; [done|]. split; [reflexivity|].
  destruct (debug (options (stator w))); simpl; repeat (split; [done|]); done.
Qed.

(** A write that throws changes nothing but, with [debug], the console. *)
Lemma state_set_throw_frame key v w e :
  result (state_set key v) w = Throw e ->
  mem (exec (state_set key v) w) = mem w /\
  cloned_initial_state (exec (state_set key v) w) = cloned_initial_state w /\
  stator (exec (state_set key v) w) = stator w /\
  reactors (exec (state_set key v) w) = reactors w /\
  now (br (exec (state_set key v) w)) = now (br w) /\
  timers (br (exec (state_set key v) w)) = timers (br w) /\
  next_timer (br (exec (state_set key v) w)) = next_timer (br w) /\
  listeners (br (exec (state_set key v) w)) = listeners (br w) /\
  events (br (exec (state_set key v) w)) = events (br w) /\
  dom_writes (br (exec (state_set key v) w)) = dom_writes (br w).
Proof.
  unfold result, exec. rewrite state_set_eq. cbv zeta.
  destruct (negb _); [done|].
  destruct (strict_neq _ _); [|done].
  destruct (_ && _).
  - intros _. destruct (debug (options (stator w))); simpl; repeat (split; [done|]); done.
  - destruct (_clone_obj (mem w) v) as [[copy h']|e']; [done|].
    intros _. destruct (debug (options (stator w))); simpl; repeat (split; [done|]); done.
Qed.

Lemma state_get_frame key w : exec (state_get key) w = w.
Proof.
  unfold exec, state_get, bind, gets. simpl.
  by destruct (has_property _ _ _).
Qed.

Lemma state_get_result key w :
  result (state_get key) w =
    if has_property (mem w) (cloned_initial_state w) key
    then Return (get_property (mem w) (cloned_initial_state w) key)
    else Throw (missing_key_error key).
Proof.
  unfold result, state_get, bind, gets. simpl.
  by destruct (has_property _ _ _).
Qed.

(** One accepted change: either the event is dispatched now, or a timer is
    pending afterwards and the counter, still below the maximum, counts the
    timer that this change replaced. *)
Lemma accepted_step key v w :
  accepted key v w ->
  options (stator (exec (state_set key v) w)) = options (stator w) /\
  (events (br (exec (state_set key v) w)) = events (br w) ++ [now (br w)] \/
   (events (br (exec (state_set key v) w)) = events (br w) /\
    handle_truthy (_debounce_timeout (stator (exec (state_set key v) w))) = true /\
    _suppressed_event_count (stator (exec (state_set key v) w))
      = suppressed_after (stator w) /\
    Z.of_nat (suppressed_after (stator w))
      < max_suppressed_event_count (options (stator w)))).
Proof.
  intros Ha.
  destruct (accepted_inv _ _ _ Ha)
    as (copy & h' & w2 & _ & -> & _ & _ & Hs & _ & Hnow & Hti & Hnt & _ & Hev).
  pose proof (emit_or_schedule_spec w2) as (_ & _ & _ & Ho & _ & _ & _ & _ & H).
  rewrite Hs, Hnow, Hti, Hnt, Hev in H. rewrite Hs in Ho. split; [exact Ho|].
  destruct (Z.of_nat _ >=? _) eqn:E.
  - left. by destruct H as (_ & _ & H & _).
  - right. destruct H as (H1 & H2 & H3 & _). rewrite H1, H2, H3.
    repeat split; try done.
    unfold Z.geb in E.
    destruct (Z.compare_spec (Z.of_nat (suppressed_after (stator w)))
                (max_suppressed_event_count (options (stator w)))); done.
Qed.

Lemma write_all_events_grow ws w :
  all_accepted ws w ->
  options (stator (write_all ws w)) = options (stator w) /\
  exists more, events (br (write_all ws w)) = events (br w) ++ more.
Proof.
  revert w. induction ws as [|[key v] ws IH]; intros w; simpl.
  - intros _. split; [done|]. exists []. by rewrite app_nil_r.
  - intros [Ha Hrest]. destruct (IH _ Hrest) as [Ho [more Hm]].
    destruct (accepted_step _ _ _ Ha) as [Ho1 Hstep]. split; [congruence|].
    rewrite Hm. destruct Hstep as [->|[-> _]].
    + rewrite <- app_assoc. by eexists.
    + by eexists.
Qed.

(** A run of accepted changes without a dispatch: a timer is pending at its
    end and every change but the first one was counted as suppressed. *)
Lemma silent_run ws w k :
  all_accepted ws w ->
  events (br (write_all ws w)) = events (br w) ->
  (k = O \/ (handle_truthy (_debounce_timeout (stator w)) = true /\
             k <= S (_suppressed_event_count (stator w))))%nat ->
  ws <> [] ->
  handle_truthy (_debounce_timeout (stator (write_all ws w))) = true /\
  (k + length ws <= S (_suppressed_event_count (stator (write_all ws w))))%nat /\
  Z.of_nat (_suppressed_event_count (stator (write_all ws w)))
    < max_suppressed_event_count (options (stator w)).
Proof.
  revert w k. induction ws as [|[key v] ws IH]; intros w k; simpl; [done|].
  intros [Ha Hrest] He Hk _.
  destruct (accepted_step _ _ _ Ha) as [Ho Hstep].
  destruct (write_all_events_grow _ _ Hrest) as [Ho2 [more Hm]].
  destruct Hstep as [Hd|(Hev & Hp & Hc & Hlt)].
  { exfalso. rewrite Hm, Hd, <- app_assoc in He.
    apply (f_equal length) in He. rewrite !length_app in He. simpl in He. lia. }
  assert (Hk' : (S k <= S (_suppressed_event_count (stator (exec (state_set key v) w))))%nat).
  { rewrite Hc. unfold suppressed_after. destruct Hk as [->|[Hpw Hkw]]; [lia|].
    rewrite Hpw. lia. }
  destruct ws as [|kv ws].
  - simpl. rewrite Hc. split; [done|]. split; [|done]. rewrite Hc in Hk'. lia.
  - destruct (IH (exec (state_set key v) w) (S k)) as (H1 & H2 & H3);
      [done | congruence | right; by split | done |].
    split; [done|]. split; [simpl in *; lia|]. by rewrite <- Ho.
Qed.

(** * The claims about the global state *)

(** Claim C4.  For every key that the global state holds (every tracked
    key is one), writing a value that is equal ([===]) to the stored one
    succeeds and leaves the whole world as it was: no stored value changes,
    nothing is dispatched and no debounce timer is scheduled. *)
Theorem C4_equal_value_is_noop (w : world) (key : string) (v : value) :
  has_property (mem w) (cloned_initial_state w) key = true ->
  strict_eq (get_property (mem w) (cloned_initial_state w) key) v = true ->
  state_set key v w = (Return (VBool true), w).
Proof.
  intros Hk He. rewrite state_set_eq. cbv zeta.
  unfold strict_neq. rewrite Hk, He. reflexivity.
Qed.

Lemma C4_witness :
  state_set "count" (VNum (Fin 0)) sample_store = (Return (VBool true), sample_store).
Proof. apply C4_equal_value_is_noop; reflexivity. Defined.

(** Claim C2.  With type checking enabled, writing to a key whose stored
    value is defined a value of another runtime type throws the type error;
    the container, the heap and so the result of reading any key are as
    before, and nothing is dispatched or scheduled. *)
Theorem C2_type_mismatch_rejected (w : world) (key : string) (v : value) :
  type_check (options (stator w)) = true ->
  get_property (mem w) (cloned_initial_state w) key <> VUndefined ->
  typeof (get_property (mem w) (cloned_initial_state w) key) <> typeof v ->
  result (state_set key v) w
    = Throw (type_error key
               (typeof (get_property (mem w) (cloned_initial_state w) key))
               (typeof v)) /\
  cloned_initial_state (exec (state_set key v) w) = cloned_initial_state w /\
  mem (exec (state_set key v) w) = mem w /\
  (forall k, result (state_get k) (exec (state_set key v) w) = result (state_get k) w) /\
  stator (exec (state_set key v) w) = stator w /\
  events (br (exec (state_set key v) w)) = events (br w) /\
  timers (br (exec (state_set key v) w)) = timers (br w) /\
  next_timer (br (exec (state_set key v) w)) = next_timer (br w).
Proof.
  intros Ht Hd Hty.
  assert (Hr : result (state_set key v) w
               = Throw (type_error key
                          (typeof (get_property (mem w) (cloned_initial_state w) key))
                          (typeof v))).
  { unfold result. rewrite state_set_eq. cbv zeta.
    rewrite (get_property_defined _ _ _ Hd). simpl negb. cbv iota.
    assert (Hn : strict_neq (get_property (mem w) (cloned_initial_state w) key) v = true).
    { unfold strict_neq. destruct (strict_eq _ v) eqn:E; [|done].
      by apply strict_eq_typeof in E. }
    rewrite Hn, Ht, (strict_neq_undefined _ Hd).
    apply String.eqb_neq in Hty. rewrite Hty. reflexivity. }
  split; [exact Hr|].
  destruct (state_set_throw_frame _ _ _ _ Hr)
    as (Hm & Hc & Hs & _ & _ & Hti & Hnt & _ & Hev & _).
  repeat split; try done.
  intros k. rewrite !state_get_result, Hm, Hc. done.
Qed.

Lemma C2_witness :
  result (state_set "count" (VStr "one")) sample_store
    = Throw (type_error "count" "number" "string") /\
  cloned_initial_state (exec (state_set "count" (VStr "one")) sample_store)
    = cloned_initial_state sample_store /\
  events (br (exec (state_set "count" (VStr "one")) sample_store)) = [] /\
  timers (br (exec (state_set "count" (VStr "one")) sample_store)) = [].
Proof.
  destruct (C2_type_mismatch_rejected sample_store "count" (VStr "one"))
    as (H1 & H2 & _ & _ & _ & H3 & H4 & _); [reflexivity | done | done |].
  repeat split; assumption.
Defined.

(** Claim C10.  A rejected write, be it to an unknown key or, with type
    checking enabled, of a value of another type, leaves the scheduler as it
    was: the pending-timer handle, the suppressed-event counter and the
    timer table are unchanged, as are the container and the heap, and no
    notification is dispatched. *)
Theorem C10_rejected_write_frame (w : world) (key : string) (v : value) :
  has_property (mem w) (cloned_initial_state w) key = false \/
  (type_check (options (stator w)) = true /\
   get_property (mem w) (cloned_initial_state w) key <> VUndefined /\
   typeof (get_property (mem w) (cloned_initial_state w) key) <> typeof v) ->
  (exists e, result (state_set key v) w = Throw e) /\
  _debounce_timeout (stator (exec (state_set key v) w)) = _debounce_timeout (stator w) /\
  _suppressed_event_count (stator (exec (state_set key v) w))
    = _suppressed_event_count (stator w) /\
  timers (br (exec (state_set key v) w)) = timers (br w) /\
  next_timer (br (exec (state_set key v) w)) = next_timer (br w) /\
  events (br (exec (state_set key v) w)) = events (br w) /\
  cloned_initial_state (exec (state_set key v) w) = cloned_initial_state w /\
  mem (exec (state_set key v) w) = mem w.
Proof.
  intros H.
  assert (Hr : exists e, result (state_set key v) w = Throw e).
  { unfold result. rewrite state_set_eq. cbv zeta.
    destruct H as [Hk|(Ht & Hd & Hty)].
    - rewrite Hk. by eexists.
    - rewrite (get_property_defined _ _ _ Hd). simpl negb. cbv iota.
      assert (Hn : strict_neq (get_property (mem w) (cloned_initial_state w) key) v = true).
      { unfold strict_neq. destruct (strict_eq _ v) eqn:E; [|done].
        by apply strict_eq_typeof in E. }
      rewrite Hn, Ht, (strict_neq_undefined _ Hd).
      apply String.eqb_neq in Hty. rewrite Hty. by eexists. }
  split; [exact Hr|]. destruct Hr as [e Hr].
  destruct (state_set_throw_frame _ _ _ _ Hr)
    as (Hm & Hc & Hs & _ & _ & Hti & Hnt & _ & Hev & _).
  rewrite Hs. repeat split; done.
Qed.

Lemma C10_witness :
  (exists e, result (state_set "total" (VNum (Fin 1))) sample_store = Throw e) /\
  _debounce_timeout (stator (exec (state_set "total" (VNum (Fin 1))) sample_store))
    = HUndefined /\
  _suppressed_event_count (stator (exec (state_set "total" (VNum (Fin 1))) sample_store))
    = O.
Proof.
  destruct (C10_rejected_write_frame sample_store "total" (VNum (Fin 1)))
    as (H1 & H2 & H3 & _); [left; reflexivity|].
  repeat split; assumption.
Defined.

(** Claim C5.  On every accepted change the scheduler does this: a pending
    timer is cancelled and counted as suppressed; then, if the counter has
    reached [max_suppressed_event_count], the event is dispatched at once,
    the handle is reset to [null] and the counter to zero, and no timer is
    set; otherwise a new timer for [_dispatch_event] is set [debounce_ms]
    from now and becomes the pending one.  With a maximum of zero or less
    every accepted change dispatches at once. *)
Theorem C5_scheduler (w : world) (key : string) (v : value) :
  accepted key v w ->
  (if Z.of_nat (suppressed_after (stator w))
        >=? max_suppressed_event_count (options (stator w))
   then
     events (br (exec (state_set key v) w)) = events (br w) ++ [now (br w)] /\
     _debounce_timeout (stator (exec (state_set key v) w)) = HNull /\
     _suppressed_event_count (stator (exec (state_set key v) w)) = O /\
     next_timer (br (exec (state_set key v) w)) = next_timer (br w) /\
     sublist (timers (br (exec (state_set key v) w)))
             (cancel (_debounce_timeout (stator w)) (timers (br w)))
   else
     events (br (exec (state_set key v) w)) = events (br w) /\
     _debounce_timeout (stator (exec (state_set key v) w)) = HId (next_timer (br w)) /\
     _suppressed_event_count (stator (exec (state_set key v) w))
       = suppressed_after (stator w) /\
     timers (br (exec (state_set key v) w))
       = cancel (_debounce_timeout (stator w)) (timers (br w))
         ++ [Timer (next_timer (br w))
                   (now (br w) + Z.max 0 (debounce_ms (options (stator w))))
                   CbDispatchEvent]) /\
  (max_suppressed_event_count (options (stator w)) <= 0 ->
   events (br (exec (state_set key v) w)) = events (br w) ++ [now (br w)]).
Proof.
  intros Ha.
  destruct (accepted_inv _ _ _ Ha)
    as (copy & h' & w2 & _ & -> & _ & _ & Hs & _ & Hnow & Hti & Hnt & _ & Hev).
  pose proof (emit_or_schedule_spec w2) as (_ & _ & _ & _ & _ & _ & _ & _ & H).
  rewrite Hs, Hnow, Hti, Hnt, Hev in H.
  assert (Hle : max_suppressed_event_count (options (stator w)) <= 0 ->
                (Z.of_nat (suppressed_after (stator w))
                   >=? max_suppressed_event_count (options (stator w))) = true).
  { intros Hm. unfold Z.geb. destruct (Z.compare_spec (Z.of_nat (suppressed_after (stator w)))
      (max_suppressed_event_count (options (stator w)))); try done. lia. }
  destruct (Z.of_nat _ >=? _).
  - destruct H as (H1 & H2 & H3 & H4 & H5 & _). repeat split; done.
  - destruct H as (H1 & H2 & H3 & H4 & H5 & _). repeat split; try done.
    intros Hm. by specialize (Hle Hm).
Qed.

Lemma C5_witness :
  events (br (exec (state_set "count" (VNum (Fin 1))) sample_store)) = [] /\
  _debounce_timeout (stator (exec (state_set "count" (VNum (Fin 1))) sample_store))
    = HId 1 /\
  timers (br (exec (state_set "count" (VNum (Fin 1))) sample_store))
    = [Timer 1 10 CbDispatchEvent].
Proof.
  destruct (C5_scheduler sample_store "count" (VNum (Fin 1))) as [H _];
    [split; reflexivity|].
  simpl in H. destruct H as (H1 & H2 & _ & H3). repeat split; assumption.
Defined.

(** The counting half of claim C6: among more than
    [max_suppressed_event_count] accepted changes in a row (one, when the
    maximum is not positive), with no timer firing in between, at least one
    dispatches the event. *)
Lemma writes_in_a_row_dispatch (ws : list (string * value)) (w : world) :
  all_accepted ws w ->
  (Z.to_nat (max_suppressed_event_count (options (stator w))) < length ws)%nat ->
  (length (events (br w)) < length (events (br (write_all ws w))))%nat.
Proof.
  intros Ha Hlen.
  destruct (write_all_events_grow _ _ Ha) as [_ [more Hm]].
  rewrite Hm, length_app. destruct more as [|e more]; [|simpl; lia].
  exfalso. rewrite app_nil_r in Hm.
  destruct (silent_run ws w O Ha Hm) as (_ & H2 & H3);
    [by left | intros ->; simpl in Hlen; lia |].
  simpl in H2. lia.
Qed.

(** ** The event loop *)

Lemma earliest_spec ts :
  match earliest ts with
  | Some x => x ∈ ts /\ forall y, y ∈ ts -> due x <= due y
  | None => ts = []
  end.
Proof.
  induction ts as [|t ts IH]; simpl; [done|].
  destruct (earliest ts) as [u|].
  - destruct IH as [Hu Hmin]. destruct (Z.ltb_spec (due u) (due t)).
    + split; [by right|]. intros y [->|Hy]%elem_of_cons; [lia | by apply Hmin].
    + split; [by left|]. intros y [->|Hy]%elem_of_cons; [lia|].
      specialize (Hmin y Hy). lia.
  - subst ts. split; [by left|]. intros y [->|Hy]%elem_of_cons; [lia|].
    by apply elem_of_nil in Hy.
Qed.

Lemma cancel_length_lt x ts :
  x ∈ ts -> (length (cancel (HId (tid x)) ts) < length ts)%nat.
Proof.
  simpl. induction 1 as [x ts|x y ts Hx IH].
  - rewrite filter_cons. destruct (decide _) as [Hd|_]; [done|].
    simpl. pose proof (length_filter (fun t => tid t ≠ tid x) ts). lia.
  - rewrite filter_cons. destruct (decide _); simpl; lia.
Qed.

(** A timer that fires, case by case. *)
Lemma fire_eq x w :
  fire x w =
    (Return tt,
     let b := br w in
     let w0 := with_br (Browser (Z.max (now b) (due x)) (cancel (HId (tid x)) (timers b))
                          (next_timer b) (listeners b) (events b) (console b)
                          (dom_writes b) (calls b)) w in
     match cb x with
     | CbDispatchEvent => exec _dispatch_event w0
     | CbRender r => exec (render r) w0
     end).
Proof.
  unfold fire, bind, modify, run_callback, reported, exec. cbv beta iota zeta.
  by destruct (cb x).
Qed.

(** Firing a timer: the table shrinks, the counter of timer numbers, the
    Reactors' handles and the options stay, and events are only added. *)
Lemma fire_frame x w :
  x ∈ timers (br w) ->
  (length (timers (br (exec (fire x) w))) < length (timers (br w)))%nat /\
  sublist (timers (br (exec (fire x) w))) (timers (br w)) /\
  next_timer (br (exec (fire x) w)) = next_timer (br w) /\
  map _render_timeout (reactors (exec (fire x) w)) = map _render_timeout (reactors w) /\
  options (stator (exec (fire x) w)) = options (stator w) /\
  now (br (exec (fire x) w)) = Z.max (now (br w)) (due x) /\
  exists more, events (br (exec (fire x) w)) = events (br w) ++ more.
Proof.
  intros Hx. unfold exec. rewrite fire_eq. cbv zeta. unfold snd.
  set (w0 := with_br _ w).
  assert (H0 : (length (timers (br w0)) < length (timers (br w)))%nat)
    by (by apply cancel_length_lt).
  assert (H0' : sublist (timers (br w0)) (timers (br w))) by apply sublist_filter.
  destruct (cb x) as [|r].
  - pose proof (_dispatch_event_spec w0)
      as (_ & _ & _ & Hs & He & Hn & Hnt & _ & _ & Hh & Hsub & _).
    rewrite Hnt, Hh, Hs, Hn, He. simpl.
    assert (Hsub' : sublist (timers (br (exec _dispatch_event w0))) (timers (br w0))).
    { etrans; [exact Hsub|]. apply cancel_sublist. }
    split; [apply sublist_length in Hsub'; lia|].
    split; [by etrans|]. repeat (split; [done|]). by eexists.
  - pose proof (render_quiet r w0) as (Hc & Hsub & _).
    fold (exec (render r) w0) in Hc, Hsub. unfold core in Hc.
    injection Hc as _ Hst _ Hn Hnt _ Hev _ Hh.
    rewrite Hnt, Hh, Hst, Hn, Hev. simpl.
    split; [apply sublist_length in Hsub; lia|].
    split; [by etrans|]. repeat (split; [done|]). exists []. by rewrite app_nil_r.
Qed.

Lemma run_timers_returns fuel t w :
  run_timers fuel t w = (Return tt, exec (run_timers fuel t) w).
Proof.
  revert w. induction fuel as [|fuel IH]; intros w; simpl; [done|].
  unfold exec, bind at 1 3, gets. cbv beta iota.
  destruct (earliest (timers (br w))) as [x|]; [|done].
  destruct (due x <=? t); [|done].
  unfold bind. rewrite fire_eq. cbv beta iota zeta. by rewrite IH.
Qed.

Lemma run_timers_step fuel t w x :
  earliest (timers (br w)) = Some x -> due x <= t ->
  exec (run_timers (S fuel) t) w = exec (run_timers fuel t) (exec (fire x) w).
Proof.
  intros He Hd. unfold exec. simpl. unfold bind at 1, gets. cbv beta iota.
  rewrite He. apply Z.leb_le in Hd. rewrite Hd.
  unfold bind. by rewrite fire_eq.
Qed.

Lemma run_timers_stop fuel t w :
  match earliest (timers (br w)) with
  | Some x => t < due x
  | None => True
  end ->
  exec (run_timers fuel t) w = w.
Proof.
  intros H. destruct fuel as [|fuel]; [done|].
  unfold exec. simpl. unfold bind at 1, gets. cbv beta iota.
  destruct (earliest (timers (br w))) as [x|]; [|done].
  apply Z.leb_gt in H. by rewrite H.
Qed.

(** One turn for each pending timer is fuel enough: when the loop stops,
    no pending timer is due. *)
Lemma run_timers_fires_all fuel t w :
  (length (timers (br w)) <= fuel)%nat ->
  forall x, x ∈ timers (br (exec (run_timers fuel t) w)) -> t < due x.
Proof.
  revert w. induction fuel as [|fuel IH]; intros w Hlen x.
  - destruct (timers (br w)) eqn:E; [|simpl in Hlen; lia].
    unfold exec. simpl. rewrite E. by intros ?%elem_of_nil.
  - pose proof (earliest_spec (timers (br w))) as Hsp.
    destruct (earliest (timers (br w))) as [y|] eqn:He.
    + destruct Hsp as [Hy Hmin]. destruct (Z.le_gt_cases (due y) t) as [Hd|Hd].
      * rewrite (run_timers_step _ _ _ _ He Hd). apply IH.
        destruct (fire_frame y w Hy) as [Hl _]. lia.
      * rewrite run_timers_stop; [|rewrite He; lia].
        intros Hx. specialize (Hmin x Hx). lia.
    + rewrite run_timers_stop; [|by rewrite He]. rewrite Hsp. by intros ?%elem_of_nil.
Qed.

Lemma advance_to_eq t w :
  advance_to t w =
    (Return tt,
     let w1 := exec (run_timers (length (timers (br w))) t) w in
     with_br (Browser (Z.max (now (br w1)) t) (timers (br w1)) (next_timer (br w1))
                (listeners (br w1)) (events (br w1)) (console (br w1))
                (dom_writes (br w1)) (calls (br w1))) w1).
Proof.
  unfold advance_to, bind at 1, gets. cbv beta iota.
  unfold bind. rewrite run_timers_returns. reflexivity.
Qed.

(** When time has passed until [t], every timer still pending is due later. *)
Lemma advance_to_fires_all t w :
  forall x, x ∈ timers (br (exec (advance_to t) w)) -> t < due x.
Proof.
  intros x. unfold exec. rewrite advance_to_eq. cbv zeta. simpl.
  by apply run_timers_fires_all.
Qed.

(** ** The debounce timer over time *)

Lemma notified_grow o t1 E0 w w' more :
  notified o t1 E0 w -> events (br w') = events (br w) ++ more -> notified o t1 E0 w'.
Proof.
  intros (pre & e & post & He & Hb) Hm. exists pre, e, (post ++ more).
  split; [|done]. rewrite Hm, He. by rewrite <- !app_assoc.
Qed.

Lemma armed_deadline o t1 E0 id d w : armed o t1 E0 id d w -> d <= deadline o t1.
Proof.
  intros (_ & _ & _ & _ & _ & _ & _ & _ & Hd & Hc). unfold deadline.
  assert (0 <= Z.max 0 (debounce_ms o)) by lia. nia.
Qed.

Lemma run_timers_events_grow fuel t w :
  exists more, events (br (exec (run_timers fuel t) w)) = events (br w) ++ more.
Proof.
  revert w. induction fuel as [|fuel IH]; intros w.
  - exists []. by rewrite app_nil_r.
  - pose proof (earliest_spec (timers (br w))) as Hsp.
    destruct (earliest (timers (br w))) as [y|] eqn:He.
    + destruct Hsp as [Hy _]. destruct (Z.le_gt_cases (due y) t) as [Hd|Hd].
      * rewrite (run_timers_step _ _ _ _ He Hd).
        destruct (IH (exec (fire y) w)) as [m1 ->].
        destruct (fire_frame y w Hy) as (_ & _ & _ & _ & _ & _ & m2 & ->).
        exists (m2 ++ m1). by rewrite app_assoc.
      * rewrite run_timers_stop; [|rewrite He; lia]. exists []. by rewrite app_nil_r.
    + rewrite run_timers_stop; [|by rewrite He]. exists []. by rewrite app_nil_r.
Qed.

(** The timer due first fires while the debounce timer is pending: it is the
    debounce timer, or another timer of [_dispatch_event], and the event is
    dispatched in time; or it is a render timer and nothing changes for the
    store. *)
Lemma fire_armed o t1 E0 id d w x :
  armed o t1 E0 id d w ->
  x ∈ timers (br w) ->
  (forall y, y ∈ timers (br w) -> due x <= due y) ->
  notified o t1 E0 (exec (fire x) w) \/ armed o t1 E0 id d (exec (fire x) w).
Proof.
  intros Ha Hx Hmin. pose proof (armed_deadline _ _ _ _ _ _ Ha) as Hdl.
  destruct Ha as ([Hf1 Hf2] & Ho & He & Hh & Hin & Huniq & Hnr & [Ht1 Hnow] & Hd & Hc).
  pose proof (Hmin _ Hin) as Hdue. simpl in Hdue.
  unfold exec. rewrite fire_eq. cbv zeta. unfold snd.
  set (w0 := with_br _ w).
  destruct (cb x) as [|r] eqn:Ecb.
  - left. pose proof (_dispatch_event_spec w0) as (_ & _ & _ & _ & Hev & _).
    exists [], (Z.max (now (br w)) (due x)), []. split.
    + rewrite Hev. simpl. by rewrite He.
    + lia.
  - right.
    assert (Hne : tid x <> id).
    { intros Heq. specialize (Huniq x Hx Heq). subst x. done. }
    assert (Hin0 : Timer id d CbDispatchEvent ∈ timers (br w0)).
    { simpl. apply list_elem_of_filter. split; [simpl; congruence | done]. }
    pose proof (render_quiet r w0) as (Hcore & Hsub & Hkept).
    fold (exec (render r) w0) in Hcore, Hsub, Hkept. unfold core in Hcore.
    injection Hcore as _ Hst _ Hn Hnt _ Hev _ Hhs.
    assert (Hsub' : sublist (timers (br (exec (render r) w0))) (timers (br w))).
    { etrans; [exact Hsub|]. apply sublist_filter. }
    split; [split|].
    + intros t Ht. rewrite Hnt. apply Hf1. by eapply elem_of_sublist.
    + intros i Hi. rewrite Hnt. apply Hf2. by rewrite <- Hhs.
    + rewrite Hst, Hev, Hn, Hhs. simpl. repeat split; try done; try lia.
      * destruct (Hkept _ Hin0) as [|Hbad]; [done|]. simpl in Hbad. done.
      * intros t Ht. apply Huniq. by eapply elem_of_sublist.
Qed.

Lemma run_timers_armed o t1 E0 id d fuel t w :
  armed o t1 E0 id d w ->
  (length (timers (br w)) <= fuel)%nat ->
  notified o t1 E0 (exec (run_timers fuel t) w)
  \/ (armed o t1 E0 id d (exec (run_timers fuel t) w) /\ t < d).
Proof.
  revert w. induction fuel as [|fuel IH]; intros w Ha Hlen.
  - exfalso. destruct Ha as (_ & _ & _ & _ & Hin & _).
    destruct (timers (br w)); [by apply elem_of_nil in Hin | simpl in Hlen; lia].
  - pose proof (earliest_spec (timers (br w))) as Hsp.
    destruct (earliest (timers (br w))) as [y|] eqn:He.
    + destruct Hsp as [Hy Hmin]. destruct (Z.le_gt_cases (due y) t) as [Hd|Hd].
      * rewrite (run_timers_step _ _ _ _ He Hd).
        destruct (fire_armed _ _ _ _ _ _ _ Ha Hy Hmin) as [Hn|Ha'].
        -- left. destruct (run_timers_events_grow fuel t (exec (fire y) w)) as [more Hm].
           by eapply notified_grow.
        -- apply IH; [done|]. destruct (fire_frame y w Hy) as [Hl _]. lia.
      * rewrite run_timers_stop; [|rewrite He; lia]. right. split; [done|].
        destruct Ha as (_ & _ & _ & _ & Hin & _). specialize (Hmin _ Hin). simpl in Hmin. lia.
    + exfalso. destruct Ha as (_ & _ & _ & _ & Hin & _). rewrite Hsp in Hin.
      by apply elem_of_nil in Hin.
Qed.

Lemma advance_armed o t1 E0 id d t w :
  armed o t1 E0 id d w ->
  notified o t1 E0 (exec (advance_to t) w)
  \/ (armed o t1 E0 id d (exec (advance_to t) w) /\ t < d).
Proof.
  intros Ha. unfold exec. rewrite advance_to_eq. cbv zeta. unfold snd.
  destruct (run_timers_armed _ _ _ _ _ (length (timers (br w))) t w Ha) as [Hn|[Ha' Hlt]];
    [done | |].
  - left. eapply notified_grow; [exact Hn|]. simpl. by rewrite app_nil_r.
  - right. split; [|done].
    destruct Ha' as ([Hf1 Hf2] & Ho & He & Hh & Hin & Huniq & Hnr & [Ht1 Hnow] & Hd & Hc).
    split; [split|]; simpl; [done | done |]. repeat split; try done; lia.
Qed.

Lemma advance_events_grow t w :
  exists more, events (br (exec (advance_to t) w)) = events (br w) ++ more.
Proof.
  unfold exec. rewrite advance_to_eq. cbv zeta. simpl.
  apply run_timers_events_grow.
Qed.

(** An accepted change made at a time when timer numbers are fresh: the
    event is dispatched now, the counter having reached the maximum, or the
    new debounce timer is the only timer under its number and no Reactor
    holds that number. *)
Lemma write_arms key v w :
  timers_fresh w ->
  accepted key v w ->
  (events (br (exec (state_set key v) w)) = events (br w) ++ [now (br w)] /\
   max_suppressed_event_count (options (stator w))
     <= Z.of_nat (suppressed_after (stator w)))
  \/
  (let w' := exec (state_set key v) w in
   let id := next_timer (br w) in
   let new := Timer id (now (br w) + Z.max 0 (debounce_ms (options (stator w))))
                    CbDispatchEvent in
   timers_fresh w' /\
   options (stator w') = options (stator w) /\
   events (br w') = events (br w) /\
   _debounce_timeout (stator w') = HId id /\
   new ∈ timers (br w') /\
   (forall t, t ∈ timers (br w') -> tid t = id -> t = new) /\
   (HId id ∉ map _render_timeout (reactors w')) /\
   now (br w') = now (br w) /\
   _suppressed_event_count (stator w') = suppressed_after (stator w) /\
   Z.of_nat (suppressed_after (stator w))
     < max_suppressed_event_count (options (stator w))).
Proof.
  intros [Hf1 Hf2] Ha. cbv zeta.
  destruct (accepted_inv _ _ _ Ha)
    as (copy & h' & w2 & _ & -> & _ & _ & Hs & Hr & Hnow & Hti & Hnt & _ & Hev).
  pose proof (emit_or_schedule_spec w2) as (_ & _ & _ & Ho & _ & Hn & _ & Hh & H).
  rewrite Hs, Hnow, Hti, Hnt, Hev in H. rewrite Hs in Ho. rewrite Hr in Hh.
  rewrite Hnow in Hn.
  unfold Z.geb in H.
  destruct (Z.compare_spec (Z.of_nat (suppressed_after (stator w)))
              (max_suppressed_event_count (options (stator w)))) as [E|E|E].
  - left. destruct H as (_ & _ & H & _). split; [done | lia].
  - right. destruct H as (H1 & H2 & H3 & H4 & H5 & H6 & _).
    unfold timers_fresh. rewrite ?Ho, ?H1, ?H2, ?H3, ?H4, ?H5, ?Hh, ?Hn. clear H1 H2 H3 H5.
    assert (Hold : forall t, t ∈ cancel (_debounce_timeout (stator w)) (timers (br w)) ->
                     (tid t < next_timer (br w))%positive).
    { intros t Ht. apply Hf1. eapply elem_of_sublist; [exact Ht | apply cancel_sublist]. }
    split; [split|].
    + intros t [Ht|Ht]%elem_of_app.
      * specialize (Hold t Ht). lia.
      * apply list_elem_of_singleton in Ht. subst t. simpl. lia.
    + intros i Hi. specialize (Hf2 i Hi). lia.
    + repeat split; try done.
      * apply elem_of_app. right. by apply list_elem_of_singleton.
      * intros t [Ht|Ht]%elem_of_app Hid.
        -- specialize (Hold t Ht). lia.
        -- by apply list_elem_of_singleton in Ht.
      * intros Hbad. specialize (Hf2 _ Hbad). lia.
  - left. destruct H as (_ & _ & H & _). split; [done | lia].
Qed.

Lemma advance_then_write t key v w :
  exec (advance_to t ;; state_set key v) w = exec (state_set key v) (exec (advance_to t) w).
Proof. unfold exec, bind. by rewrite advance_to_eq. Qed.

(** The stream goes on: it stays notified, or the debounce timer stays
    pending with the counter below the maximum. *)
Lemma stream_armed o t1 E0 ws w :
  (notified o t1 E0 w \/ exists id d, armed o t1 E0 id d w) ->
  stream_accepted ws w ->
  notified o t1 E0 (write_stream ws w)
  \/ exists id d, armed o t1 E0 id d (write_stream ws w).
Proof.
  revert w. induction ws as [|[[t key] v] ws IH]; intros w Hw; simpl; [done|].
  intros [Ha Hrest]. apply IH; [|done]. rewrite advance_then_write.
  set (w1 := exec (advance_to t) w) in *.
  assert (H1 : notified o t1 E0 w1 \/ exists id d, armed o t1 E0 id d w1).
  { destruct Hw as [Hn|(id & d & Harm)].
    - left. destruct (advance_events_grow t w) as [more Hm]. by eapply notified_grow.
    - destruct (advance_armed _ _ _ _ _ t _ Harm) as [Hn|[Harm' _]]; [by left|].
      right. by exists id, d. }
  destruct H1 as [Hn|(id & d & Harm)].
  - left. destruct (accepted_step _ _ _ Ha) as [_ [Hd|[He _]]].
    + by eapply notified_grow.
    + eapply notified_grow; [exact Hn|]. rewrite He. by rewrite app_nil_r.
  - pose proof (armed_deadline _ _ _ _ _ _ Harm) as Hdl.
    destruct Harm as (Hf & Ho & He & Hh & Hin & Huniq & Hnr & [Ht1 Hnow] & Hd & Hc).
    assert (Hsa : suppressed_after (stator w1) = S (_suppressed_event_count (stator w1))).
    { unfold suppressed_after. by rewrite Hh. }
    destruct (write_arms _ _ _ Hf Ha) as [[Hev _]|H].
    + left. exists [], (now (br w1)), []. split; [by rewrite Hev, He|]. lia.
    + right. cbv zeta in H.
      destruct H as (Hf' & Ho' & He' & Hh' & Hin' & Huniq' & Hnr' & Hn' & Hc' & Hlt').
      rewrite Ho in *. rewrite Hsa in *.
      eexists _, _. split; [exact Hf'|]. rewrite Ho', He', Hh', Hn', Hc'.
      repeat split; try done; try lia.
Qed.

Lemma run_timers_fresh fuel t w :
  timers_fresh w ->
  timers_fresh (exec (run_timers fuel t) w) /\
  options (stator (exec (run_timers fuel t) w)) = options (stator w) /\
  now (br w) <= now (br (exec (run_timers fuel t) w)) <= Z.max (now (br w)) t.
Proof.
  revert w. induction fuel as [|fuel IH]; intros w Hf.
  - split; [done|]. split; [done|]. unfold exec. simpl. lia.
  - pose proof (earliest_spec (timers (br w))) as Hsp.
    destruct (earliest (timers (br w))) as [y|] eqn:He.
    + destruct Hsp as [Hy _]. destruct (Z.le_gt_cases (due y) t) as [Hd|Hd].
      * rewrite (run_timers_step _ _ _ _ He Hd).
        destruct (fire_frame y w Hy) as (_ & Hsub & Hnt & Hh & Ho & Hn & _).
        destruct (IH (exec (fire y) w)) as (H1 & H2 & H3).
        { destruct Hf as [Hf1 Hf2]. split.
          - intros x Hx. rewrite Hnt. apply Hf1. by eapply elem_of_sublist.
          - intros i Hi. rewrite Hnt. apply Hf2. by rewrite <- Hh. }
        split; [done|]. split; [congruence|]. lia.
      * rewrite run_timers_stop; [|rewrite He; lia]. split; [done|]. split; [done|]. lia.
    + rewrite run_timers_stop; [|by rewrite He]. split; [done|]. split; [done|]. lia.
Qed.

Lemma advance_fresh t w :
  timers_fresh w ->
  timers_fresh (exec (advance_to t) w) /\
  options (stator (exec (advance_to t) w)) = options (stator w) /\
  now (br (exec (advance_to t) w)) = Z.max (now (br w)) t.
Proof.
  intros Hf. unfold exec. rewrite advance_to_eq. cbv zeta. unfold snd.
  destruct (run_timers_fresh (length (timers (br w))) t w Hf) as (H1 & H2 & H3).
  split; [exact H1|]. split; [exact H2|]. simpl. lia.
Qed.

(** The timed half of claim C6: a stream of accepted changes that begins
    at [t1] is notified by [t1 + N * D]. *)
Lemma stream_notified_in_time (t1 : Z) (key : string) (v : value)
    (ws : list (Z * string * value)) (tend : Z) (w : world) :
  timers_fresh w ->
  now (br w) <= t1 ->
  stream_accepted ((t1, key, v) :: ws) w ->
  deadline (options (stator w)) t1 <= tend ->
  notified (options (stator w)) t1 (events (br (exec (advance_to t1) w)))
    (exec (advance_to tend) (write_stream ((t1, key, v) :: ws) w)).
Proof.
  intros Hf Hnow [Ha Hrest] Hend. simpl. rewrite advance_then_write in *.
  set (o := options (stator w)) in *.
  set (w1 := exec (advance_to t1) w) in *.
  destruct (advance_fresh t1 w Hf) as (Hf1 & Ho1 & Hn1). fold w1 in Hf1, Ho1, Hn1.
  assert (Hn1' : now (br w1) = t1) by lia.
  assert (H2 : notified o t1 (events (br w1)) (exec (state_set key v) w1)
               \/ exists id d, armed o t1 (events (br w1)) id d (exec (state_set key v) w1)).
  { destruct (write_arms _ _ _ Hf1 Ha) as [[Hev _]|H].
    - left. exists [], t1, []. split; [by rewrite Hev, Hn1'|]. unfold deadline.
      assert (0 <= Z.max 0 (debounce_ms o)) by lia. nia.
    - right. cbv zeta in H.
      destruct H as (Hf' & Ho' & He' & Hh' & Hin' & Huniq' & Hnr' & Hn' & Hc' & Hlt').
      rewrite Ho1 in *. fold o in Ho', Hin', Huniq', Hlt'.
      eexists _, _. split; [exact Hf'|]. rewrite Ho', He', Hh', Hn', Hc'.
      repeat split; try done; try lia. }
  destruct (stream_armed _ _ _ ws _ H2 Hrest) as [Hn|(id & d & Harm)].
  - destruct (advance_events_grow tend (write_stream ws (exec (state_set key v) w1)))
      as [more Hm]. by eapply notified_grow.
  - pose proof (armed_deadline _ _ _ _ _ _ Harm) as Hdl.
    destruct (advance_armed _ _ _ _ _ tend _ Harm) as [Hn|[_ Hlt]]; [done | lia].
Qed.

(** * The claims about Reactors *)

(** [render], case by case. *)
Lemma render_eq r w :
  render r w =
    match reactors w !! r with
    | None => (Throw TypeError, w)
    | Some this =>
        let w0 := exec (clearTimeout (_render_timeout this)) w in
        let v := view_of this w0 in
        match r_options this with
        | None => (Throw TypeError, w0)
        | Some opts =>
            match get_arg "should_render" opts with
            | Some (AFun f) =>
                let w1 := exec (record_call "should_render") w0 in
                if truthy (apply_jsfun f v) then
                  match _html_callback this with
                  | None => (Throw TypeError, w1)
                  | Some g =>
                      let w2 := exec (record_call "_html_callback") w1 in
                      let node_html := apply_jsfun g v in
                      if truthy (force_update this)
                         || strict_neq node_html (old_node_html this)
                      then
                        match node this with
                        | None => (Throw TypeError, w2)
                        | Some n =>
                            let w3 := exec (set_innerHTML n node_html ;;
                                            update_this r (set_old_node_html node_html)) w2 in
                            match get_arg "updated_html" opts with
                            | Some (AFun _) =>
                                (Return tt,
                                 exec (record_call "updated_html" ;;
                                       update_this r (set_force_update (VBool false))) w3)
                            | _ => (Throw TypeError, w3)
                            end
                        end
                      else (Return tt, w2)
                  end
                else (Return tt, w1)
            | _ => (Throw TypeError, w0)
            end
        end
    end.
Proof.
  unfold render, bind at 1, this_ at 1.
  destruct (reactors w !! r) as [this|]; [|reflexivity].
  unfold bind at 1. unfold clearTimeout at 1, modify at 1. cbv beta iota.
  fold (exec (clearTimeout (_render_timeout this)) w).
  change (with_br _ w) with (exec (clearTimeout (_render_timeout this)) w).
  generalize (exec (clearTimeout (_render_timeout this)) w). intros w0. cbv zeta.
  destruct (r_options this) as [opts|]; [|reflexivity].
  unfold bind at 1, ret at 1. unfold bind at 1, gets at 1. cbv beta iota.
  unfold bind at 1. unfold call at 1.
  destruct (get_arg "should_render" opts) as [[f|x]|]; [|reflexivity..].
  unfold bind at 1, record_call at 1, modify at 1, ret at 1. cbv beta iota.
  unfold when at 1. destruct (truthy (apply_jsfun f _)); [|reflexivity].
  unfold bind at 1. unfold call at 1.
  destruct (_html_callback this) as [g|]; [|reflexivity].
  change (AFun <$> Some g) with (Some (AFun g)). cbv iota beta.
  unfold bind at 1, record_call at 1, modify at 1, ret at 1. cbv beta iota.
  unfold when at 1. destruct (_ || _); [|reflexivity].
  unfold bind at 1. destruct (node this) as [n|]; [|reflexivity].
  unfold set_innerHTML at 1, modify at 1. cbv beta iota.
  unfold bind at 1, update_this at 1, modify at 1. cbv beta iota.
  unfold bind at 1, bind at 1, call at 1.
  destruct (get_arg "updated_html" opts) as [[h|x]|]; reflexivity.
Qed.


Lemma apply_jsfun_self g v : strict_neq (apply_jsfun g v) (apply_jsfun g v) = false.
Proof.
  destruct g; simpl; unfold strict_neq, strict_eq; by rewrite bool_decide_eq_true_2.
Qed.

Lemma hook_calls_other site (l : list string) :
  site <> "updated_html" ->
  length (filter (fun s => s = "updated_html") (l ++ [site]))
    = length (filter (fun s => s = "updated_html") l).
Proof.
  intros H. rewrite filter_app, length_app, filter_cons.
  destruct (decide _); [done|]. simpl. lia.
Qed.

Lemma hook_calls_hook (l : list string) :
  length (filter (fun s => s = "updated_html") (l ++ ["updated_html"]))
    = S (length (filter (fun s => s = "updated_html") l)).
Proof.
  rewrite filter_app, length_app, filter_cons.
  destruct (decide _); [|done]. simpl. lia.
Qed.

Ltac render_leaf :=
  unfold exec, bind, clearTimeout, record_call, set_innerHTML, update_this, modify, snd;
  cbn [br with_br with_reactors mem cloned_initial_state dom_writes calls reactors].

(** What one call of [render] does to a Reactor whose force-update flag is
    unset: either no DOM write and no hook call, the Reactor being as
    before; or one DOM write and at most one hook call, after which the
    cached html is what the render callback returns and the flag is still
    unset. *)
Lemma render_outcome r w this :
  reactors w !! r = Some this ->
  truthy (force_update this) = false ->
  mem (exec (render r) w) = mem w /\
  cloned_initial_state (exec (render r) w) = cloned_initial_state w /\
  ((dom_writes (br (exec (render r) w)) = dom_writes (br w) /\
    hook_calls (exec (render r) w) = hook_calls w /\
    reactors (exec (render r) w) = reactors w)
   \/
   (exists n g this',
      dom_writes (br (exec (render r) w))
        = dom_writes (br w)
          ++ [(n, apply_jsfun g (View (mem w) (cloned_initial_state w) (_data this)))] /\
      (hook_calls (exec (render r) w) <= S (hook_calls w))%nat /\
      reactors (exec (render r) w) !! r = Some this' /\
      truthy (force_update this') = false /\
      r_options this' = r_options this /\
      _html_callback this' = Some g /\
      _html_callback this = Some g /\
      _data this' = _data this /\
      old_node_html this'
        = apply_jsfun g (View (mem w) (cloned_initial_state w) (_data this)))).
Proof.
  intros E Hf. unfold exec at 1 2 3 4 5 6 7 8. unfold hook_calls. rewrite render_eq, E. cbv zeta.
  rewrite Hf. unfold orb.
  destruct (r_options this) as [opts|] eqn:Eo.
  2: { render_leaf. repeat split. by left. }
  destruct (get_arg "should_render" opts) as [[f|x]|].
  2,3: render_leaf; repeat split; by left.
  destruct (truthy (apply_jsfun f _)).
  2: { render_leaf. repeat split. left. rewrite hook_calls_other; done. }
  destruct (_html_callback this) as [g|] eqn:Eg.
  2: { render_leaf. repeat split. left. rewrite hook_calls_other; done. }
  destruct (strict_neq _ _).
  2: { render_leaf. repeat split. left. rewrite !hook_calls_other; done. }
  destruct (node this) as [n|].
  2: { render_leaf. repeat split. left. rewrite !hook_calls_other; done. }
  destruct (get_arg "updated_html" opts) as [[h|x]|].
  all: render_leaf.
  all: change (view_of this _) with (View (mem w) (cloned_initial_state w) (_data this)).
  all: split; [done|]; split; [done|]; right.
  - exists n, g, (set_force_update (VBool false)
                   (set_old_node_html
                      (apply_jsfun g (View (mem w) (cloned_initial_state w) (_data this)))
                      this)).
    split; [done|]. split; [rewrite hook_calls_hook, !hook_calls_other; done|].
    split; [rewrite !list_lookup_alter_eq, E; reflexivity|]. by repeat split.
  - exists n, g, (set_old_node_html
                   (apply_jsfun g (View (mem w) (cloned_initial_state w) (_data this)))
                   this).
    split; [done|]. split; [rewrite !hook_calls_other; [lia|done..]|].
    split; [rewrite !list_lookup_alter_eq, E; reflexivity|]. by repeat split.
  - exists n, g, (set_old_node_html
                   (apply_jsfun g (View (mem w) (cloned_initial_state w) (_data this)))
                   this).
    split; [done|]. split; [rewrite !hook_calls_other; [lia|done..]|].
    split; [rewrite !list_lookup_alter_eq, E; reflexivity|]. by repeat split.
Qed.

(** A Reactor whose cached html is what the render callback returns and
    whose force-update flag is unset: [render] neither writes to the DOM nor
    calls the hook. *)
Lemma render_settled r w this :
  reactors w !! r = Some this ->
  truthy (force_update this) = false ->
  (forall g, _html_callback this = Some g ->
     old_node_html this = apply_jsfun g (View (mem w) (cloned_initial_state w) (_data this))) ->
  dom_writes (br (exec (render r) w)) = dom_writes (br w) /\
  hook_calls (exec (render r) w) = hook_calls w.
Proof.
  intros E Hf Hold. unfold exec at 1 2. unfold hook_calls. rewrite render_eq, E. cbv zeta.
  rewrite Hf. unfold orb.
  destruct (r_options this) as [opts|] eqn:Eo.
  2: { render_leaf. by split. }
  destruct (get_arg "should_render" opts) as [[f|x]|].
  2,3: render_leaf; by split.
  destruct (truthy (apply_jsfun f _)).
  2: { render_leaf. split; [done|]. rewrite hook_calls_other; done. }
  destruct (_html_callback this) as [g|] eqn:Eg.
  2: { render_leaf. split; [done|]. rewrite hook_calls_other; done. }
  rewrite (Hold g eq_refl).
  change (view_of this _) with (View (mem w) (cloned_initial_state w) (_data this)).
  rewrite apply_jsfun_self.
  render_leaf. split; [done|]. rewrite !hook_calls_other; done.
Qed.

(** A call of [render] that does not write to the DOM does not write
    either when repeated with the same Reactor and the same state. *)
Lemma render_idle r w w' this :
  reactors w !! r = Some this ->
  reactors w' !! r = Some this ->
  mem w' = mem w ->
  cloned_initial_state w' = cloned_initial_state w ->
  truthy (force_update this) = false ->
  dom_writes (br (exec (render r) w)) = dom_writes (br w) ->
  dom_writes (br (exec (render r) w')) = dom_writes (br w') /\
  hook_calls (exec (render r) w') = hook_calls w'.
Proof.
  intros E E' Hm Hc Hf. unfold exec at 1 2 3. unfold hook_calls.
  rewrite !render_eq, E, E'. cbv zeta.
  change (view_of this (exec (clearTimeout (_render_timeout this)) w'))
    with (View (mem w') (cloned_initial_state w') (_data this)).
  change (view_of this (exec (clearTimeout (_render_timeout this)) w))
    with (View (mem w) (cloned_initial_state w) (_data this)).
  rewrite Hm, Hc, Hf. unfold orb.
  destruct (r_options this) as [opts|] eqn:Eo.
  2: { render_leaf. by split. }
  destruct (get_arg "should_render" opts) as [[f|x]|].
  2,3: render_leaf; by split.
  destruct (truthy (apply_jsfun f _)).
  2: { render_leaf. split; [done|]. rewrite hook_calls_other; done. }
  destruct (_html_callback this) as [g|] eqn:Eg.
  2: { render_leaf. split; [done|]. rewrite hook_calls_other; done. }
  destruct (strict_neq _ _).
  2: { render_leaf. split; [done|]. rewrite !hook_calls_other; done. }
  destruct (node this) as [n|].
  2: { render_leaf. split; [done|]. rewrite !hook_calls_other; done. }
  destruct (get_arg "updated_html" opts) as [[h|x]|].
  all: render_leaf; intros Hbad; exfalso; apply (f_equal length) in Hbad;
       rewrite length_app in Hbad; simpl in Hbad; lia.
Qed.

(** Claim C9.  For a Reactor whose force-update flag is unset, two calls of
    [render] in a row (nothing else happens in between, so that the state
    and the results of [should_render] and of the render callback are the
    same) write to the DOM and call the [updated_html] hook at most once:
    the second call does neither. *)
Theorem C9_render_twice (w : world) (r : nat) :
  (forall this, reactors w !! r = Some this -> truthy (force_update this) = false) ->
  dom_writes (br (exec (render r) (exec (render r) w)))
    = dom_writes (br (exec (render r) w)) /\
  (dom_write_count (exec (render r) (exec (render r) w)) <= S (dom_write_count w))%nat /\
  hook_calls (exec (render r) (exec (render r) w)) = hook_calls (exec (render r) w) /\
  (hook_calls (exec (render r) (exec (render r) w)) <= S (hook_calls w))%nat.
Proof.
  intros Hf. unfold dom_write_count.
  destruct (reactors w !! r) as [this|] eqn:E.
  2: { assert (Hw : exec (render r) w = w).
       { unfold exec. by rewrite render_eq, E. }
       rewrite !Hw. repeat split; lia. }
  specialize (Hf this eq_refl).
  destruct (render_outcome r w this E Hf) as (Hm & Hc & [(Hd & Hh & Hr)|H]).
  - destruct (render_idle r w (exec (render r) w) this) as [Hd2 Hh2];
      [done | congruence | done..|].
    rewrite Hd2, Hh2, Hd, Hh. repeat split; lia.
  - destruct H as (n & g & this' & Hd & Hh & Hr & Hf' & Ho & Hg' & Hg & Hdat & Hold).
    destruct (render_settled r (exec (render r) w) this' Hr Hf') as [Hd2 Hh2].
    { intros g0 Hg0. rewrite Hm, Hc, Hdat, Hold. congruence. }
    rewrite Hd2, Hh2, Hd, length_app. simpl. repeat split; lia.
Qed.

Lemma C9_witness :
  dom_writes (br (exec (render 0) (exec (render 0) sample_page)))
    = dom_writes (br (exec (render 0) sample_page)) /\
  (dom_write_count (exec (render 0) (exec (render 0) sample_page))
     <= S (dom_write_count sample_page))%nat.
Proof.
  destruct (C9_render_twice sample_page 0) as (H1 & H2 & _).
  - intros this H. vm_compute in H. injection H as <-. reflexivity.
  - split; assumption.
Defined.

Lemma console_errors_eq msgs w :
  console_errors msgs w =
    (Return tt,
     with_br (Browser (now (br w)) (timers (br w)) (next_timer (br w)) (listeners (br w))
                (events (br w)) (console (br w) ++ map Error msgs)
                (dom_writes (br w)) (calls (br w))) w).
Proof.
  revert w. induction msgs as [|m msgs IH]; intros w; simpl.
  - unfold ret. rewrite app_nil_r. by destruct w as [? ? [] ? ? ?].
  - unfold bind, console_error, modify. rewrite IH. simpl.
    by rewrite <- app_assoc.
Qed.

(** Claim C8, as the code has it.  When the selector matches exactly one
    node and the options hold a key outside the recognised ones, the
    constructor reports one console error for each invalid key, in their
    order, and then returns normally: nothing is thrown to the caller.
    Construction has stopped by then: the new object has its node but no
    options, no render callback and no local state; no listener has been
    registered for the global state, nothing has been rendered and no
    function of the Reactor has been called. *)
Theorem C8_invalid_option_aborts (w : world) (element : string)
    (options : list (string * arg)) (html_callback : arg) (n : nat) :
  document w element = [n] ->
  filter (fun o => o ∉ option_keys) (map fst options) <> [] ->
  result (Reactor element options html_callback) w = Return (length (reactors w)) /\
  console (br (exec (Reactor element options html_callback) w))
    = console (br w)
      ++ map (fun o => Error (invalid_option_message o))
             (filter (fun o => o ∉ option_keys) (map fst options)) /\
  reactors (exec (Reactor element options html_callback) w)
    = reactors w
      ++ [Reactor_ HNull (Some element) (Some n) None None None VUndefined VUndefined] /\
  listeners (br (exec (Reactor element options html_callback) w)) = listeners (br w) /\
  dom_writes (br (exec (Reactor element options html_callback) w)) = dom_writes (br w) /\
  calls (br (exec (Reactor element options html_callback) w)) = calls (br w) /\
  timers (br (exec (Reactor element options html_callback) w)) = timers (br w) /\
  events (br (exec (Reactor element options html_callback) w)) = events (br w) /\
  stator (exec (Reactor element options html_callback) w) = stator w /\
  cloned_initial_state (exec (Reactor element options html_callback) w)
    = cloned_initial_state w.
Proof.
  intros Hdoc Hinv.
  assert (Heq : Reactor element options html_callback w =
    (Return (length (reactors w)),
     exec (console_errors (map invalid_option_message
                             (filter (fun o => o ∉ option_keys) (map fst options))))
       (with_mem (mem w ++ [OPlain []])
          (with_reactors
             (alter (set_element_node element (head [n]))
                (length (reactors w))
                (alter (set__render_timeout HNull) (length (reactors w))
                   (reactors w ++ [blank]))) w)))).
  { unfold Reactor. unfold bind at 1, new_object at 1. cbv beta iota.
    unfold bind at 1, update_this at 1, modify at 1. cbv beta iota.
    unfold bind at 1, gets at 1. cbv beta iota.
    cbn [document with_reactors]. rewrite Hdoc.
    change (negb (length [n] =? 1)%nat) with false. cbv iota.
    unfold bind at 1, update_this at 1, modify at 1. cbv beta iota.
    unfold bind at 1, alloc at 1. cbv beta iota zeta.
    change (map fst (_ :: _)) with option_keys.
    destruct (filter (fun o => o ∉ option_keys) (map fst options)) as [|o os] eqn:Ef; [done|].
    change (0 <? length (o :: os))%nat with true. cbv iota.
    unfold bind, exec, ret. rewrite !console_errors_eq.
    unfold with_br, with_mem, with_reactors. simpl. reflexivity. }
  unfold result, exec. rewrite Heq. unfold fst, snd.
  unfold exec. rewrite console_errors_eq. simpl.
  rewrite map_map. repeat split; try done.
  rewrite <- (Nat.add_0_r (length (reactors w))), !alter_app_r. reflexivity.
Qed.

Lemma C8_witness :
  result (Reactor "#app" [("color", AVal (VStr "red")); ("debug", AVal (VBool true));
                          ("size", AVal (VNum (Fin 3)))]
                  (AFun (FHtml (fun _ => "hello"))))
         (initial_world sample_document) = Return 0%nat /\
  console (br (exec (Reactor "#app" [("color", AVal (VStr "red"));
                                     ("debug", AVal (VBool true));
                                     ("size", AVal (VNum (Fin 3)))]
                             (AFun (FHtml (fun _ => "hello"))))
                    (initial_world sample_document)))
    = [Error (invalid_option_message "color"); Error (invalid_option_message "size")].
Proof.
  destruct (C8_invalid_option_aborts (initial_world sample_document) "#app"
              [("color", AVal (VStr "red")); ("debug", AVal (VBool true));
               ("size", AVal (VNum (Fin 3)))]
              (AFun (FHtml (fun _ => "hello"))) 7) as (H1 & H2 & _).
  - reflexivity.
  - vm_compute. discriminate.
  - split; [exact H1 | exact H2].
Defined.

(** Claim C8 as stated fails: with an invalid key the constructor does not
    throw, it returns the new object. *)
Lemma C8_counterexample :
  filter (fun o => o ∉ option_keys) (map fst [("color", AVal (VStr "red"))]) <> [] /\
  ~ exists e,
      result (Reactor "#app" [("color", AVal (VStr "red"))]
                      (AFun (FHtml (fun _ => "hello"))))
             (initial_world sample_document) = Throw e.
Proof.
  split; [vm_compute; discriminate|].
  intros [e H]. vm_compute in H. discriminate.
Qed.

(** Claim C1 fails on the code.  In the Reactor of [sample_counter], whose
    state is [{count: 0, user: {name: "ann"}}]: writing [0] to [count], the
    value it holds, is no no-op, a render is scheduled and the trap returns
    [undefined]; and after [state.user = o] for an object [o] of the caller,
    reading [user] returns [o] itself, so that a later [o.name = "eve"]
    changes what the state holds. *)
Theorem C1_local_write_diverges :
  result (local_set 0 "count" (VNum (Fin 0))) sample_counter = Return VUndefined /\
  timers (br sample_counter) = [] /\
  timers (br (exec (local_set 0 "count" (VNum (Fin 0))) sample_counter))
    = [Timer 1 10 (CbRender 0)] /\
  let written :=
    exec (let* o := alloc (OPlain [("name", VStr "bob")]) in local_set 0 "user" o)
         sample_counter in
  length (mem sample_counter) = 5%nat /\
  result (local_get 0 "user") written = Return (VRef 5%nat) /\
  JSON_stringify (mem written) (VRef 5%nat) = SJson (JObj [("name", JStr "bob")]) /\
  JSON_stringify (<[5%nat := OPlain [("name", VStr "eve")]]> (mem written)) (VRef 5%nat)
    = SJson (JObj [("name", JStr "eve")]).
Proof. vm_compute. repeat split. Qed.

(** Claim C7 fails on the code: the traps test [key in target], which also
    holds for what the target inherits.  In [sample_store], created from
    [{count: 0, user: {name: "ann"}}] and with type checking enabled:
    reading [toString] does not fail; writing [{extra: 1}] to [__proto__]
    is accepted, and then [extra], a key that the snapshot did not have,
    can be read. *)
Theorem C7_inherited_keys_pass :
  map fst (own (cloned_initial_state sample_store)) = ["count"; "user"] /\
  type_check (options (stator sample_store)) = true /\
  result (state_get "toString") sample_store = Return (VBuiltin (ObjFn "toString")) /\
  result (state_get "extra") sample_store = Throw (missing_key_error "extra") /\
  let written :=
    exec (let* o := alloc (OPlain [("extra", VNum (Fin 1))]) in state_set "__proto__" o)
         sample_store in
  result (let* o := alloc (OPlain [("extra", VNum (Fin 1))]) in state_set "__proto__" o)
         sample_store = Return (VBool true) /\
  result (state_get "extra") written = Return (VNum (Fin 1)).
Proof. vm_compute. repeat split. Qed.

(** With type checking disabled a write to an inherited key adds a key. *)
Lemma unchecked_write_adds_key :
  let unchecked :=
    with_stator (Stator (StatorOptions 10 10 false false) HUndefined 0 true) sample_store in
  map fst (own (cloned_initial_state
                  (exec (state_set "toString" (VNum (Fin 5))) unchecked)))
    = ["count"; "user"; "toString"].
Proof. vm_compute. reflexivity. Qed.

(** * Claim C6 *)

(** Claim C6.  With [max_suppressed_event_count = N] and [debounce_ms = D]:
    among more than [N] accepted changes in a row at least one dispatches
    the event, so at most [N] changes in a row go without notification; and
    over time, with timers that fire when they are due, a stream of
    accepted changes that begins at [t1] is notified by [t1 + N * D],
    whatever the times of the later changes.  (A negative [N] or [D]
    counts as zero.) *)
Theorem C6_escape_hatch_bound (w : world)
    (us : list (string * value))
    (t1 : Z) (key : string) (v : value) (ws : list (Z * string * value)) (tend : Z) :
  (all_accepted us w ->
   (Z.to_nat (max_suppressed_event_count (options (stator w))) < length us)%nat ->
   (length (events (br w)) < length (events (br (write_all us w))))%nat) /\
  (timers_fresh w ->
   now (br w) <= t1 ->
   stream_accepted ((t1, key, v) :: ws) w ->
   deadline (options (stator w)) t1 <= tend ->
   notified (options (stator w)) t1 (events (br (exec (advance_to t1) w)))
     (exec (advance_to tend) (write_stream ((t1, key, v) :: ws) w))).
Proof.
  split.
  - apply writes_in_a_row_dispatch.
  - apply stream_notified_in_time.
Qed.

Lemma C6_witness :
  (length (events (br sample_eager))
     < length (events (br (write_all [("count", VNum (Fin 1)); ("count", VNum (Fin 2));
                                      ("count", VNum (Fin 3))] sample_eager))))%nat /\
  notified (options (stator sample_eager)) 0
    (events (br (exec (advance_to 0) sample_eager)))
    (exec (advance_to 20)
       (write_stream [(0, "count", VNum (Fin 1)); (4, "count", VNum (Fin 2));
                      (8, "count", VNum (Fin 3))] sample_eager)).
Proof.
  destruct (C6_escape_hatch_bound sample_eager
              [("count", VNum (Fin 1)); ("count", VNum (Fin 2)); ("count", VNum (Fin 3))]
              0 "count" (VNum (Fin 1))
              [(4, "count", VNum (Fin 2)); (8, "count", VNum (Fin 3))] 20) as [H1 H2].
  split.
  - apply H1; [vm_compute; repeat split | vm_compute; lia].
  - apply H2.
    + split.
      * intros t Ht. vm_compute in Ht. by apply elem_of_nil in Ht.
      * intros id Hid. vm_compute in Hid. by apply elem_of_nil in Hid.
    + vm_compute. discriminate.
    + vm_compute. repeat split.
    + vm_compute. discriminate.
Defined.

(** * The deep copy *)

(** Induction on a JSON text, with the hypothesis for every item of an array
    and every member of an object. *)
Lemma json_nested_ind (P : json -> Prop) :
  P JNull ->
  (forall b, P (JBool b)) ->
  (forall z, P (JNum z)) ->
  (forall s, P (JStr s)) ->
  (forall js, Forall P js -> P (JArr js)) ->
  (forall ms, Forall (fun m => P m.2) ms -> P (JObj ms)) ->
  forall j, P j.
Proof.
  intros Hnull Hbool Hnum Hstr Harr Hobj. fix IH 1.
  intros [|b|z|s|js|ms]; [done | done | done | done | |].
  - apply Harr. induction js as [|j js IHjs]; constructor; [apply IH | exact IHjs].
  - apply Hobj. induction ms as [|[k j] ms IHms]; constructor; [apply IH | exact IHms].
Qed.

Lemma set_own_fresh k v ps :
  k ∉ map fst ps -> set_own k v ps = ps ++ [(k, v)].
Proof.
  induction ps as [|[k' v'] ps IH]; simpl; [done|].
  intros Hk. rewrite bool_decide_eq_false_2.
  - f_equal. apply IH. intros ?. apply Hk. by right.
  - intros ->. apply Hk. by left.
Qed.

Lemma define_all_nodup ps : NoDup (map fst ps) -> define_all ps = ps.
Proof.
  unfold define_all.
  enough (H : forall acc, NoDup (map fst (acc ++ ps)) ->
                foldl (fun o kv => set_own kv.1 kv.2 o) acc ps = acc ++ ps)
    by apply (H []).
  induction ps as [|[k v] ps IH]; intros acc Hnd; simpl.
  - by rewrite app_nil_r.
  - rewrite set_own_fresh.
    + rewrite IH; rewrite <- app_assoc; done.
    + rewrite map_app in Hnd. apply NoDup_app in Hnd as (_ & Hd & _).
      intros Hin. apply (Hd k Hin). simpl. by left.
Qed.

Lemma get_own_set_own k v ps : get_own k (set_own k v ps) = Some v.
Proof.
  induction ps as [|[k' v'] ps IH]; simpl.
  - by rewrite bool_decide_eq_true_2.
  - destruct (bool_decide (k' = k)) eqn:E; simpl.
    + by rewrite bool_decide_eq_true_2.
    + by rewrite E.
Qed.

Lemma ser_elems_all (rs : list (option ser_result)) (js : list json) :
  Forall2 (fun r j => r = Some (SJson j)) rs js ->
  ser_elems rs = Some (SJson (JArr js)).
Proof.
  induction 1 as [|r j rs js -> _ IH]; simpl; [done|]. by rewrite IH.
Qed.

Lemma ser_props_all (rs : list (string * option ser_result)) (ms : list (string * json)) :
  Forall2 (fun r m => r = (m.1, Some (SJson m.2))) rs ms ->
  ser_props rs = Some (SJson (JObj ms)).
Proof.
  induction 1 as [|r [k j] rs ms -> _ IH]; simpl; [done|]. by rewrite IH.
Qed.

Lemma agree_sub lo hi lo' hi' (h h2 : heap) ext :
  (lo <= lo')%nat -> (hi' <= hi)%nat -> (hi' <= length h)%nat ->
  agree lo hi (h ++ ext) h2 -> agree lo' hi' h h2.
Proof.
  intros H1 H2 H3 Ha l Hl. rewrite Ha; [|lia]. apply lookup_app_l. lia.
Qed.

Lemma outside_sub lo hi lo' hi' stack :
  (lo <= lo')%nat -> (hi' <= hi)%nat -> outside lo hi stack -> outside lo' hi' stack.
Proof. intros H1 H2 Ho l Hl. destruct (Ho l Hl); lia. Qed.

Lemma parse_items_copied js :
  Forall (fun j => json_wf j -> forall h, copied j h (parse j h).1 (parse j h).2) js ->
  Forall json_wf js ->
  forall h,
    (exists ext, (parse_items parse js h).2 = h ++ ext) /\
    (length h + foldr (fun j d => Nat.max (depth j) d) O js
       <= length (parse_items parse js h).2)%nat /\
    (forall h2 fuel stack,
       agree (length h) (length (parse_items parse js h).2) (parse_items parse js h).2 h2 ->
       (foldr (fun j d => Nat.max (depth j) d) O js < fuel)%nat ->
       outside (length h) (length (parse_items parse js h).2) stack ->
       Forall2 (fun r j => r = Some (SJson j))
               (map (ser fuel stack h2) (parse_items parse js h).1) js).
Proof.
  induction 1 as [|j js Hj _ IH]; intros Hwf h; simpl.
  - split; [exists []; by rewrite app_nil_r|]. split; [lia|]. intros. constructor.
  - apply Forall_cons in Hwf as [Hwj Hwjs].
    specialize (Hj Hwj h). destruct (parse j h) as [v ha] eqn:Ep. simpl in Hj.
    destruct Hj as ([e1 ->] & Hd1 & _ & Hs1).
    specialize (IH Hwjs (h ++ e1)).
    destruct (parse_items parse js (h ++ e1)) as [vs hb] eqn:Ei. simpl in IH |- *.
    destruct IH as ([e2 ->] & Hd2 & Hs2).
    split; [exists (e1 ++ e2); by rewrite app_assoc|]. split; [lia|].
    intros h2 fuel stack Ha Hf Ho. simpl. constructor.
    + apply Hs1; [|lia|].
      * eapply agree_sub; [| | |exact Ha]; rewrite ?length_app; lia.
      * eapply outside_sub; [| |exact Ho]; rewrite ?length_app; lia.
    + apply Hs2; [|lia|].
      * intros l Hl. apply Ha. rewrite !length_app in *. lia.
      * eapply outside_sub; [| |exact Ho]; rewrite ?length_app; lia.
Qed.

Lemma parse_members_copied ms :
  Forall (fun m => json_wf m.2 -> forall h, copied m.2 h (parse m.2 h).1 (parse m.2 h).2) ms ->
  Forall (fun m => json_wf m.2) ms ->
  forall h,
    map fst (parse_members parse ms h).1 = map fst ms /\
    (exists ext, (parse_members parse ms h).2 = h ++ ext) /\
    (length h + foldr (fun m d => Nat.max (depth m.2) d) O ms
       <= length (parse_members parse ms h).2)%nat /\
    (forall h2 fuel stack,
       agree (length h) (length (parse_members parse ms h).2) (parse_members parse ms h).2 h2 ->
       (foldr (fun m d => Nat.max (depth m.2) d) O ms < fuel)%nat ->
       outside (length h) (length (parse_members parse ms h).2) stack ->
       Forall2 (fun r m => r = (m.1, Some (SJson m.2)))
               (map (fun kv => (kv.1, ser fuel stack h2 kv.2)) (parse_members parse ms h).1)
               ms).
Proof.
  induction 1 as [|[k j] ms Hj _ IH]; intros Hwf h; simpl.
  - split; [done|]. split; [exists []; by rewrite app_nil_r|]. split; [lia|].
    intros. constructor.
  - apply Forall_cons in Hwf as [Hwj Hwjs]. simpl in Hj, Hwj.
    specialize (Hj Hwj h). destruct (parse j h) as [v ha] eqn:Ep. simpl in Hj.
    destruct Hj as ([e1 ->] & Hd1 & _ & Hs1).
    specialize (IH Hwjs (h ++ e1)).
    destruct (parse_members parse ms (h ++ e1)) as [ps hb] eqn:Ei. simpl in IH |- *.
    destruct IH as (Hk & [e2 ->] & Hd2 & Hs2).
    split; [by rewrite Hk|].
    split; [exists (e1 ++ e2); by rewrite app_assoc|]. split; [lia|].
    intros h2 fuel stack Ha Hf Ho. simpl. constructor.
    + simpl. f_equal. apply Hs1; [|lia|].
      * eapply agree_sub; [| | |exact Ha]; rewrite ?length_app; lia.
      * eapply outside_sub; [| |exact Ho]; rewrite ?length_app; lia.
    + apply Hs2; [|lia|].
      * intros l Hl. apply Ha. rewrite !length_app in *. lia.
      * eapply outside_sub; [| |exact Ho]; rewrite ?length_app; lia.
Qed.

(** [JSON.parse] builds a copy: new cells only, which serialize to the text
    that was parsed. *)
Lemma parse_copied j :
  json_wf j -> forall h, copied j h (parse j h).1 (parse j h).2.
Proof.
  induction j as [|b|z|s|js IH|ms IH] using json_nested_ind; intros Hwf h.
  1-4: simpl; (split; [exists []; by rewrite app_nil_r|]); (split; [simpl; lia|]);
       (split; [done|]); intros h2 [|fuel] stack _ Hf _; [lia | done].
  - inversion Hwf as [| | | |js' Hwjs|]; subst.
    destruct (parse_items_copied js IH Hwjs h) as ([ext Hext] & Hd & Hs).
    simpl. destruct (parse_items parse js h) as [vs h1] eqn:Ei. simpl in *. subst h1.
    split; [exists (ext ++ [OArr vs]); by rewrite app_assoc|].
    split; [rewrite !length_app in *; simpl; lia|].
    split; [intros l [= <-]; rewrite !length_app; simpl; lia|].
    intros h2 [|fuel] stack Ha Hf Ho; [lia|]. simpl in Hf |- *.
    rewrite bool_decide_eq_false_2.
    2: { intros Hin. destruct (Ho _ Hin) as [H|H]; rewrite ?length_app in H; simpl in H; rewrite ?length_app; simpl; lia. }
    rewrite Ha; [|rewrite !length_app; simpl; lia].
    rewrite list_lookup_middle; [|done]. simpl.
    apply ser_elems_all. apply Hs; [|lia|].
    + intros l Hl. rewrite Ha; [|rewrite !length_app in *; simpl; lia].
      apply lookup_app_l. lia.
    + intros l [->|Hin]%elem_of_cons; [lia|].
      destruct (Ho _ Hin) as [H|H]; rewrite ?length_app in H; simpl in H; rewrite ?length_app; simpl; lia.
  - inversion Hwf as [| | | | |ms' Hnd Hwms]; subst.
    destruct (parse_members_copied ms IH Hwms h) as (Hk & [ext Hext] & Hd & Hs).
    simpl. destruct (parse_members parse ms h) as [ps h1] eqn:Ei. simpl in *. subst h1.
    rewrite define_all_nodup; [|by rewrite Hk].
    split; [exists (ext ++ [OPlain ps]); by rewrite app_assoc|].
    split; [rewrite !length_app in *; simpl; lia|].
    split; [intros l [= <-]; rewrite !length_app; simpl; lia|].
    intros h2 [|fuel] stack Ha Hf Ho; [lia|]. simpl in Hf |- *.
    rewrite bool_decide_eq_false_2.
    2: { intros Hin. destruct (Ho _ Hin) as [H|H]; rewrite ?length_app in H; simpl in H; rewrite ?length_app; simpl; lia. }
    rewrite Ha; [|rewrite !length_app; simpl; lia].
    rewrite list_lookup_middle; [|done]. simpl.
    apply ser_props_all. apply Hs; [|lia|].
    + intros l Hl. rewrite Ha; [|rewrite !length_app in *; simpl; lia].
      apply lookup_app_l. lia.
    + intros l [->|Hin]%elem_of_cons; [lia|].
      destruct (Ho _ Hin) as [H|H]; rewrite ?length_app in H; simpl in H; rewrite ?length_app; simpl; lia.
Qed.

Lemma ser_elems_wf rs :
  Forall (fun r => forall j, r = Some (SJson j) -> json_wf j) rs ->
  forall r, ser_elems rs = Some r ->
    match r with
    | SJson (JArr js) => Forall json_wf js
    | SJson _ => False
    | _ => True
    end.
Proof.
  induction 1 as [|x rs Hx _ IH]; intros r; simpl.
  - intros [= <-]. constructor.
  - destruct x as [[| |j]|]; try (by intros [= <-]); try done.
    + destruct (ser_elems rs) as [r'|] eqn:E; [|done]. specialize (IH _ eq_refl).
      destruct r' as [| |j']; [by intros [= <-]..|]. destruct j'; try done.
      intros [= <-].
      constructor; [constructor | done].
    + destruct (ser_elems rs) as [r'|] eqn:E; [|done]. specialize (IH _ eq_refl).
      destruct r' as [| |j']; [by intros [= <-]..|]. destruct j'; try done.
      intros [= <-].
      constructor; [by apply Hx | done].
Qed.

Lemma ser_props_wf (rs : list (string * option ser_result)) :
  Forall (fun kr => forall j, kr.2 = Some (SJson j) -> json_wf j) rs ->
  NoDup (map fst rs) ->
  forall r, ser_props rs = Some r ->
    match r with
    | SJson (JObj ms) =>
        NoDup (map fst ms) /\ Forall (fun m => json_wf m.2) ms /\
        (forall k, k ∈ map fst ms -> k ∈ map fst rs)
    | SJson _ => False
    | _ => True
    end.
Proof.
  induction 1 as [|[k x] rs Hx _ IH]; intros Hnd r; simpl.
  - intros [= <-]. split; [constructor|]. split; [constructor | done].
  - simpl in Hnd. apply NoDup_cons in Hnd as [Hk Hnd]. specialize (IH Hnd).
    destruct x as [[| |j]|]; try (by intros [= <-]); try done.
    + destruct (ser_props rs) as [r'|] eqn:E; [|done]. specialize (IH _ eq_refl).
      destruct r' as [| |j']; [by intros [= <-]..|]. destruct j'; try done.
      destruct IH as (H1 & H2 & H3).
      intros [= <-]. simpl. split; [done|]. split; [done|].
      intros k' Hk'. right. by apply H3.
    + destruct (ser_props rs) as [r'|] eqn:E; [|done]. specialize (IH _ eq_refl).
      destruct r' as [| |j']; [by intros [= <-]..|]. destruct j'; try done.
      destruct IH as (H1 & H2 & H3).
      intros [= <-]. simpl. split; [|split].
      * apply NoDup_cons. split; [|done]. intros Hin. apply Hk. by apply H3.
      * constructor; [by apply Hx | done].
      * intros k' [->|Hk']%elem_of_cons; [by left | right; by apply H3].
Qed.

(** The text of a well-formed heap is well formed. *)
Lemma ser_wf h :
  heap_wf h ->
  forall fuel stack v j, ser fuel stack h v = Some (SJson j) -> json_wf j.
Proof.
  intros Hh. induction fuel as [|fuel IH]; intros stack v j; simpl; [done|].
  destruct v as [| |b|[z| |n]|s|z|i|i|[|f|f]|l]; try (by intros [= <-]; constructor);
    try done.
  { intros [= <-]. constructor; constructor. }
  destruct (bool_decide (l ∈ stack)); [done|].
  destruct (h !! l) as [[ps|es]|] eqn:El; [| |done].
  - intros Hs.
    pose proof (ser_props_wf
                  (map (fun kv => (kv.1, ser fuel (l :: stack) h kv.2)) ps)) as H.
    specialize (H ltac:(apply Forall_map, Forall_forall; intros [k x] _ j'; apply IH)).
    rewrite map_map in H. simpl in H. specialize (H (Hh _ _ El) _ Hs).
    destruct j; try done. destruct H as (H1 & H2 & _). by constructor.
  - intros Hs.
    pose proof (ser_elems_wf (map (ser fuel (l :: stack) h) es)) as H.
    specialize (H ltac:(apply Forall_map, Forall_forall; intros x _ j'; apply IH) _ Hs).
    destruct j; try done. by constructor.
Qed.

(** [_clone_obj] returns a copy made of new cells: whatever happens later
    to the cells that existed, the copy serializes to what the original
    serialized to when it was cloned. *)
Lemma clone_copied h v copy h' :
  heap_wf h ->
  _clone_obj h v = Return (copy, h') ->
  (exists ext, h' = h ++ ext) /\
  (forall l, copy = VRef l -> (length h <= l < length h')%nat) /\
  (forall h2, (length h' <= length h2)%nat -> agree (length h) (length h') h' h2 ->
     JSON_stringify h2 copy = JSON_stringify h v).
Proof.
  intros Hwf. unfold _clone_obj. case_bool_decide as Hu.
  - intros [= <- <-]. subst v. split; [exists []; by rewrite app_nil_r|].
    split; [done|]. intros h2 _ _. reflexivity.
  - unfold JSON_stringify at 1.
    destruct (ser (S (length h)) [] h v) as [[| |j]|] eqn:Es; try done.
    intros [= Hp].
    pose proof (ser_wf h Hwf _ _ _ _ Es) as Hj.
    pose proof (parse_copied j Hj h) as (Hext & Hd & Hl & Hs).
    rewrite Hp in Hext, Hd, Hl, Hs. cbn [fst snd] in Hext, Hd, Hl, Hs.
    split; [done|]. split; [done|].
    intros h2 Hlen Ha. unfold JSON_stringify. rewrite Es.
    rewrite (Hs h2 (S (length h2)) []); [done | done | lia |].
    intros l Hin. by apply elem_of_nil in Hin.
Qed.

(** Claim C3.  After an accepted write of [v] to a tracked key, reading the
    key returns a value made of cells that did not exist before the write,
    so it is not [v] nor anything [v] leads to; and whatever is done
    afterwards to the cells that existed before the write ([h2] is any
    later heap that still has the cells made by the write), reading the key
    returns the same value, which serializes to what [v] serialized to when
    it was written. *)
Theorem C3_write_stores_deep_copy (w : world) (key : string) (v old : value) (h2 : heap) :
  heap_wf (mem w) ->
  get_own key (own (cloned_initial_state w)) = Some old ->
  accepted key v w ->
  (length (mem (exec (state_set key v) w)) <= length h2)%nat ->
  agree (length (mem w)) (length (mem (exec (state_set key v) w)))
        (mem (exec (state_set key v) w)) h2 ->
  exists stored,
    result (state_get key) (exec (state_set key v) w) = Return stored /\
    result (state_get key) (with_mem h2 (exec (state_set key v) w)) = Return stored /\
    (forall l, stored = VRef l ->
       (length (mem w) <= l < length (mem (exec (state_set key v) w)))%nat) /\
    JSON_stringify (mem (exec (state_set key v) w)) stored = JSON_stringify (mem w) v /\
    JSON_stringify h2 stored = JSON_stringify (mem w) v.
Proof.
  intros Hwf Hown Ha.
  destruct (accepted_inv _ _ _ Ha)
    as (copy & h' & w2 & Hclone & -> & Hm & Hc & _).
  pose proof (emit_or_schedule_spec w2) as (_ & Hm' & Hc' & _).
  rewrite Hm', Hm. intros Hlen Hag.
  destruct (clone_copied _ _ _ _ Hwf Hclone) as (Hext & Hl & Hs).
  assert (Hset : set_property h' (cloned_initial_state w) key copy
                 = Container (set_own key copy (own (cloned_initial_state w)))
                             (proto (cloned_initial_state w))).
  { unfold set_property, find_slot. by rewrite Hown. }
  assert (Hread : forall h3, find_slot h3 (cloned_initial_state (exec emit_or_schedule w2)) key
                             = Some (Data copy)).
  { intros h3. rewrite Hc', Hc, Hset. unfold find_slot. simpl.
    by rewrite get_own_set_own. }
  exists copy. rewrite !state_get_result. unfold has_property, get_property. simpl.
  rewrite !Hread. rewrite !bool_decide_eq_true_2 by (by eexists).
  split; [done|]. split; [done|]. split; [done|]. split.
  - apply Hs; [done|]. intros l _. done.
  - by apply Hs.
Qed.

Lemma sample_store_wf : heap_wf (mem sample_store).
Proof.
  intros l ps H. vm_compute in H.
  destruct l as [|[|[|[|l]]]]; simpl in H; try done; injection H as <-;
    apply (bool_decide_unpack _); vm_compute; exact I.
Qed.

Lemma C3_witness :
  exists stored,
    result (state_get "user") (exec (state_set "user" (VRef 0%nat)) sample_store)
      = Return stored /\
    JSON_stringify
      (<[0%nat := OPlain [("name", VStr "eve")]]>
         (mem (exec (state_set "user" (VRef 0%nat)) sample_store)))
      stored
    = SJson (JObj [("name", JStr "ann")]).
Proof.
  destruct (C3_write_stores_deep_copy sample_store "user" (VRef 0%nat) (VRef 2%nat)
              (<[0%nat := OPlain [("name", VStr "eve")]]>
                 (mem (exec (state_set "user" (VRef 0%nat)) sample_store))))
    as (stored & H1 & _ & _ & _ & H2).
  - exact sample_store_wf.
  - reflexivity.
  - split; reflexivity.
  - rewrite length_insert. lia.
  - intros l Hl. apply list_lookup_insert_ne. vm_compute in Hl. lia.
  - exists stored. split; [exact H1|]. rewrite H2. reflexivity.
Defined.

(** ** The fuel of [JSON.stringify] *)

Lemma ser_elems_some rs : Forall is_Some rs -> is_Some (ser_elems rs).
Proof.
  induction 1 as [|x rs [r ->] _ [r' IH]]; simpl; [by eexists|].
  rewrite IH. destruct r as [| |j]; [by eexists|..]; destruct r' as [| |[]]; by eexists.
Qed.

Lemma ser_props_some (rs : list (string * option ser_result)) :
  Forall (fun kr => is_Some kr.2) rs -> is_Some (ser_props rs).
Proof.
  induction 1 as [|[k x] rs [r Hr] _ [r' IH]]; simpl in *; [by eexists|]. subst x.
  rewrite IH. destruct r as [| |j]; [by eexists|..]; destruct r' as [| |[]]; by eexists.
Qed.

Lemma stack_bounded (stack : list nat) (n : nat) :
  NoDup stack -> (forall l, l ∈ stack -> (l < n)%nat) -> (length stack <= n)%nat.
Proof.
  intros Hnd Hlt. rewrite <- (length_seq n 0). apply submseteq_length.
  apply NoDup_submseteq; [done|]. intros l Hl. apply elem_of_seq. specialize (Hlt l Hl). lia.
Qed.

Lemma ser_fuel h fuel stack v :
  NoDup stack ->
  (forall l, l ∈ stack -> (l < length h)%nat) ->
  (length h < fuel + length stack)%nat ->
  is_Some (ser fuel stack h v).
Proof.
  revert stack v. induction fuel as [|fuel IH]; intros stack v Hnd Hlt Hf.
  - pose proof (stack_bounded _ _ Hnd Hlt). lia.
  - simpl. destruct v as [| |b|[z| |n]|s|z|i|i|[|f|f]|l]; try by eexists.
    case_bool_decide as Hin; [by eexists|].
    destruct (h !! l) as [[ps|es]|] eqn:El; [| |by eexists].
    + apply ser_props_some, Forall_map, Forall_forall. intros [k x] _. simpl.
      apply IH; [by constructor | | simpl; lia].
      intros l' [->|Hl']%elem_of_cons; [by eapply lookup_lt_Some | by apply Hlt].
    + apply ser_elems_some, Forall_map, Forall_forall. intros x _.
      apply IH; [by constructor | | simpl; lia].
      intros l' [->|Hl']%elem_of_cons; [by eapply lookup_lt_Some | by apply Hlt].
Qed.

(** The fuel that [JSON_stringify] gives never runs out: an object found
    on the stack ends the descent, and the stack holds distinct objects of
    the heap. *)
Lemma JSON_stringify_total h v : is_Some (ser (S (length h)) [] h v).
Proof.
  apply ser_fuel; [constructor | | simpl; lia].
  intros l Hl. by apply elem_of_nil in Hl.
Qed.

(** * Further properties of the code *)

(** ** Creating the global state *)

(** Whatever [create_state] does, [stator._state_created] is set afterwards. *)
Lemma create_state_marks (initial_state : value) (w : world) :
  _state_created (stator (exec (create_state initial_state) w)) = true.
Proof.
  unfold exec, create_state, bind at 1, gets at 1. cbv beta iota.
  destruct (_state_created (stator w)) eqn:E; [exact E|].
  unfold bind at 1, set__state_created, modify. cbv beta iota zeta.
  unfold bind at 1, clone.
  cbn [mem with_stator].
  destruct (_clone_obj (mem w) initial_state) as [[v' h']|e]; [|reflexivity].
  unfold bind, proxy_target, modify.
  destruct v'; try reflexivity.
  cbn [mem with_mem]. destruct (h' !! l) as [[|]|]; reflexivity.
Qed.

(** Property X1.  [stator.create_state] works at most once: after a call,
    whatever it was given and whether it returned or threw, every further
    call throws "cannot create more than one global state" and changes
    nothing.  The flag is set before the initial state is cloned, so a call
    that fails leaves the page without a global state for good. *)
Theorem create_state_only_once (initial_state again : value) (w : world) :
  create_state again (exec (create_state initial_state) w)
  = (Throw (Thrown "cannot create more than one global state"),
     exec (create_state initial_state) w).
Proof.
  pose proof (create_state_marks initial_state w) as H.
  unfold create_state at 1, bind at 1, gets at 1. cbv beta iota. rewrite H. reflexivity.
Qed.

(** Property X2.  [stator.create_state] of [undefined], [null], a boolean, a
    number, a string or a BigInt throws a TypeError ([new Proxy] needs an
    object, [JSON.stringify] refuses a BigInt).  The state and the heap are
    as before, but [_state_created] is set. *)
Theorem create_state_needs_object (w : world) (v : value) :
  _state_created (stator w) = false ->
  match v with
  | VUndefined | VNull | VBool _ | VNum _ | VStr _ | VBigInt _ => True
  | _ => False
  end ->
  result (create_state v) w = Throw TypeError /\
  cloned_initial_state (exec (create_state v) w) = cloned_initial_state w /\
  mem (exec (create_state v) w) = mem w /\
  _state_created (stator (exec (create_state v) w)) = true.
Proof.
  intros Hc Hv.
  assert (Heq : create_state v w = (Throw TypeError, exec (set__state_created true) w)).
  { unfold create_state, bind at 1, gets at 1. cbv beta iota. rewrite Hc.
    destruct v as [| |b|[z| |n]|s|z|i|i|[|f|f]|l]; try done; reflexivity. }
  unfold result, exec. rewrite Heq. done.
Qed.

Lemma create_state_needs_object_witness :
  result (create_state VNull) (initial_world sample_document) = Throw TypeError /\
  _state_created (stator (exec (create_state VNull) (initial_world sample_document))) = true.
Proof.
  destruct (create_state_needs_object (initial_world sample_document) VNull)
    as (H1 & _ & _ & H4); [reflexivity | exact I |].
  split; [exact H1 | exact H4].
Defined.

Lemma ser_elems_not_undef rs : ser_elems rs <> Some SUndef.
Proof.
  induction rs as [|[[| |j]|] rs IH]; simpl; try done.
  - destruct (ser_elems rs) as [[| |[]]|]; done.
  - destruct (ser_elems rs) as [[| |[]]|]; done.
Qed.

Lemma ser_props_not_undef rs : ser_props rs <> Some SUndef.
Proof.
  induction rs as [|[k [[| |j]|]] rs IH]; simpl; try done.
  - destruct (ser_props rs) as [[| |[]]|]; done.
  - destruct (ser_props rs) as [[| |[]]|]; done.
Qed.

Lemma ser_undef fuel stack h v r :
  ser fuel stack h v = Some r -> r <> SThrow -> (r = SUndef <-> json_keeps v = false).
Proof.
  destruct fuel as [|fuel]; [done|]. simpl.
  destruct v as [| |b|[z| |n]|s|z|i|i|[|f|f]|l]; try (intros [= <-] _; done).
  case_bool_decide as Hin; [intros [= <-]; done|].
  destruct (h !! l) as [[ps|es]|]; [| |intros [= <-]; done].
  - intros H _. simpl. split; [|done]. intros ->. by apply ser_props_not_undef in H.
  - intros H _. simpl. split; [|done]. intros ->. by apply ser_elems_not_undef in H.
Qed.

Lemma ser_primitive fuel stack h v v' j :
  ser fuel stack h v = Some (SJson j) -> json_primitive v = Some v' ->
  forall h0, parse j h0 = (v', h0).
Proof.
  destruct fuel as [|fuel]; [done|]. simpl.
  destruct v as [| |b|[z| |n]|s|z|i|i|[|f|f]|l]; try done; intros [= <-] [= <-]; done.
Qed.

(** The members of the text of an object, parsed again: the keys whose
    values JSON keeps, in their order, and the primitive values as they were. *)
Lemma members_round_trip fuel stack h ps :
  forall ms h0,
  ser_props (map (fun kv => (kv.1, ser fuel stack h kv.2)) ps) = Some (SJson (JObj ms)) ->
  map fst (parse_members parse ms h0).1 = map fst (filter (fun kv => json_keeps kv.2) ps) /\
  (forall k v v', get_own k ps = Some v -> json_primitive v = Some v' ->
     get_own k (parse_members parse ms h0).1 = Some v').
Proof.
  induction ps as [|[k1 v1] ps IH]; intros ms h0; simpl.
  - intros [= <-]. simpl. done.
  - destruct (ser fuel stack h v1) as [r1|] eqn:E1; [|done].
    destruct r1 as [| |j1]; [done| |].
    + destruct (ser_props _) as [[| |[| | | | |ms']]|] eqn:E; try done.
      intros [= <-]. simpl. destruct (IH ms' h0 eq_refl) as (H1 & H2).
      assert (Hk : json_keeps v1 = false) by (by eapply ser_undef).
      rewrite filter_cons. cbn [snd]. rewrite decide_False by (rewrite Hk; exact id).
      split; [done|].
      intros k v v'. case_bool_decide; [|by apply H2].
      intros [= <-] Hp. destruct v1 as [| |b|[z| |n]|s|z|i|i|[|f|f]|l]; done.
    + destruct (ser_props _) as [[| |[| | | | |ms']]|] eqn:E; try done.
      intros [= <-]. simpl.
      destruct (parse j1 h0) as [p1 h1] eqn:Ep.
      destruct (IH ms' h1 eq_refl) as (H1 & H2).
      destruct (parse_members parse ms' h1) as [ps' h2] eqn:Em. simpl in *.
      assert (Hk : json_keeps v1 = true).
      { destruct (json_keeps v1) eqn:Hk; [done|].
        apply (ser_undef _ _ _ _ _ E1) in Hk; done. }
      rewrite filter_cons. cbn [snd]. rewrite decide_True by (rewrite Hk; exact I). simpl.
      split; [by f_equal|].
      intros k v v'. case_bool_decide; [|by apply H2].
      intros [= <-] Hp. rewrite (ser_primitive _ _ _ _ _ _ E1 Hp) in Ep. congruence.
Qed.

Lemma ser_props_obj rs j : ser_props rs = Some (SJson j) -> exists ms, j = JObj ms.
Proof.
  revert j. induction rs as [|[k [[| |j1]|]] rs IH]; intros j; simpl; try done.
  - intros [= <-]. by eexists.
  - destruct (ser_props rs) as [[| |[| | | | |ms']]|] eqn:E; try done;
      try (intros [= <-]; by destruct (IH _ eq_refl)).
    intros [= <-]. by eexists.
  - destruct (ser_props rs) as [[| |[| | | | |ms']]|] eqn:E; try done;
      try (intros [= <-]; by destruct (IH _ eq_refl)).
    intros [= <-]. by eexists.
Qed.

Lemma get_own_elem_of k v ps : get_own k ps = Some v -> (k, v) ∈ ps.
Proof.
  induction ps as [|[k' v'] ps IH]; simpl; [done|].
  case_bool_decide as E; [intros [= <-]; subst; by left | intros H; right; by apply IH].
Qed.

Lemma get_own_none k ps : k ∉ map fst ps -> get_own k ps = None.
Proof.
  induction ps as [|[k' v'] ps IH]; simpl; [done|].
  intros Hk. rewrite bool_decide_eq_false_2.
  - apply IH. intros ?. apply Hk. by right.
  - intros ->. apply Hk. by left.
Qed.

Lemma NoDup_fst_agree (k : string) (v v2 : value) ps :
  NoDup (map fst ps) -> (k, v) ∈ ps -> (k, v2) ∈ ps -> v = v2.
Proof.
  induction ps as [|[k' v'] ps IH]; simpl; [by intros _ ?%elem_of_nil|].
  intros [Hk Hnd]%NoDup_cons H1 H2.
  assert (Hin : forall x, (k', x) ∈ ps -> False).
  { intros x Hx. apply Hk. apply list_elem_of_fmap. by exists (k', x). }
  apply elem_of_cons in H1 as [H1|H1]; apply elem_of_cons in H2 as [H2|H2].
  - congruence.
  - injection H1 as -> ->. by destruct (Hin _ H2).
  - injection H2 as -> ->. by destruct (Hin _ H1).
  - by apply IH.
Qed.

Lemma create_state_eq (w : world) (l : loc) (ps : list (string * value)) (j : json) :
  _state_created (stator w) = false ->
  mem w !! l = Some (OPlain ps) ->
  JSON_stringify (mem w) (VRef l) = SJson j ->
  exists ms,
    ser_props (map (fun kv => (kv.1, ser (length (mem w)) [l] (mem w) kv.2)) ps)
      = Some (SJson (JObj ms)) /\
    create_state (VRef l) w =
      (Return tt,
       World ((parse_members parse ms (mem w)).2
                ++ [OPlain (define_all (parse_members parse ms (mem w)).1)])
             (document w) (br w)
             (Stator (options (stator w)) (_debounce_timeout (stator w))
                     (_suppressed_event_count (stator w)) true)
             (Container (define_all (parse_members parse ms (mem w)).1) ProtoObject)
             (reactors w)).
Proof.
  intros Hc Hl Hj. unfold JSON_stringify in Hj. simpl in Hj. rewrite Hl in Hj.
  destruct (ser_props _) as [r|] eqn:Es; [|done]. subst r.
  destruct (ser_props_obj _ _ Es) as [ms ->]. exists ms. split; [done|].
  unfold create_state, bind at 1, gets at 1. cbv beta iota. rewrite Hc.
  unfold bind at 1, set__state_created, modify. cbv beta iota zeta.
  unfold bind at 1, clone, _clone_obj, JSON_stringify. cbn [mem with_stator].
  rewrite bool_decide_eq_false_2 by done. simpl ser. rewrite Hl, Es.
  cbn [parse]. destruct (parse_members parse ms (mem w)) as [ps' h'] eqn:Ep.
  unfold bind, proxy_target, modify. cbn [mem with_mem fst snd].
  rewrite list_lookup_middle by done. reflexivity.
Qed.

(** Property X3.  [stator.create_state(o)] for a plain object [o] that JSON
    can serialize returns normally, and the state it creates is the JSON
    copy of [o]: its keys are the keys of [o] whose values JSON keeps, in
    their order, so a key whose value is [undefined] or a function is not a
    key of the state; reading a key that held a primitive returns that
    primitive, with [null] for [NaN] and the infinities.  (As everywhere
    here, no object has a [toJSON] method.) *)
Theorem create_state_snapshot (w : world) (l : loc) (ps : list (string * value)) (j : json) :
  _state_created (stator w) = false ->
  mem w !! l = Some (OPlain ps) ->
  NoDup (map fst ps) ->
  JSON_stringify (mem w) (VRef l) = SJson j ->
  result (create_state (VRef l)) w = Return tt /\
  map fst (own (cloned_initial_state (exec (create_state (VRef l)) w)))
    = map fst (filter (fun kv => json_keeps kv.2) ps) /\
  proto (cloned_initial_state (exec (create_state (VRef l)) w)) = ProtoObject /\
  (forall k v v', get_own k ps = Some v -> json_primitive v = Some v' ->
     result (state_get k) (exec (create_state (VRef l)) w) = Return v') /\
  (forall k v, get_own k ps = Some v -> json_keeps v = false ->
     get_own k (own (cloned_initial_state (exec (create_state (VRef l)) w))) = None).
Proof.
  intros Hc Hl Hnd Hj.
  destruct (create_state_eq w l ps j Hc Hl Hj) as (ms & Hs & Heq).
  unfold result, exec. rewrite Heq. cbn [fst snd cloned_initial_state own proto].
  destruct (members_round_trip _ _ _ _ ms (mem w) Hs) as [Hk Hv].
  assert (Hnd' : NoDup (map fst (filter (fun kv => json_keeps kv.2) ps))).
  { eapply sublist_NoDup; [exact Hnd|]. apply (fmap_sublist fst), sublist_filter. }
  rewrite define_all_nodup by (by rewrite Hk).
  split; [done|]. split; [done|]. split; [done|]. split.
  - intros k v v' Hg Hp. unfold state_get, bind, gets. cbn [fst snd cloned_initial_state mem].
    unfold has_property, get_property, find_slot. cbn [own].
    rewrite (Hv _ _ _ Hg Hp). by rewrite bool_decide_eq_true_2 by (by eexists).
  - intros k v Hg Hkeep. apply get_own_none. rewrite Hk.
    intros ((k2 & v2) & -> & Hin)%list_elem_of_fmap. simpl in Hg.
    apply list_elem_of_filter in Hin as [Hkeep2 Hin]. simpl in Hkeep2.
    apply get_own_elem_of in Hg.
    rewrite (NoDup_fst_agree _ _ _ _ Hnd Hg Hin) in Hkeep. by rewrite Hkeep in Hkeep2.
Qed.

Lemma create_state_snapshot_witness :
  map fst (own (cloned_initial_state (exec (create_state (VRef 0%nat)) sample_literal)))
    = ["count"; "name"] /\
  result (state_get "name") (exec (create_state (VRef 0%nat)) sample_literal)
    = Return (VStr "ann").
Proof.
  destruct (create_state_snapshot sample_literal 0%nat
              [("count", VNum (Fin 0)); ("name", VStr "ann"); ("f", VFun 1); ("x", VUndefined)]
              (JObj [("count", JNum 0); ("name", JStr "ann")]))
    as (_ & H2 & _ & H4 & _).
  - reflexivity.
  - reflexivity.
  - apply (bool_decide_unpack _). vm_compute. exact I.
  - reflexivity.
  - split; [exact H2|]. apply (H4 "name" (VStr "ann")); reflexivity.
Defined.

(** ** Values through JSON *)

Lemma clone_primitive h v v' :
  json_primitive v = Some v' -> _clone_obj h v = Return (v', h).
Proof.
  destruct v as [| |b|[z| |n]|s|z|i|i|[|f|f]|l]; try done; intros [= <-]; reflexivity.
Qed.

Lemma emit_or_schedule_store w :
  mem (exec emit_or_schedule w) = mem w /\
  cloned_initial_state (exec emit_or_schedule w) = cloned_initial_state w.
Proof. pose proof (emit_or_schedule_spec w) as (_ & H1 & H2 & _). by split. Qed.

(** Property X4.  Round trip of a primitive: after an accepted write of
    [null], a boolean, a number or a string to a key of the state, reading
    the key returns that value, or [null] if it was [NaN] or an infinity;
    the write allocates nothing. *)
Theorem write_read_primitive (w : world) (key : string) (v v' old : value) :
  get_own key (own (cloned_initial_state w)) = Some old ->
  json_primitive v = Some v' ->
  accepted key v w ->
  result (state_get key) (exec (state_set key v) w) = Return v' /\
  mem (exec (state_set key v) w) = mem w.
Proof.
  intros Hown Hp Ha.
  destruct (accepted_inv _ _ _ Ha) as (copy & h' & w2 & Hclone & -> & Hm & Hc & _).
  rewrite (clone_primitive _ _ _ Hp) in Hclone. injection Hclone as <- <-.
  destruct (emit_or_schedule_store w2) as [Hm' Hc'].
  rewrite state_get_result, Hm', Hc', Hc.
  unfold has_property, get_property, set_property, find_slot. rewrite Hown. simpl.
  rewrite get_own_set_own. rewrite bool_decide_eq_true_2 by (by eexists).
  split; [done|]. congruence.
Qed.

Lemma write_read_primitive_witness :
  result (state_get "count") (exec (state_set "count" (VNum (Fin 5))) sample_store)
    = Return (VNum (Fin 5)).
Proof.
  destruct (write_read_primitive sample_store "count" (VNum (Fin 5)) (VNum (Fin 5))
              (VNum (Fin 0))) as [H _].
  - reflexivity.
  - reflexivity.
  - split; reflexivity.
  - exact H.
Defined.

(** Property X5.  The JSON copy changes the type of a number that is not
    finite.  For a key that holds a finite number, with type checking
    enabled: writing [NaN] or an infinity is accepted (both are numbers),
    the state then holds [null], and from then on every write of a number
    to the key is rejected as a change from [object] to [number]. *)
Theorem nan_write_changes_type (w : world) (key : string) (z : Z) (bad m : number) :
  get_own key (own (cloned_initial_state w)) = Some (VNum (Fin z)) ->
  type_check (options (stator w)) = true ->
  (forall z', bad <> Fin z') ->
  result (state_set key (VNum bad)) w = Return (VBool true) /\
  result (state_get key) (exec (state_set key (VNum bad)) w) = Return VNull /\
  result (state_set key (VNum m)) (exec (state_set key (VNum bad)) w)
    = Throw (type_error key "object" "number").
Proof.
  intros Hown Htc Hbad.
  assert (Hfs : forall h, find_slot h (cloned_initial_state w) key = Some (Data (VNum (Fin z)))).
  { intros h. unfold find_slot. by rewrite Hown. }
  assert (Hne : strict_neq (VNum (Fin z)) (VNum bad) = true).
  { unfold strict_neq, strict_eq. rewrite bool_decide_eq_false_2; [done|].
    intros [= <-]. by apply (Hbad z). }
  assert (Hcl : _clone_obj (mem w) (VNum bad) = Return (VNull, mem w)).
  { destruct bad as [z'| |b]; [by destruct (Hbad z') | reflexivity..]. }
  assert (Hset : state_set key (VNum bad) w =
    (Return (VBool true),
     exec emit_or_schedule
       (with_cloned_initial_state
          (Container (set_own key VNull (own (cloned_initial_state w)))
                     (proto (cloned_initial_state w)))
          (with_mem (mem w)
             (exec (when (debug (options (stator w)))
                      (console_log [VStr ("stator " +:+ key); VNum (Fin z); VStr " -> ";
                                    VNum bad]))
                w))))).
  { rewrite state_set_eq. cbv zeta. unfold has_property, get_property, set_property.
    rewrite !Hfs. rewrite bool_decide_eq_true_2 by (by eexists).
    change (negb true) with false. cbv iota. rewrite Hne, Htc, Hcl.
    change (typeof (VNum (Fin z))) with "number". change (typeof (VNum bad)) with "number".
    change (negb ("number" =? "number")%string) with false.
    rewrite andb_false_r. cbv iota. rewrite Hfs. reflexivity. }
  unfold result at 1, exec at 1 2. rewrite Hset. unfold fst, snd.
  match goal with |- context [exec emit_or_schedule ?x] => set (w2 := x) end.
  pose proof (emit_or_schedule_spec w2) as (_ & Hm' & Hc' & Ho' & _).
  assert (Hfs' : forall h, find_slot h (cloned_initial_state (exec emit_or_schedule w2)) key
                           = Some (Data VNull)).
  { intros h. rewrite Hc'. unfold find_slot. simpl. by rewrite get_own_set_own. }
  split; [done|]. split.
  - rewrite state_get_result. unfold has_property, get_property. rewrite !Hfs'.
    by rewrite bool_decide_eq_true_2 by (by eexists).
  - unfold result. rewrite state_set_eq. cbv zeta. unfold has_property, get_property.
    rewrite !Hfs'. rewrite bool_decide_eq_true_2 by (by eexists).
    change (negb true) with false. cbv iota.
    rewrite Ho'. subst w2.
    assert (Ho2 : options (stator (with_cloned_initial_state
          (Container (set_own key VNull (own (cloned_initial_state w)))
                     (proto (cloned_initial_state w)))
          (with_mem (mem w)
             (exec (when (debug (options (stator w)))
                      (console_log [VStr ("stator " +:+ key); VNum (Fin z); VStr " -> ";
                                    VNum bad]))
                w)))) = options (stator w)).
    { by destruct (debug (options (stator w))). }
    rewrite Ho2, Htc. reflexivity.
Qed.

Lemma nan_write_changes_type_witness :
  result (state_set "count" (VNum NaN)) sample_store = Return (VBool true) /\
  result (state_set "count" (VNum (Fin 1))) (exec (state_set "count" (VNum NaN)) sample_store)
    = Throw (type_error "count" "object" "number").
Proof.
  destruct (nan_write_changes_type sample_store "count" 0 NaN (Fin 1)) as (H1 & _ & H3).
  - reflexivity.
  - reflexivity.
  - intros z'. discriminate.
  - split; [exact H1 | exact H3].
Defined.

Lemma ser_props_throw (rs : list (string * option ser_result)) k :
  Forall (fun kr => is_Some kr.2) rs -> (k, Some SThrow) ∈ rs -> ser_props rs = Some SThrow.
Proof.
  induction 1 as [|[k' x] rs [r Hr] _ IH]; [by intros ?%elem_of_nil|].
  simpl in Hr. subst x. intros [[= <- <-]|Hin]%elem_of_cons; [done|].
  simpl. destruct r; [done|..]; by rewrite IH.
Qed.

Lemma ser_elems_throw (rs : list (option ser_result)) :
  Forall is_Some rs -> Some SThrow ∈ rs -> ser_elems rs = Some SThrow.
Proof.
  induction 1 as [|x rs [r ->] _ IH]; [by intros ?%elem_of_nil|].
  intros [[= <-]|Hin]%elem_of_cons; [done|].
  simpl. destruct r; [done|..]; by rewrite IH.
Qed.

Lemma members_some h l (vs : list value) :
  (l < length h)%nat ->
  Forall is_Some (map (ser (length h) [l] h) vs).
Proof.
  intros Hl. apply Forall_map, Forall_forall. intros v _.
  apply ser_fuel; [apply NoDup_singleton | | simpl; lia].
  intros l' ->%list_elem_of_singleton. done.
Qed.

Lemma member_throws h l v :
  (l < length h)%nat -> unserializable_in l v -> ser (length h) [l] h v = Some SThrow.
Proof.
  intros Hl Hv. destruct (length h) as [|n] eqn:E; [lia|]. simpl.
  destruct Hv as [->|[z ->]]; [|done].
  by rewrite bool_decide_eq_true_2 by (by left).
Qed.

(** Property X6.  [_clone_obj] of an object or array that holds itself, or
    that holds a BigInt, throws a TypeError: [JSON.stringify] refuses a
    cycle and a BigInt.  (As everywhere here, no object has a [toJSON]
    method.) *)
Theorem clone_rejects_cycle (h : heap) (l : loc) (o : obj) (v : value) :
  h !! l = Some o ->
  holds o v ->
  unserializable_in l v ->
  _clone_obj h (VRef l) = Throw TypeError.
Proof.
  intros Hl Hin Hv. pose proof (lookup_lt_Some _ _ _ Hl) as Hlt.
  unfold _clone_obj, JSON_stringify. rewrite bool_decide_eq_false_2 by done.
  simpl. rewrite Hl. destruct o as [ps|es].
  - destruct Hin as [k Hin]. rewrite (ser_props_throw _ k); [done| |].
    + apply Forall_map, Forall_forall. intros [k' v'] _. simpl.
      apply ser_fuel; [apply NoDup_singleton | | simpl; lia].
      intros l' ->%list_elem_of_singleton. done.
    + apply list_elem_of_fmap. exists (k, v). split; [|done]. simpl.
      by rewrite member_throws.
  - rewrite ser_elems_throw; [done| |].
    + by apply members_some.
    + apply list_elem_of_fmap. exists v. split; [|done]. by rewrite member_throws.
Qed.

Lemma clone_rejects_cycle_witness :
  _clone_obj (mem sample_cyclic) (VRef 4%nat) = Throw TypeError.
Proof.
  apply (clone_rejects_cycle (mem sample_cyclic) 4%nat (OPlain [("self", VRef 4%nat)])
           (VRef 4%nat)).
  - reflexivity.
  - exists "self". apply list_elem_of_singleton. reflexivity.
  - left. reflexivity.
Defined.

(** Property X7.  A write of a value that [_clone_obj] cannot copy (a cycle,
    a BigInt, a function), to a key that passes the key guard and the type
    check, throws what the copy throws; the assignment never happens: the
    state, the heap, the scheduler, the timers and the events are as
    before. *)
Theorem unclonable_write_rejected (w : world) (key : string) (v : value) (e : exn) :
  has_property (mem w) (cloned_initial_state w) key = true ->
  strict_neq (get_property (mem w) (cloned_initial_state w) key) v = true ->
  (type_check (options (stator w)) = false \/
   get_property (mem w) (cloned_initial_state w) key = VUndefined \/
   typeof (get_property (mem w) (cloned_initial_state w) key) = typeof v) ->
  _clone_obj (mem w) v = Throw e ->
  result (state_set key v) w = Throw e /\
  cloned_initial_state (exec (state_set key v) w) = cloned_initial_state w /\
  mem (exec (state_set key v) w) = mem w /\
  stator (exec (state_set key v) w) = stator w /\
  timers (br (exec (state_set key v) w)) = timers (br w) /\
  events (br (exec (state_set key v) w)) = events (br w).
Proof.
  intros Hk Hne Hty Hcl.
  assert (Hr : result (state_set key v) w = Throw e).
  { unfold result. rewrite state_set_eq. cbv zeta. rewrite Hk, Hne, Hcl.
    change (negb true) with false. cbv iota.
    assert (Hc : type_check (options (stator w))
                 && strict_neq (get_property (mem w) (cloned_initial_state w) key) VUndefined
                 && negb (String.eqb (typeof (get_property (mem w) (cloned_initial_state w) key))
                                     (typeof v)) = false).
    { destruct Hty as [->|[->|Hty]]; [done | by rewrite andb_false_r |].
      apply String.eqb_eq in Hty. rewrite Hty. by rewrite andb_false_r. }
    by rewrite Hc. }
  split; [exact Hr|].
  destruct (state_set_throw_frame _ _ _ _ Hr) as (H1 & H2 & H3 & _ & _ & H6 & _ & _ & H9 & _).
  done.
Qed.

Lemma unclonable_write_rejected_witness :
  result (state_set "user" (VRef 4%nat)) sample_cyclic = Throw TypeError /\
  cloned_initial_state (exec (state_set "user" (VRef 4%nat)) sample_cyclic)
    = cloned_initial_state sample_cyclic.
Proof.
  destruct (unclonable_write_rejected sample_cyclic "user" (VRef 4%nat) TypeError)
    as (H1 & H2 & _).
  - reflexivity.
  - reflexivity.
  - right. right. reflexivity.
  - reflexivity.
  - split; [exact H1 | exact H2].
Defined.

(** ** Keys of the state *)

Lemma get_own_set_own_ne k key v ps : k <> key -> get_own k (set_own key v ps) = get_own k ps.
Proof.
  intros Hne. induction ps as [|[k' v'] ps IH]; simpl.
  - by rewrite bool_decide_eq_false_2 by done.
  - destruct (bool_decide (k' = key)) eqn:E; simpl.
    + apply bool_decide_eq_true in E. subst k'.
      by rewrite !bool_decide_eq_false_2 by done.
    + destruct (bool_decide (k' = k)); [done | exact IH].
Qed.

Lemma set_property_own h c key v k :
  (k <> key -> get_own k (own (set_property h c key v)) = get_own k (own c)) /\
  (is_Some (get_own k (own c)) -> is_Some (get_own k (own (set_property h c key v)))).
Proof.
  unfold set_property.
  destruct (find_slot h c key) as [[x|]|] eqn:E.
  1,3: split; simpl;
       [apply get_own_set_own_ne
       | intros Hs; destruct (decide (k = key)) as [->|Hne];
         [rewrite get_own_set_own; by eexists | by rewrite get_own_set_own_ne]].
  split; [by destruct v as [| | | | | | | |[]|] | by destruct v as [| | | | | | | |[]|]].
Qed.

(** Property X8.  A write to [key], whatever its outcome, leaves the own
    properties of the state under every other key as they are, and removes
    no key: a key that the state has, it still has afterwards. *)
Theorem write_keeps_other_keys (w : world) (key : string) (v : value) (k : string) :
  (k <> key ->
   get_own k (own (cloned_initial_state (exec (state_set key v) w)))
     = get_own k (own (cloned_initial_state w))) /\
  (is_Some (get_own k (own (cloned_initial_state w))) ->
   is_Some (get_own k (own (cloned_initial_state (exec (state_set key v) w))))).
Proof.
  unfold exec. rewrite state_set_eq. cbv zeta.
  destruct (negb _); [done|].
  destruct (strict_neq _ _); [|done].
  destruct (_ && _); [by destruct (debug _)|].
  destruct (_clone_obj (mem w) v) as [[copy h']|e]; [|by destruct (debug _)].
  unfold snd.
  match goal with |- context [exec emit_or_schedule ?x] =>
    pose proof (emit_or_schedule_spec x) as (_ & _ & Hc & _); rewrite Hc end.
  cbn [cloned_initial_state with_cloned_initial_state].
  apply set_property_own.
Qed.

Lemma set_own_keys k v old ps :
  get_own k ps = Some old -> map fst (set_own k v ps) = map fst ps.
Proof.
  induction ps as [|[k' v'] ps IH]; simpl; [done|].
  case_bool_decide as E; simpl; [by subst | intros H; by rewrite IH].
Qed.

(** Property X9.  A write to an own key of the state, whatever its outcome,
    keeps the keys of the state, in their order, and its prototype. *)
Theorem tracked_write_keeps_keys (w : world) (key : string) (v old : value) :
  get_own key (own (cloned_initial_state w)) = Some old ->
  map fst (own (cloned_initial_state (exec (state_set key v) w)))
    = map fst (own (cloned_initial_state w)) /\
  proto (cloned_initial_state (exec (state_set key v) w))
    = proto (cloned_initial_state w).
Proof.
  intros Hown. unfold exec. rewrite state_set_eq. cbv zeta.
  destruct (negb _); [done|].
  destruct (strict_neq _ _); [|done].
  destruct (_ && _); [by destruct (debug _)|].
  destruct (_clone_obj (mem w) v) as [[copy h']|e]; [|by destruct (debug _)].
  unfold snd.
  match goal with |- context [exec emit_or_schedule ?x] =>
    pose proof (emit_or_schedule_spec x) as (_ & _ & Hc & _); rewrite Hc end.
  simpl. unfold set_property, find_slot. rewrite Hown. simpl.
  split; [by eapply set_own_keys | done].
Qed.

Lemma tracked_write_keeps_keys_witness :
  map fst (own (cloned_initial_state (exec (state_set "count" (VNum (Fin 5))) sample_store)))
    = ["count"; "user"].
Proof.
  destruct (tracked_write_keeps_keys sample_store "count" (VNum (Fin 5)) (VNum (Fin 0)))
    as [H _].
  - reflexivity.
  - rewrite H. reflexivity.
Defined.

(** Property X10.  A key that the target neither has nor inherits: reading
    it throws "attempted to access key that was not set during
    initialization", writing it throws "cannot create new key after
    initialization", and the world is as before. *)
Theorem unknown_key_fails (w : world) (key : string) (v : value) :
  has_property (mem w) (cloned_initial_state w) key = false ->
  state_get key w = (Throw (missing_key_error key), w) /\
  state_set key v w = (Throw (new_key_error key), w).
Proof.
  intros H. split.
  - unfold state_get, bind, gets. simpl. by rewrite H.
  - rewrite state_set_eq. cbv zeta. by rewrite H.
Qed.

Lemma unknown_key_fails_witness :
  state_get "total" sample_store = (Throw (missing_key_error "total"), sample_store) /\
  state_set "total" (VNum (Fin 1)) sample_store
    = (Throw (new_key_error "total"), sample_store).
Proof.
  apply (unknown_key_fails sample_store "total" (VNum (Fin 1))). reflexivity.
Defined.

(** ** Listeners *)

Lemma add_listeners_eq fs w :
  add_listeners fs w = (Return tt, exec (add_listeners fs) w).
Proof.
  revert w. induction fs as [|f fs IH]; intros w; simpl; [done|].
  unfold exec, bind, addEventListener, modify. cbv beta iota. by rewrite IH.
Qed.

Lemma add_listener_eq func w :
  add_listener func w = (Return tt, exec (add_listeners (functions_of func)) w).
Proof.
  destruct func as [f|fs]; simpl; [|apply add_listeners_eq].
  unfold exec, bind, addEventListener, modify, ret. reflexivity.
Qed.

Lemma add_listeners_spec fs w :
  (exists new,
     listeners (br (exec (add_listeners fs) w)) = listeners (br w) ++ new /\
     (forall f, f ∈ new <-> f ∈ fs /\ f ∉ listeners (br w)) /\
     NoDup new) /\
  mem (exec (add_listeners fs) w) = mem w /\
  stator (exec (add_listeners fs) w) = stator w /\
  cloned_initial_state (exec (add_listeners fs) w) = cloned_initial_state w /\
  reactors (exec (add_listeners fs) w) = reactors w /\
  timers (br (exec (add_listeners fs) w)) = timers (br w) /\
  events (br (exec (add_listeners fs) w)) = events (br w) /\
  dom_writes (br (exec (add_listeners fs) w)) = dom_writes (br w).
Proof.
  revert w. induction fs as [|f fs IH]; intros w.
  - split; [|done]. exists []. rewrite app_nil_r. split; [done|]. split; [|constructor].
    intros f. split; [by intros ?%elem_of_nil | by intros [?%elem_of_nil _]].
  - assert (Hstep : exec (add_listeners (f :: fs)) w
                    = exec (add_listeners fs) (exec (addEventListener f) w)).
    { unfold exec. simpl. unfold bind, addEventListener, modify. reflexivity. }
    rewrite Hstep. set (w1 := exec (addEventListener f) w).
    destruct (IH w1) as ((new & Hl & Hnew & Hnd) & H1 & H2 & H3 & H4 & H5 & H6 & H7).
    rewrite Hl, H1, H2, H3, H4, H5, H6, H7. subst w1.
    unfold exec, addEventListener, modify in *. cbn [snd] in *.
    case_bool_decide as Hin; cbn [br with_br listeners] in *.
    + split; [|done]. exists new. split; [done|]. split; [|done].
      intros g. rewrite Hnew. split.
      * intros [Hg Hn]. split; [by right | done].
      * intros [Hg Hn]. apply elem_of_cons in Hg as [->|Hg]; [done | by split].
    + split; [|done]. exists (f :: new). split; [by rewrite <- app_assoc|]. split.
      * intros g. rewrite elem_of_cons, Hnew. split.
        -- intros [->|[Hg Hn]]; [split; [by left | done]|].
           split; [by right|]. intros Hg'. apply Hn. apply elem_of_app. by left.
        -- intros [Hg Hn]. apply elem_of_cons in Hg as [->|Hg]; [by left|].
           destruct (decide (g = f)) as [->|Hne]; [by left | right].
           split; [done|]. intros [?|Hs]%elem_of_app; [done|].
           apply list_elem_of_singleton in Hs. done.
      * apply NoDup_cons. split; [|done]. rewrite Hnew. intros [_ Hn]. apply Hn.
        apply elem_of_app. right. by apply list_elem_of_singleton.
Qed.

Lemma add_listeners_known fs w :
  (forall f, f ∈ fs -> f ∈ listeners (br w)) -> exec (add_listeners fs) w = w.
Proof.
  induction fs as [|f fs IH]; intros H; [done|].
  unfold exec in *. simpl. unfold bind, addEventListener at 1, modify. cbv beta iota.
  rewrite bool_decide_eq_true_2 by (apply H; by left).
  apply IH. intros g Hg. apply H. by right.
Qed.

(** Property X11.  [stator.add_listener], for one function or an array of
    functions, returns normally; the listeners registered before stay in
    their places, and the functions not yet registered are added after
    them, each once.  Adding the same functions again changes nothing.
    Timers, events, the scheduler and the state are untouched. *)
Theorem add_listener_registers_once (func : listener_arg) (w : world) :
  result (add_listener func) w = Return tt /\
  (exists new,
     listeners (br (exec (add_listener func) w)) = listeners (br w) ++ new /\
     (forall f, f ∈ new <-> f ∈ functions_of func /\ f ∉ listeners (br w)) /\
     NoDup new) /\
  exec (add_listener func) (exec (add_listener func) w) = exec (add_listener func) w /\
  timers (br (exec (add_listener func) w)) = timers (br w) /\
  events (br (exec (add_listener func) w)) = events (br w) /\
  stator (exec (add_listener func) w) = stator w /\
  cloned_initial_state (exec (add_listener func) w) = cloned_initial_state w.
Proof.
  unfold result, exec. rewrite !add_listener_eq. cbn [fst snd].
  destruct (add_listeners_spec (functions_of func) w)
    as ((new & Hl & Hnew & Hnd) & H1 & H2 & H3 & H4 & H5 & H6 & H7).
  split; [done|]. split; [by exists new|]. split; [|done].
  apply add_listeners_known. intros f Hf. rewrite Hl.
  destruct (decide (f ∈ listeners (br w))) as [Hin|Hnin].
  - apply elem_of_app. by left.
  - apply elem_of_app. right. by apply Hnew.
Qed.

(** ** Rendering *)

(** [render] of a wired Reactor whose [should_render] agrees. *)
Lemma render_case r w this f g n :
  reactors w !! r = Some this ->
  wired this f g n ->
  truthy (apply_jsfun f (view_of this w)) = true ->
  render r w =
    let w2 := exec (clearTimeout (_render_timeout this) ;;
                    record_call "should_render" ;;
                    record_call "_html_callback") w in
    let html := apply_jsfun g (view_of this w) in
    if truthy (force_update this) || strict_neq html (old_node_html this)
    then (Return tt,
          exec (set_innerHTML n html ;;
                update_this r (set_old_node_html html) ;;
                record_call "updated_html" ;;
                update_this r (set_force_update (VBool false))) w2)
    else (Return tt, w2).
Proof.
  intros E (opts & h & Ho & Hf & Hh & Hg & Hn) Ht.
  rewrite render_eq, E. cbv zeta. rewrite Ho, Hf, Hg, Hn, Hh.
  change (view_of this (exec (clearTimeout (_render_timeout this)) w)) with (view_of this w).
  rewrite Ht. reflexivity.
Qed.

(** What [render] does to a wired Reactor whose [should_render] agrees. *)
Lemma render_wired r w this f g n :
  reactors w !! r = Some this ->
  wired this f g n ->
  truthy (apply_jsfun f (view_of this w)) = true ->
  let html := apply_jsfun g (view_of this w) in
  let changed := truthy (force_update this) || strict_neq html (old_node_html this) in
  result (render r) w = Return tt /\
  reactors (exec (render r) w)
    = (if changed
       then alter (fun x => set_force_update (VBool false) (set_old_node_html html x)) r
                  (reactors w)
       else reactors w) /\
  dom_writes (br (exec (render r) w))
    = dom_writes (br w) ++ (if changed then [(n, html)] else []) /\
  calls (br (exec (render r) w))
    = calls (br w) ++ ["should_render"; "_html_callback"]
      ++ (if changed then ["updated_html"] else []).
Proof.
  intros E Hw Ht. cbv zeta. unfold result, exec.
  rewrite (render_case _ _ _ _ _ _ E Hw Ht). cbv zeta.
  destruct (_ || _); unfold exec, bind, clearTimeout, record_call, set_innerHTML,
    update_this, modify;
    cbn [fst snd reactors with_reactors with_br br dom_writes calls];
    rewrite ?app_nil_r, <- ?app_assoc; repeat split; try done.
  by rewrite list_alter_alter_eq.
Qed.

Lemma fixed_fields_alter (f : reactor -> reactor) r l :
  (forall x, fixed_fields (f x) = fixed_fields x) ->
  map fixed_fields (alter f r l) = map fixed_fields l.
Proof. apply map_alter_frame. Qed.

(** What [render] leaves alone, whatever it does. *)
Lemma render_frame (r : nat) (w : world) :
  mem (exec (render r) w) = mem w /\
  cloned_initial_state (exec (render r) w) = cloned_initial_state w /\
  stator (exec (render r) w) = stator w /\
  listeners (br (exec (render r) w)) = listeners (br w) /\
  events (br (exec (render r) w)) = events (br w) /\
  now (br (exec (render r) w)) = now (br w) /\
  next_timer (br (exec (render r) w)) = next_timer (br w) /\
  timers (br (exec (render r) w))
    = match reactors w !! r with
      | Some this => cancel (_render_timeout this) (timers (br w))
      | None => timers (br w)
      end /\
  map fixed_fields (reactors (exec (render r) w)) = map fixed_fields (reactors w).
Proof.
  unfold exec. rewrite render_eq.
  destruct (reactors w !! r) as [this|] eqn:E; [|done]. cbv zeta.
  destruct (r_options this) as [opts|]; [|done].
  destruct (get_arg "should_render" opts) as [[f|x]|]; [|done..].
  destruct (truthy (apply_jsfun f _)); [|done].
  destruct (_html_callback this) as [g|]; [|done].
  destruct (_ || _); [|done].
  destruct (node this) as [n|]; [|done].
  destruct (get_arg "updated_html" opts) as [[h|x]|];
    unfold exec, bind, clearTimeout, record_call, set_innerHTML, update_this, modify;
    cbn [snd mem cloned_initial_state stator br reactors with_reactors with_br
         listeners events now next_timer timers];
    rewrite ?fixed_fields_alter by (by intros []); done.
Qed.

Lemma bind_return {A B} (m : js A) (k : A -> js B) w a w' :
  m w = (Return a, w') -> bind m k w = k a w'.
Proof. intros H. unfold bind. by rewrite H. Qed.

Lemma alter_last {A} (f : A -> A) (l : list A) (x : A) :
  alter f (length l) (l ++ [x]) = l ++ [f x].
Proof. rewrite <- (Nat.add_0_r (length l)). by rewrite alter_app_r. Qed.

Lemma wired_same this this' f g n :
  r_options this' = r_options this ->
  _html_callback this' = _html_callback this ->
  node this' = node this ->
  wired this f g n -> wired this' f g n.
Proof.
  intros H1 H2 H3 (opts & h & Ho & Hf & Hh & Hg & Hn).
  exists opts, h. repeat split; congruence.
Qed.

(** [render] of one Reactor leaves the others as they are, and only adds
    to the DOM writes. *)
Lemma render_others r' w :
  (forall r, r <> r' -> reactors (exec (render r') w) !! r = reactors w !! r) /\
  exists more, dom_writes (br (exec (render r') w)) = dom_writes (br w) ++ more.
Proof.
  assert (Hnil : forall l : list (nat * value), exists more, l = l ++ more)
    by (intros l; exists []; by rewrite app_nil_r).
  unfold exec. rewrite render_eq.
  destruct (reactors w !! r') as [this|] eqn:E; [|by split]. cbv zeta.
  destruct (r_options this) as [opts|]; [|by split].
  destruct (get_arg "should_render" opts) as [[f|x]|]; [|by split..].
  destruct (truthy (apply_jsfun f _)); [|by split].
  destruct (_html_callback this) as [g|]; [|by split].
  destruct (_ || _); [|by split].
  destruct (node this) as [n|]; [|by split].
  destruct (get_arg "updated_html" opts) as [[h|x]|];
    unfold exec, bind, clearTimeout, record_call, set_innerHTML, update_this, modify;
    cbn [snd br reactors with_reactors with_br dom_writes];
    (split; [intros r Hne; by rewrite ?list_lookup_alter_ne by done | by eexists]).
Qed.

Lemma strict_neq_false a b : strict_neq a b = false -> a = b.
Proof.
  unfold strict_neq. intros H%negb_false_iff. unfold strict_eq in H.
  destruct a as [| | |[]| | | | | |]; try done; by apply bool_decide_eq_true in H.
Qed.

(** Property X12.  [render] of a wired Reactor whose [should_render]
    returns a truthy value: it returns normally; it assigns the html of the
    render callback to the node exactly when [force_update] is set or the
    html differs from the cached one, and not otherwise; afterwards the
    cache holds that html and [force_update] is unset. *)
Theorem render_shows (r : nat) (w : world) (this : reactor) (f g : jsfun) (n : nat) :
  reactors w !! r = Some this ->
  wired this f g n ->
  truthy (apply_jsfun f (view_of this w)) = true ->
  result (render r) w = Return tt /\
  dom_writes (br (exec (render r) w))
    = dom_writes (br w)
      ++ (if truthy (force_update this)
             || strict_neq (apply_jsfun g (view_of this w)) (old_node_html this)
          then [(n, apply_jsfun g (view_of this w))] else []) /\
  exists this',
    reactors (exec (render r) w) !! r = Some this' /\
    old_node_html this' = apply_jsfun g (view_of this w) /\
    truthy (force_update this') = false /\
    fixed_fields this' = fixed_fields this.
Proof.
  intros E Hw Ht. unfold result, exec. rewrite (render_case _ _ _ _ _ _ E Hw Ht). cbv zeta.
  destruct (truthy (force_update this)) eqn:Hfu; cbn [orb].
  2: destruct (strict_neq _ _) eqn:Hne.
  1,2: split; [done|]; split; [done|];
       exists (set_force_update (VBool false)
                 (set_old_node_html (apply_jsfun g (view_of this w)) this));
       split; [|done];
       unfold exec, bind, clearTimeout, record_call, set_innerHTML, update_this, modify;
       cbn [snd reactors with_reactors with_br];
       rewrite !list_lookup_alter_eq, E; reflexivity.
  split; [done|]. split; [by rewrite app_nil_r|]. exists this.
  split; [done|]. split; [|done].
  unfold strict_neq in Hne. apply negb_false_iff in Hne.
  unfold strict_eq in Hne.
  destruct (apply_jsfun g (view_of this w)) as [| | |[]| | | | | |] eqn:Ea; try done;
    apply bool_decide_eq_true in Hne; by rewrite <- Hne.
Qed.

Lemma render_shows_witness :
  dom_writes (br (exec (render 0) sample_page)) = dom_writes (br sample_page) /\
  dom_writes (br (exec (render 0)
                    (exec (update_this 0 (set_force_update (VBool true))) sample_page)))
    = dom_writes (br sample_page) ++ [(7%nat, VStr "hello")].
Proof.
  split.
  - destruct (render_shows 0 sample_page
                (Reactor_ HNull (Some "#app") (Some 7%nat)
                   (Some (default_options (VRef 0%nat))) (Some (FHtml (fun _ => "hello")))
                   (Some (Container [] ProtoObject)) (VStr "hello") (VBool false))
                prototype_should_render (FHtml (fun _ => "hello")) 7) as (_ & H & _).
    + reflexivity.
    + eexists _, _. repeat split; reflexivity.
    + reflexivity.
    + rewrite H. reflexivity.
  - destruct (render_shows 0
                (exec (update_this 0 (set_force_update (VBool true))) sample_page)
                (Reactor_ HNull (Some "#app") (Some 7%nat)
                   (Some (default_options (VRef 0%nat))) (Some (FHtml (fun _ => "hello")))
                   (Some (Container [] ProtoObject)) (VStr "hello") (VBool true))
                prototype_should_render (FHtml (fun _ => "hello")) 7) as (_ & H & _).
    + reflexivity.
    + eexists _, _. repeat split; reflexivity.
    + reflexivity.
    + rewrite H. reflexivity.
Defined.

(** Property X13.  [render] of a Reactor whose [should_render] returns a
    falsy value: [should_render] is the only function called, nothing is
    written to the DOM and no Reactor changes. *)
Theorem render_skipped (r : nat) (w : world) (this : reactor) (f g : jsfun) (n : nat) :
  reactors w !! r = Some this ->
  wired this f g n ->
  truthy (apply_jsfun f (view_of this w)) = false ->
  result (render r) w = Return tt /\
  dom_writes (br (exec (render r) w)) = dom_writes (br w) /\
  calls (br (exec (render r) w)) = calls (br w) ++ ["should_render"] /\
  reactors (exec (render r) w) = reactors w.
Proof.
  intros E (opts & h & Ho & Hf & Hh & Hg & Hn) Ht.
  unfold result, exec. rewrite render_eq, E. cbv zeta. rewrite Ho, Hf.
  change (view_of this (exec (clearTimeout (_render_timeout this)) w)) with (view_of this w).
  rewrite Ht. done.
Qed.

Lemma render_skipped_witness :
  dom_writes (br (exec (render 0) sample_hidden)) = [] /\
  calls (br (exec (render 0) sample_hidden)) = ["should_render"; "should_render"].
Proof.
  destruct (render_skipped 0 sample_hidden
              (Reactor_ HNull (Some "#app") (Some 7%nat)
                 (Some (assign (default_options (VRef 0%nat))
                          [("should_render", AFun (FPred (fun _ => false)))]))
                 (Some (FHtml (fun _ => "hello")))
                 (Some (Container [] ProtoObject)) VUndefined VUndefined)
              (FPred (fun _ => false)) (FHtml (fun _ => "hello")) 7) as (_ & H1 & H2 & _).
  - reflexivity.
  - eexists _, _. repeat split; reflexivity.
  - reflexivity.
  - rewrite H1, H2. split; reflexivity.
Defined.

(** Property X14.  What [render] never touches, whatever it does and
    whether it returns or throws: the heap, the global state, the
    scheduler's fields, the listeners, the events, the clock and the timer
    counter; of the timers only the Reactor's own pending render timer goes;
    and no Reactor's options, node, callback, local state or timer handle
    changes. *)
Theorem render_leaves_state (r : nat) (w : world) :
  mem (exec (render r) w) = mem w /\
  cloned_initial_state (exec (render r) w) = cloned_initial_state w /\
  stator (exec (render r) w) = stator w /\
  listeners (br (exec (render r) w)) = listeners (br w) /\
  events (br (exec (render r) w)) = events (br w) /\
  now (br (exec (render r) w)) = now (br w) /\
  next_timer (br (exec (render r) w)) = next_timer (br w) /\
  timers (br (exec (render r) w))
    = match reactors w !! r with
      | Some this => cancel (_render_timeout this) (timers (br w))
      | None => timers (br w)
      end /\
  map fixed_fields (reactors (exec (render r) w)) = map fixed_fields (reactors w).
Proof. apply render_frame. Qed.

(** ** Dispatching the event *)

(** The listeners run: a wired Reactor among them, or one that shows the
    html already, shows the html of the state afterwards. *)
Lemma run_listeners_refresh ls : forall w r this f g n,
  reactors w !! r = Some this ->
  wired this f g n ->
  truthy (apply_jsfun f (view_of this w)) = true ->
  LRender r ∈ ls \/ shows this (apply_jsfun g (view_of this w)) ->
  mem (exec (run_listeners ls) w) = mem w /\
  cloned_initial_state (exec (run_listeners ls) w) = cloned_initial_state w /\
  (exists more, dom_writes (br (exec (run_listeners ls) w)) = dom_writes (br w) ++ more) /\
  (exists this',
     reactors (exec (run_listeners ls) w) !! r = Some this' /\
     shows this' (apply_jsfun g (view_of this w)) /\
     fixed_fields this' = fixed_fields this) /\
  (LRender r ∈ ls ->
   truthy (force_update this)
     || strict_neq (apply_jsfun g (view_of this w)) (old_node_html this) = true ->
   (n, apply_jsfun g (view_of this w)) ∈ dom_writes (br (exec (run_listeners ls) w))).
Proof.
  induction ls as [|l ls IH]; intros w r this f g n E Hw Ht Hor.
  - destruct Hor as [Hin|Hs]; [by apply elem_of_nil in Hin|].
    split; [done|]. split; [done|]. split; [exists []; by rewrite app_nil_r|].
    split; [by exists this|]. by intros Hin%elem_of_nil.
  - assert (Hstep : exec (run_listeners (l :: ls)) w
                    = exec (run_listeners ls) (exec (run_listener l) w)).
    { unfold exec. simpl. unfold bind. destruct l as [r'|x]; simpl; [|done].
      unfold reported. done. }
    rewrite Hstep. set (w1 := exec (run_listener l) w).
    assert (Hfr : mem w1 = mem w /\ cloned_initial_state w1 = cloned_initial_state w /\
                  exists more, dom_writes (br w1) = dom_writes (br w) ++ more).
    { destruct l as [r'|x]; subst w1; simpl.
      - pose proof (render_frame r' w) as (H1 & H2 & _).
        destruct (render_others r' w) as [_ H3]. done.
      - split; [done|]. split; [done|]. exists []. by rewrite app_nil_r. }
    destruct Hfr as (Hm1 & Hc1 & [more1 Hd1]).
    assert (Hcase : (reactors w1 !! r = Some this /\ (LRender r ∈ ls \/ shows this (apply_jsfun g (view_of this w))))
                    \/ (l = LRender r /\
                        exists this1, reactors w1 !! r = Some this1 /\
                          shows this1 (apply_jsfun g (view_of this w)) /\
                          fixed_fields this1 = fixed_fields this /\
                          (truthy (force_update this)
                           || strict_neq (apply_jsfun g (view_of this w)) (old_node_html this) = true ->
                           (n, apply_jsfun g (view_of this w)) ∈ dom_writes (br w1)))).
    { destruct l as [r'|x].
      - destruct (decide (r' = r)) as [->|Hne].
        + right. split; [done|]. subst w1. cbn [run_listener].
          change (exec (reported (render r)) w) with (exec (render r) w).
          destruct (render_wired _ _ _ _ _ _ E Hw Ht) as (_ & Hrs & Hdom & _).
          cbv zeta in Hrs, Hdom. rewrite Hrs, Hdom.
          destruct (_ || _) eqn:Hch.
          * eexists. split; [by rewrite list_lookup_alter_eq, E|].
            split; [done|]. split; [done|]. intros _. apply elem_of_app. right.
            by apply list_elem_of_singleton.
          * exists this. split; [done|]. apply orb_false_iff in Hch as [Hfu Hneq].
            apply strict_neq_false in Hneq. split; [done|]. split; [done|]. done.
        + left. subst w1. cbn [run_listener].
          change (exec (reported (render r')) w) with (exec (render r') w).
          destruct (render_others r' w) as [Ho _]. rewrite (Ho r) by done.
          split; [done|]. destruct Hor as [Hin|Hs]; [left | by right].
          apply elem_of_cons in Hin as [[= ->]|Hin]; done.
      - left. split; [done|]. destruct Hor as [Hin|Hs]; [left | by right].
        apply elem_of_cons in Hin as [?|Hin]; done. }
    destruct Hcase as [[E1 Hor1]|(-> & this1 & E1 & Hs1 & Hff & Hdom1)].
    + assert (Hv : view_of this w1 = view_of this w) by (unfold view_of; congruence).
      destruct (IH w1 r this f g n E1 Hw) as (H1 & H2 & [more H3] & H4 & H5);
        [by rewrite Hv | by rewrite Hv |].
      rewrite Hv in *. split; [congruence|]. split; [congruence|].
      split; [exists (more1 ++ more); by rewrite H3, Hd1, app_assoc|].
      split; [done|]. intros Hin Hch.
      destruct Hor1 as [Hin1|[Hs1 Hs2]]; [by apply H5|].
      exfalso. rewrite Hs2, Hs1 in Hch. cbn in Hch.
      destruct (apply_jsfun g (view_of this w)) as [| | |[]| | | | | |] eqn:Ea;
        unfold strict_neq, strict_eq in Hch; try (by rewrite bool_decide_eq_true_2 in Hch).
      (* NaN: the render callback returns a string or a boolean *)
      destruct g; discriminate.
    + assert (Hw1 : wired this1 f g n).
      { unfold fixed_fields in Hff. injection Hff as ? ? ? ? ? ?.
        by apply (wired_same this). }
      assert (Hv : view_of this1 w1 = view_of this w).
      { unfold fixed_fields in Hff. injection Hff as ? ? ? ? ? Hd. unfold view_of.
        congruence. }
      destruct (IH w1 r this1 f g n E1 Hw1) as (H1 & H2 & [more H3] & H4 & H5);
        [by rewrite Hv | right; by rewrite Hv |].
      rewrite Hv in *. split; [congruence|]. split; [congruence|].
      split; [exists (more1 ++ more); by rewrite H3, Hd1, app_assoc|].
      split.
      * destruct H4 as (this' & ? & ? & ?). exists this'. split; [done|]. split; [done|].
        congruence.
      * intros _ Hch. rewrite H3. apply elem_of_app. left. by apply Hdom1.
Qed.


(** Property X16.  When the event is dispatched, a wired Reactor that
    listens to the global state and whose [should_render] agrees is
    rendered: afterwards its cache holds the html of its render callback
    for the current state, [force_update] is unset and, if that html was a
    change, it has been assigned to the Reactor's node.  Its local state is
    as before. *)
Theorem dispatch_refreshes (w : world) (r : nat) (this : reactor) (f g : jsfun) (n : nat) :
  LRender r ∈ listeners (br w) ->
  reactors w !! r = Some this ->
  wired this f g n ->
  truthy (apply_jsfun f (view_of this w)) = true ->
  (exists this',
     reactors (exec _dispatch_event w) !! r = Some this' /\
     old_node_html this' = apply_jsfun g (view_of this w) /\
     truthy (force_update this') = false /\
     _data this' = _data this) /\
  (truthy (force_update this)
     || strict_neq (apply_jsfun g (view_of this w)) (old_node_html this) = true ->
   (n, apply_jsfun g (view_of this w)) ∈ dom_writes (br (exec _dispatch_event w))) /\
  mem (exec _dispatch_event w) = mem w /\
  cloned_initial_state (exec _dispatch_event w) = cloned_initial_state w.
Proof.
  intros Hin E Hw Ht. unfold exec at 1 2 3 4. rewrite _dispatch_event_eq. cbn [snd].
  set (w0 := exec record_event w).
  assert (Hv : view_of this w0 = view_of this w) by done.
  destruct (run_listeners_refresh (listeners (br w)) w0 r this f g n)
    as (H1 & H2 & _ & (this' & E' & [Hs1 Hs2] & Hff) & H5);
    [done | done | by rewrite Hv | by left |].
  rewrite Hv in *.
  set (w2 := exec (run_listeners (listeners (br w))) w0) in *.
  assert (Htail : reactors (exec (_clear_debounce_timeout ;; set__suppressed_event_count 0) w2)
                  = reactors w2 /\
                  dom_writes (br (exec (_clear_debounce_timeout ;; set__suppressed_event_count 0) w2))
                  = dom_writes (br w2) /\
                  mem (exec (_clear_debounce_timeout ;; set__suppressed_event_count 0) w2) = mem w2 /\
                  cloned_initial_state (exec (_clear_debounce_timeout ;; set__suppressed_event_count 0) w2)
                  = cloned_initial_state w2) by done.
  destruct Htail as (-> & -> & -> & ->).
  split.
  - exists this'. split; [done|]. split; [done|]. split; [done|].
    unfold fixed_fields in Hff. by injection Hff.
  - split; [by apply H5|]. by split.
Qed.

Lemma dispatch_refreshes_witness :
  (7%nat, VStr "1")
    ∈ dom_writes (br (exec _dispatch_event
                        (exec (state_set "count" (VNum (Fin 1))) sample_app))).
Proof.
  destruct (dispatch_refreshes (exec (state_set "count" (VNum (Fin 1))) sample_app) 0
              (Reactor_ HNull (Some "#app") (Some 7%nat)
                 (Some (default_options (VRef 2%nat))) (Some (FHtml global_count))
                 (Some (Container [] ProtoObject)) (VStr "0") (VBool false))
              prototype_should_render (FHtml global_count) 7) as (_ & H & _).
  - apply list_elem_of_singleton. reflexivity.
  - reflexivity.
  - eexists _, _. repeat split; reflexivity.
  - reflexivity.
  - apply H. reflexivity.
Defined.

Lemma run_listeners_others ls r w :
  LRender r ∉ ls -> reactors (exec (run_listeners ls) w) !! r = reactors w !! r.
Proof.
  revert w. induction ls as [|l ls IH]; intros w Hn; [done|].
  assert (Hstep : exec (run_listeners (l :: ls)) w
                  = exec (run_listeners ls) (exec (run_listener l) w)).
  { unfold exec. simpl. unfold bind. destruct l as [r'|x]; simpl; [|done].
    unfold reported. done. }
  rewrite Hstep, IH by (intros ?; apply Hn; by right).
  destruct l as [r'|x]; [|done]. cbn [run_listener].
  change (exec (reported (render r')) w) with (exec (render r') w).
  destruct (render_others r' w) as [Ho _]. apply Ho.
  intros ->. apply Hn. by left.
Qed.

(** Property X17.  A Reactor whose [render] is not registered as a listener
    (it was constructed with [listen_to_global_state] falsy) is left as it
    is when the event is dispatched. *)
Theorem dispatch_skips_others (w : world) (r : nat) :
  LRender r ∉ listeners (br w) ->
  reactors (exec _dispatch_event w) !! r = reactors w !! r.
Proof.
  intros Hn. unfold exec. rewrite _dispatch_event_eq. cbn [snd].
  change (reactors (exec (_clear_debounce_timeout;; set__suppressed_event_count 0) ?x))
    with (reactors x).
  by rewrite run_listeners_others.
Qed.

Lemma dispatch_skips_others_witness :
  reactors (exec _dispatch_event sample_deaf) !! 0%nat = reactors sample_deaf !! 0%nat.
Proof.
  apply (dispatch_skips_others sample_deaf 0). intros H. vm_compute in H.
  by apply elem_of_nil in H.
Defined.

(** ** The constructor *)

(** Property X18.  When the selector does not match exactly one node, the
    constructor throws "Reactor: querySelector ... matched n nodes.
    Expected 1." with the number of matches; all it has done by then is to
    set [_render_timeout] of the new object to [null]. *)
Theorem Reactor_needs_one_node (w : world) (element : string)
    (options : list (string * arg)) (html_callback : arg) :
  length (document w element) <> 1%nat ->
  Reactor element options html_callback w
  = (Throw (selector_error element (length (document w element))),
     with_reactors
       (reactors w ++ [Reactor_ HNull None None None None None VUndefined VUndefined]) w).
Proof.
  intros Hn. unfold Reactor. unfold bind at 1, new_object at 1. cbv beta iota.
  unfold bind at 1, update_this at 1, modify at 1. cbv beta iota.
  unfold bind at 1, gets at 1. cbv beta iota. cbn [document with_reactors].
  apply Nat.eqb_neq in Hn. rewrite Hn. cbn [negb]. unfold throw, selector_error.
  f_equal. unfold with_reactors. cbn [reactors mem document br stator cloned_initial_state].
  f_equal. rewrite <- (Nat.add_0_r (length (reactors w))), alter_app_r. reflexivity.
Qed.

Lemma Reactor_needs_one_node_witness :
  result (Reactor "#menu" [] (AFun (FHtml (fun _ => "hello")))) (initial_world sample_document)
    = Throw (selector_error "#menu" 0).
Proof.
  unfold result.
  rewrite (Reactor_needs_one_node (initial_world sample_document) "#menu" []
             (AFun (FHtml (fun _ => "hello")))).
  - reflexivity.
  - vm_compute. discriminate.
Defined.

(** The constructor up to the check of the render callback. *)
Lemma Reactor_valid_options (w : world) (element : string)
    (options : list (string * arg)) (html_callback : arg) (n : nat) :
  document w element = [n] ->
  filter (fun o => o ∉ option_keys) (map fst options) = [] ->
  Reactor element options html_callback w =
    let r := length (reactors w) in
    let opts := assign (default_options (VRef (length (mem w)))) options in
    let w1 :=
      World (mem w ++ [OPlain []]) (document w) (br w) (stator w) (cloned_initial_state w)
            (reactors w ++ [Reactor_ HNull (Some element) (Some n) (Some opts) None None
                                     VUndefined VUndefined]) in
    match html_callback with
    | AVal _ =>
        (Throw (Thrown "Reactor did not receive a render callback function. This argument should be a function that returns html to populate the DOM element."), w1)
    | AFun f =>
        (update_this r (set__html_callback f) ;;
         when (truthy_arg (get_arg "listen_to_global_state" opts))
           (add_listener (One (LRender r))) ;;
         let* data :=
           match get_arg "state" opts with
           | Some (AVal v) =>
               if truthy v then clone v
               else let* empty := alloc (OPlain []) in clone empty
           | _ => throw SyntaxError
           end in
         let* c := proxy_target data in
         update_this r (set__data c) ;;
         render r ;;
         ret r) w1
    end.
Proof.
  intros Hdoc Hinv. cbv zeta.
  unfold Reactor. unfold bind at 1, new_object at 1. cbv beta iota.
  unfold bind at 1, update_this at 1, modify at 1. cbv beta iota.
  unfold bind at 1, gets at 1. cbv beta iota.
  cbn [document with_reactors]. rewrite Hdoc.
  change (negb (length [n] =? 1)%nat) with false. cbv iota.
  unfold bind at 1, update_this at 1, modify at 1. cbv beta iota.
  unfold bind at 1, alloc at 1. cbv beta iota zeta.
  change (map fst (_ :: _)) with option_keys. rewrite Hinv.
  change (0 <? length (@nil string))%nat with false. cbv iota.
  unfold bind at 1, update_this at 1, modify at 1. cbv beta iota.
  cbn [mem with_mem with_reactors reactors document br stator cloned_initial_state].
  fold (default_options (VRef (length (mem w)))).
  rewrite <- (Nat.add_0_r (length (reactors w))) at 1 2 3.
  rewrite !alter_app_r. cbn [alter list_alter].
  unfold with_mem, with_reactors.
  cbn [mem with_mem with_reactors reactors document br stator cloned_initial_state].
  by destruct html_callback.
Qed.

(** Property X19.  With one matching node and valid options, a render
    callback that is no function makes the constructor throw; by then the
    new object has its node and its options, but nothing is registered,
    rendered or scheduled: the browser is as before. *)
Theorem Reactor_needs_callback (w : world) (el : string)
    (options : list (string * arg)) (x : value) (n : nat) :
  document w el = [n] ->
  filter (fun o => o ∉ option_keys) (map fst options) = [] ->
  typeof x <> "function" ->
  result (Reactor el options (AVal x)) w = Throw callback_error /\
  br (exec (Reactor el options (AVal x)) w) = br w /\
  stator (exec (Reactor el options (AVal x)) w) = stator w /\
  cloned_initial_state (exec (Reactor el options (AVal x)) w) = cloned_initial_state w /\
  reactors (exec (Reactor el options (AVal x)) w)
    = reactors w
      ++ [Reactor_ HNull (Some el) (Some n)
            (Some (assign (default_options (VRef (length (mem w)))) options))
            None None VUndefined VUndefined].
Proof.
  intros Hdoc Hinv _. unfold result, exec.
  rewrite (Reactor_valid_options _ _ _ _ _ Hdoc Hinv). done.
Qed.

Lemma Reactor_needs_callback_witness :
  result (Reactor "#app" [] (AVal (VStr "hello"))) (initial_world sample_document)
    = Throw callback_error /\
  br (exec (Reactor "#app" [] (AVal (VStr "hello"))) (initial_world sample_document))
    = br (initial_world sample_document).
Proof.
  destruct (Reactor_needs_callback (initial_world sample_document) "#app" [] (VStr "hello") 7)
    as (H1 & H2 & _).
  - reflexivity.
  - reflexivity.
  - vm_compute. discriminate.
  - split; [exact H1 | exact H2].
Defined.

Lemma update_this_last f h d b s c rs x :
  update_this (length rs) f (World h d b s c (rs ++ [x]))
  = (Return tt, World h d b s c (rs ++ [f x])).
Proof. unfold update_this, modify, with_reactors. cbn. by rewrite alter_last. Qed.

Lemma clone_world v v' h h' d b s c rs :
  _clone_obj h v = Return (v', h') ->
  clone v (World h d b s c rs) = (Return v', World h' d b s c rs).
Proof. intros H. unfold clone. cbn. by rewrite H. Qed.

Lemma proxy_target_world l ps h d b s c rs :
  h !! l = Some (OPlain ps) ->
  proxy_target (VRef l) (World h d b s c rs)
  = (Return (Container ps ProtoObject), World h d b s c rs).
Proof. intros H. unfold proxy_target. cbn. by rewrite H. Qed.

Lemma listen_world (listen : bool) f h d b s c rs :
  exists b2,
    when listen (add_listener (One f)) (World h d b s c rs)
    = (Return tt, World h d b2 s c rs) /\
    (listen = true -> f ∈ listeners b2) /\
    (listen = false -> listeners b2 = listeners b) /\
    timers b2 = timers b /\ events b2 = events b /\ dom_writes b2 = dom_writes b.
Proof.
  destruct listen; simpl.
  - unfold addEventListener, modify. cbn. case_bool_decide as Hin.
    + exists b. by repeat split.
    + eexists. split; [reflexivity|]. cbn. repeat split; try done.
      intros _. apply elem_of_app. right. by apply list_elem_of_singleton.
  - exists b. by repeat split.
Qed.

(** The constructor, when every check passes. *)
Lemma Reactor_success (w : world) (el : string)
    (options : list (string * arg)) (g f h : jsfun) (n : nat)
    (sv : value) (l' : loc) (h' : heap) (ps : list (string * value)) :
  document w el = [n] ->
  filter (fun o => o ∉ option_keys) (map fst options) = [] ->
  get_arg "should_render" (assign (default_options (VRef (length (mem w)))) options)
    = Some (AFun f) ->
  get_arg "updated_html" (assign (default_options (VRef (length (mem w)))) options)
    = Some (AFun h) ->
  get_arg "state" (assign (default_options (VRef (length (mem w)))) options)
    = Some (AVal sv) ->
  truthy sv = true ->
  _clone_obj (mem w ++ [OPlain []]) sv = Return (VRef l', h') ->
  h' !! l' = Some (OPlain ps) ->
  truthy (apply_jsfun f (View h' (cloned_initial_state w) (Some (Container ps ProtoObject))))
    = true ->
  let r := length (reactors w) in
  let opts := assign (default_options (VRef (length (mem w)))) options in
  let html :=
    apply_jsfun g (View h' (cloned_initial_state w) (Some (Container ps ProtoObject))) in
  let w' := exec (Reactor el options (AFun g)) w in
  result (Reactor el options (AFun g)) w = Return r /\
  reactors w'
    = reactors w
      ++ [Reactor_ HNull (Some el) (Some n) (Some opts) (Some g)
            (Some (Container ps ProtoObject)) html
            (if strict_neq html VUndefined then VBool false else VUndefined)] /\
  dom_writes (br w')
    = dom_writes (br w) ++ (if strict_neq html VUndefined then [(n, html)] else []) /\
  (truthy_arg (get_arg "listen_to_global_state" opts) = true ->
   LRender r ∈ listeners (br w')) /\
  (truthy_arg (get_arg "listen_to_global_state" opts) = false ->
   listeners (br w') = listeners (br w)) /\
  timers (br w') = timers (br w) /\
  events (br w') = events (br w) /\
  stator w' = stator w /\
  cloned_initial_state w' = cloned_initial_state w.
Proof.
  intros Hdoc Hinv Hf Hh Hs Hsv Hcl Hl' Ht. cbv zeta.
  set (opts := assign (default_options (VRef (length (mem w)))) options) in *.
  set (c := Container ps ProtoObject) in *.
  set (html := apply_jsfun g (View h' (cloned_initial_state w) (Some c))).
  set (this := Reactor_ HNull (Some el) (Some n) (Some opts) (Some g) (Some c)
                 VUndefined VUndefined).
  destruct (listen_world (truthy_arg (get_arg "listen_to_global_state" opts))
              (LRender (length (reactors w))) (mem w ++ [OPlain []]) (document w) (br w)
              (stator w) (cloned_initial_state w)
              (reactors w ++ [Reactor_ HNull (Some el) (Some n) (Some opts) (Some g) None
                                VUndefined VUndefined]))
    as (b2 & Hlis & Hl1 & Hl2 & Hti & Hev & Hdw).
  set (w5 := World h' (document w) b2 (stator w) (cloned_initial_state w) (reactors w ++ [this])).
  assert (Heq : Reactor el options (AFun g) w
                = (Return (length (reactors w)), exec (render (length (reactors w))) w5)).
  { rewrite (Reactor_valid_options _ _ _ _ _ Hdoc Hinv). cbv zeta. fold opts.
    erewrite bind_return; [|apply update_this_last].
    erewrite bind_return; [|exact Hlis].
    rewrite Hs, Hsv.
    erewrite bind_return; [|by apply clone_world].
    erewrite bind_return; [|by apply proxy_target_world].
    erewrite bind_return; [|apply update_this_last].
    fold c. change (set__data c _) with this. fold w5.
    assert (E5 : reactors w5 !! length (reactors w) = Some this)
      by (unfold w5; cbn [reactors]; by rewrite list_lookup_middle).
    assert (Hw5 : wired this f g n) by (exists opts, h; done).
    destruct (render_wired _ _ _ _ _ _ E5 Hw5 Ht) as (Hres & _).
    unfold bind, result, exec in *.
    destruct (render (length (reactors w)) w5) as [[[]|e] w6]; [done | done]. }
  unfold result, exec at 1 2 3 4 5 6 7 8. rewrite Heq. cbn [fst snd].
  assert (E5 : reactors w5 !! length (reactors w) = Some this)
    by (unfold w5; cbn [reactors]; by rewrite list_lookup_middle).
  assert (Hw5 : wired this f g n) by (exists opts, h; done).
  destruct (render_wired _ _ _ _ _ _ E5 Hw5 Ht) as (_ & Hrs & Hdom & _).
  cbv zeta in Hrs, Hdom.
  change (apply_jsfun g (view_of this w5)) with html in Hrs, Hdom.
  change (truthy (force_update this) || strict_neq html (old_node_html this))
    with (strict_neq html VUndefined) in Hrs, Hdom.
  pose proof (render_frame (length (reactors w)) w5)
    as (_ & Hcis & Hst & Hlis' & Hev' & _ & _ & Htim & _).
  rewrite E5 in Htim. cbn [this _render_timeout cancel] in Htim.
  rewrite Hrs, Hdom, Hst, Hcis, Hlis', Hev', Htim. cbn [w5 br reactors stator cloned_initial_state].
  rewrite Hdw, Hti, Hev.
  split; [done|]. split.
  { destruct (strict_neq html VUndefined) eqn:Hne; [by rewrite alter_last|].
    destruct (decide (html = VUndefined)) as [->|Hd]; [done|].
    by rewrite (strict_neq_undefined _ Hd) in Hne. }
  done.
Qed.

(** Property X20.  With one matching node, valid options, a render callback
    that is a function, hooks that are functions and a [state] option that
    [_clone_obj] copies to a plain object, the constructor returns the new
    Reactor, which holds the copy as its local state, and has rendered it at
    once: if [should_render] agrees, the html of the callback is in the
    cache and, unless it is [undefined], has been assigned to the node.  The
    Reactor's [render] is registered as a listener exactly when
    [listen_to_global_state] is truthy.  No timer is set, no event is
    dispatched and the global state is untouched. *)
Theorem Reactor_renders_at_once (w : world) (el : string)
    (options : list (string * arg)) (g f h : jsfun) (n : nat)
    (sv : value) (l' : loc) (h' : heap) (ps : list (string * value)) :
  document w el = [n] ->
  filter (fun o => o ∉ option_keys) (map fst options) = [] ->
  get_arg "should_render" (assign (default_options (VRef (length (mem w)))) options)
    = Some (AFun f) ->
  get_arg "updated_html" (assign (default_options (VRef (length (mem w)))) options)
    = Some (AFun h) ->
  get_arg "state" (assign (default_options (VRef (length (mem w)))) options)
    = Some (AVal sv) ->
  truthy sv = true ->
  _clone_obj (mem w ++ [OPlain []]) sv = Return (VRef l', h') ->
  h' !! l' = Some (OPlain ps) ->
  truthy (apply_jsfun f (View h' (cloned_initial_state w) (Some (Container ps ProtoObject))))
    = true ->
  let r := length (reactors w) in
  let opts := assign (default_options (VRef (length (mem w)))) options in
  let html :=
    apply_jsfun g (View h' (cloned_initial_state w) (Some (Container ps ProtoObject))) in
  let w' := exec (Reactor el options (AFun g)) w in
  result (Reactor el options (AFun g)) w = Return r /\
  reactors w'
    = reactors w
      ++ [Reactor_ HNull (Some el) (Some n) (Some opts) (Some g)
            (Some (Container ps ProtoObject)) html
            (if strict_neq html VUndefined then VBool false else VUndefined)] /\
  dom_writes (br w')
    = dom_writes (br w) ++ (if strict_neq html VUndefined then [(n, html)] else []) /\
  (truthy_arg (get_arg "listen_to_global_state" opts) = true ->
   LRender r ∈ listeners (br w')) /\
  (truthy_arg (get_arg "listen_to_global_state" opts) = false ->
   listeners (br w') = listeners (br w)) /\
  timers (br w') = timers (br w) /\
  events (br w') = events (br w) /\
  stator w' = stator w /\
  cloned_initial_state w' = cloned_initial_state w.
Proof. apply Reactor_success. Qed.

Lemma Reactor_renders_at_once_witness :
  dom_writes
    (br (exec (Reactor "#app" [("state", AVal (VRef 0%nat))] (AFun (FHtml local_count)))
              (exec (alloc (OPlain [("count", VNum (Fin 0))]))
                    (initial_world sample_document))))
    = [(7%nat, VStr "0")].
Proof.
  destruct (Reactor_renders_at_once
              (exec (alloc (OPlain [("count", VNum (Fin 0))])) (initial_world sample_document))
              "#app" [("state", AVal (VRef 0%nat))] (FHtml local_count)
              prototype_should_render prototype_updated_html 7 (VRef 0%nat) 2%nat
              [OPlain [("count", VNum (Fin 0))]; OPlain []; OPlain [("count", VNum (Fin 0))]]
              [("count", VNum (Fin 0))])
    as (_ & _ & H3 & _); [reflexivity..|].
  rewrite H3. reflexivity.
Defined.

Lemma clone_empty_object (h : heap) :
  _clone_obj (h ++ [OPlain []]) (VRef (length h))
  = Return (VRef (S (length h)), (h ++ [OPlain []]) ++ [OPlain []]).
Proof.
  unfold _clone_obj, JSON_stringify. rewrite bool_decide_eq_false_2 by done.
  cbn [ser]. rewrite bool_decide_eq_false_2 by (by intros ?%elem_of_nil).
  rewrite list_lookup_middle by done. cbn.
  by rewrite length_app, Nat.add_1_r.
Qed.

(** Property X21.  [new Reactor(el, {}, g)] with one matching node: the
    defaults apply.  The constructor returns the new Reactor with an empty
    local state, a copy of the empty object of the defaults; the default
    [should_render] agrees, so the html of [g] is in the cache and, unless
    it is [undefined], has been assigned to the node; and the Reactor's
    [render] is registered as a listener of the global state. *)
Theorem Reactor_defaults (w : world) (el : string) (g : jsfun) (n : nat) :
  document w el = [n] ->
  let r := length (reactors w) in
  let html :=
    apply_jsfun g (View ((mem w ++ [OPlain []]) ++ [OPlain []]) (cloned_initial_state w)
                        (Some (Container [] ProtoObject))) in
  let w' := exec (Reactor el [] (AFun g)) w in
  result (Reactor el [] (AFun g)) w = Return r /\
  reactors w'
    = reactors w
      ++ [Reactor_ HNull (Some el) (Some n)
            (Some (default_options (VRef (length (mem w))))) (Some g)
            (Some (Container [] ProtoObject)) html
            (if strict_neq html VUndefined then VBool false else VUndefined)] /\
  dom_writes (br w')
    = dom_writes (br w) ++ (if strict_neq html VUndefined then [(n, html)] else []) /\
  LRender r ∈ listeners (br w') /\
  timers (br w') = timers (br w) /\
  events (br w') = events (br w).
Proof.
  intros Hdoc. cbv zeta.
  destruct (Reactor_success w el [] g prototype_should_render prototype_updated_html n
              (VRef (length (mem w))) (S (length (mem w)))
              ((mem w ++ [OPlain []]) ++ [OPlain []]) [])
    as (H1 & H2 & H3 & H4 & _ & H6 & H7 & _);
    [done | done | done | done | done | done | apply clone_empty_object | | done |].
  - assert (S (length (mem w)) = length (mem w ++ [OPlain []])) as ->
      by (rewrite length_app; simpl; lia).
    by apply list_lookup_middle.
  - repeat split; try done. by apply H4.
Qed.

Lemma Reactor_defaults_witness :
  result (Reactor "#app" [] (AFun (FHtml (fun _ => "hello")))) (initial_world sample_document)
    = Return 0%nat /\
  dom_writes (br (exec (Reactor "#app" [] (AFun (FHtml (fun _ => "hello"))))
                       (initial_world sample_document)))
    = [(7%nat, VStr "hello")].
Proof.
  destruct (Reactor_defaults (initial_world sample_document) "#app"
              (FHtml (fun _ => "hello")) 7) as (H1 & _ & H3 & _).
  - reflexivity.
  - split; [exact H1 | rewrite H3; reflexivity].
Defined.

(** ** The local state of a Reactor *)

(** The local [set] trap, case by case. *)
Lemma local_set_eq (r : nat) (that : reactor) (target : container)
    (key : string) (v : value) (w : world) :
  reactors w !! r = Some that ->
  _data that = Some target ->
  local_set r key v w =
    let old := get_property (mem w) target key in
    if negb (has_property (mem w) target key) then (Throw (new_key_error key), w)
    else
      let w1 := exec (when (truthy_arg (r_options that ≫= get_arg "debug"))
                        (console_log
                           [VStr (default "undefined" (element that) +:+ ": " +:+ key);
                            old; VStr " -> "; v])) w in
      if strict_neq old VUndefined && negb (String.eqb (typeof old) (typeof v))
      then (Throw (type_error key (typeof old) (typeof v)), w1)
      else
        (Return VUndefined,
         exec (update_this r (set__data (set_property (mem w) target key v)) ;;
               clearTimeout (_render_timeout that) ;;
               let* id := setTimeout (CbRender r) 10 in
               update_this r (set__render_timeout id)) w1).
Proof.
  intros Hr Hd. unfold local_set, bind at 1, this_.
  rewrite Hr. cbv beta iota. rewrite Hd.
  unfold bind at 1, gets at 1. cbv beta iota zeta.
  destruct (has_property (mem w) target key); cbv beta iota delta [negb]; [|reflexivity].
  unfold exec, _check_type_match.
  destruct (truthy_arg _), (strict_neq _ VUndefined),
    (String.eqb (typeof (get_property (mem w) target key)) (typeof v));
    reflexivity.
Qed.

(** Property X22.  The two guards of the local [set] trap: a key that the
    local state neither has nor inherits is rejected with "cannot create new
    key after initialization" and the world is as before; a value whose type
    differs from the type of a defined stored value is rejected with the
    type error, and neither the Reactors nor the timers change. *)
Theorem local_set_rejects (r : nat) (that : reactor) (target : container)
    (key : string) (v : value) (w : world) :
  reactors w !! r = Some that ->
  _data that = Some target ->
  (has_property (mem w) target key = false ->
   local_set r key v w = (Throw (new_key_error key), w)) /\
  (get_property (mem w) target key <> VUndefined ->
   typeof (get_property (mem w) target key) <> typeof v ->
   result (local_set r key v) w
     = Throw (type_error key (typeof (get_property (mem w) target key)) (typeof v)) /\
   reactors (exec (local_set r key v) w) = reactors w /\
   timers (br (exec (local_set r key v) w)) = timers (br w)).
Proof.
  intros Hr Hd. unfold result, exec. rewrite (local_set_eq _ _ _ _ _ _ Hr Hd). cbv zeta.
  split.
  - intros ->. reflexivity.
  - intros Hdef Hty. rewrite (get_property_defined _ _ _ Hdef). change (negb true) with false. cbv iota.
    apply String.eqb_neq in Hty. rewrite (strict_neq_undefined _ Hdef), Hty. simpl.
    by destruct (truthy_arg _).
Qed.

Lemma local_set_rejects_witness :
  local_set 0 "total" (VNum (Fin 1)) sample_local
    = (Throw (new_key_error "total"), sample_local) /\
  result (local_set 0 "count" (VStr "one")) sample_local
    = Throw (type_error "count" "number" "string").
Proof.
  destruct (local_set_rejects 0
              (Reactor_ HNull (Some "#app") (Some 7%nat)
                 (Some (assign (default_options (VRef 1%nat)) [("state", AVal (VRef 0%nat))]))
                 (Some (FHtml local_count))
                 (Some (Container [("count", VNum (Fin 0))] ProtoObject))
                 (VStr "0") (VBool false))
              (Container [("count", VNum (Fin 0))] ProtoObject) "total" (VNum (Fin 1))
              sample_local) as [H1 _]; [reflexivity | reflexivity |].
  destruct (local_set_rejects 0
              (Reactor_ HNull (Some "#app") (Some 7%nat)
                 (Some (assign (default_options (VRef 1%nat)) [("state", AVal (VRef 0%nat))]))
                 (Some (FHtml local_count))
                 (Some (Container [("count", VNum (Fin 0))] ProtoObject))
                 (VStr "0") (VBool false))
              (Container [("count", VNum (Fin 0))] ProtoObject) "count" (VStr "one")
              sample_local) as [_ H2]; [reflexivity | reflexivity |].
  split.
  - apply H1. reflexivity.
  - apply H2; vm_compute; discriminate.
Defined.

(** Property X23.  Past the guards the local [set] trap stores the value it
    was given, as it is, cancels the pending render timer of the Reactor
    and sets a new one, due in 10 ms, whether the value differs from the
    stored one or not; it allocates nothing and returns [undefined]. *)
Theorem local_set_stores (r : nat) (that : reactor) (target : container)
    (key : string) (v : value) (w : world) :
  reactors w !! r = Some that ->
  _data that = Some target ->
  has_property (mem w) target key = true ->
  (get_property (mem w) target key = VUndefined \/
   typeof (get_property (mem w) target key) = typeof v) ->
  result (local_set r key v) w = Return VUndefined /\
  reactors (exec (local_set r key v) w) !! r
    = Some (set__render_timeout (HId (next_timer (br w)))
              (set__data (set_property (mem w) target key v) that)) /\
  timers (br (exec (local_set r key v) w))
    = cancel (_render_timeout that) (timers (br w))
      ++ [Timer (next_timer (br w)) (now (br w) + 10) (CbRender r)] /\
  mem (exec (local_set r key v) w) = mem w.
Proof.
  intros Hr Hd Hk Hty. unfold result, exec. rewrite (local_set_eq _ _ _ _ _ _ Hr Hd).
  cbv zeta. rewrite Hk. change (negb true) with false. cbv iota.
  assert (Hc : strict_neq (get_property (mem w) target key) VUndefined
               && negb (String.eqb (typeof (get_property (mem w) target key)) (typeof v))
               = false).
  { destruct Hty as [->|Hty]; [done|].
    apply String.eqb_eq in Hty. rewrite Hty. by rewrite andb_false_r. }
  rewrite Hc.
  destruct (truthy_arg _);
    unfold exec, when, console_log, bind, update_this, clearTimeout, setTimeout, modify, ret;
    simpl; rewrite !list_lookup_alter_eq, Hr; simpl; done.
Qed.

Lemma local_set_stores_witness :
  timers (br (exec (local_set 0 "count" (VNum (Fin 0))) sample_local))
    = [Timer 1 10 (CbRender 0)].
Proof.
  destruct (local_set_stores 0
              (Reactor_ HNull (Some "#app") (Some 7%nat)
                 (Some (assign (default_options (VRef 1%nat)) [("state", AVal (VRef 0%nat))]))
                 (Some (FHtml local_count))
                 (Some (Container [("count", VNum (Fin 0))] ProtoObject))
                 (VStr "0") (VBool false))
              (Container [("count", VNum (Fin 0))] ProtoObject) "count" (VNum (Fin 0))
              sample_local) as (_ & _ & H & _).
  - reflexivity.
  - reflexivity.
  - reflexivity.
  - right. reflexivity.
  - rewrite H. reflexivity.
Defined.

(** An accepted local write, step by step: the world afterwards. *)
Lemma local_set_accept (r : nat) (that : reactor) (target : container)
    (key : string) (v : value) (w : world) :
  reactors w !! r = Some that ->
  _data that = Some target ->
  has_property (mem w) target key = true ->
  (get_property (mem w) target key = VUndefined \/
   typeof (get_property (mem w) target key) = typeof v) ->
  exists b1,
    local_set r key v w
    = (Return VUndefined,
       World (mem w) (document w) b1 (stator w) (cloned_initial_state w)
         (alter (fun x => set__render_timeout (HId (next_timer (br w)))
                            (set__data (set_property (mem w) target key v) x))
                r (reactors w))) /\
    timers b1 = cancel (_render_timeout that) (timers (br w))
                ++ [Timer (next_timer (br w)) (now (br w) + 10) (CbRender r)] /\
    now b1 = now (br w) /\
    next_timer b1 = Pos.succ (next_timer (br w)) /\
    listeners b1 = listeners (br w) /\
    events b1 = events (br w) /\
    dom_writes b1 = dom_writes (br w) /\
    calls b1 = calls (br w).
Proof.
  intros Hr Hd Hk Hty. rewrite (local_set_eq _ _ _ _ _ _ Hr Hd). cbv zeta.
  rewrite Hk. change (negb true) with false. cbv iota.
  assert (Hc : strict_neq (get_property (mem w) target key) VUndefined
               && negb (String.eqb (typeof (get_property (mem w) target key)) (typeof v))
               = false).
  { destruct Hty as [->|Hty]; [done|].
    apply String.eqb_eq in Hty. rewrite Hty. by rewrite andb_false_r. }
  rewrite Hc.
  destruct (truthy_arg _);
    unfold exec, when, console_log, bind, update_this, clearTimeout, setTimeout, modify, ret;
    cbn [fst snd]; unfold with_reactors, with_br;
    cbn [mem document br stator cloned_initial_state reactors now timers next_timer
         listeners events console dom_writes calls];
    rewrite list_alter_alter_eq; eexists; (split; [reflexivity|]); done.
Qed.

Lemma own_key_slot h c key old v :
  get_own key (own c) = Some old ->
  has_property h c key = true /\ get_property h c key = old /\
  set_property h c key v = Container (set_own key v (own c)) (proto c).
Proof.
  intros H. unfold has_property, get_property, set_property, find_slot. rewrite H.
  by rewrite bool_decide_eq_true_2 by (by eexists).
Qed.

(** Property X24.  Round trip through the local state: after a write of [v]
    to an own key whose stored value is [undefined] or of the type of [v],
    reading the key returns [v] itself. *)
Theorem local_write_read (r : nat) (that : reactor) (target : container)
    (key : string) (v old : value) (w : world) :
  reactors w !! r = Some that ->
  _data that = Some target ->
  get_own key (own target) = Some old ->
  old = VUndefined \/ typeof old = typeof v ->
  result (local_set r key v) w = Return VUndefined /\
  result (local_get r key) (exec (local_set r key v) w) = Return v /\
  mem (exec (local_set r key v) w) = mem w.
Proof.
  intros Hr Hd Hown Hty.
  destruct (own_key_slot (mem w) target key old v Hown) as (Hk & Hg & Hs).
  destruct (local_set_accept r that target key v w Hr Hd Hk) as (b1 & Heq & _).
  { by rewrite Hg. }
  unfold result, exec. rewrite Heq. cbn [fst snd]. split; [done|]. split; [|done].
  unfold local_get, bind at 1, this_. cbn [reactors].
  rewrite list_lookup_alter_eq, Hr. cbn [fmap option_fmap option_map].
  unfold set__render_timeout, set__data. cbn [_data].
  unfold bind, gets. cbn [mem fst]. rewrite Hs.
  unfold has_property, get_property, find_slot. cbn [own].
  rewrite get_own_set_own. by rewrite bool_decide_eq_true_2 by (by eexists).
Qed.

Lemma local_write_read_witness :
  result (local_get 0 "count") (exec (local_set 0 "count" (VNum (Fin 1))) sample_local)
    = Return (VNum (Fin 1)).
Proof.
  destruct (local_write_read 0
              (Reactor_ HNull (Some "#app") (Some 7%nat)
                 (Some (assign (default_options (VRef 1%nat)) [("state", AVal (VRef 0%nat))]))
                 (Some (FHtml local_count))
                 (Some (Container [("count", VNum (Fin 0))] ProtoObject))
                 (VStr "0") (VBool false))
              (Container [("count", VNum (Fin 0))] ProtoObject) "count" (VNum (Fin 1))
              (VNum (Fin 0)) sample_local) as (_ & H & _).
  - reflexivity.
  - reflexivity.
  - reflexivity.
  - right. reflexivity.
  - exact H.
Defined.



(** Property X26.  A key that the local state of a Reactor neither has nor
    inherits: reading it and writing it throw, and the world is as before. *)
Theorem local_unknown_key_fails (r : nat) (that : reactor) (target : container)
    (key : string) (v : value) (w : world) :
  reactors w !! r = Some that ->
  _data that = Some target ->
  has_property (mem w) target key = false ->
  local_get r key w = (Throw (missing_key_error key), w) /\
  local_set r key v w = (Throw (new_key_error key), w).
Proof.
  intros Hr Hd Hk. split.
  - unfold local_get, bind at 1, this_. rewrite Hr. cbv beta iota. rewrite Hd.
    unfold bind, gets. cbn [fst]. by rewrite Hk.
  - rewrite (local_set_eq _ _ _ _ _ _ Hr Hd). cbv zeta. by rewrite Hk.
Qed.

Lemma local_unknown_key_fails_witness :
  local_get 0 "total" sample_local = (Throw (missing_key_error "total"), sample_local).
Proof.
  destruct (local_unknown_key_fails 0
              (Reactor_ HNull (Some "#app") (Some 7%nat)
                 (Some (assign (default_options (VRef 1%nat)) [("state", AVal (VRef 0%nat))]))
                 (Some (FHtml local_count))
                 (Some (Container [("count", VNum (Fin 0))] ProtoObject))
                 (VStr "0") (VBool false))
              (Container [("count", VNum (Fin 0))] ProtoObject) "total" VUndefined
              sample_local) as [H _]; [reflexivity..|].
  exact H.
Defined.

(** ** The scheduler's invariant *)

#[global] Instance settles_preorder : PreOrder settles.
Proof.
  split.
  - intros w. by repeat split.
  - intros a b c (H1 & H2 & H3 & H4) (H5 & H6 & H7 & H8).
    split; [congruence|]. split; [congruence|]. split; [by etrans|].
    intros id Hid. by apply H4, H8.
Qed.

Lemma settles_ok w w' : scheduler_ok w -> settles w w' -> scheduler_ok w'.
Proof.
  intros ([Hf1 Hf2] & Hnd & Hd) (H1 & H2 & H3 & H4). split; [split|split].
  - intros t Ht. rewrite H2. apply Hf1. by eapply elem_of_sublist.
  - intros id Hid. rewrite H2. by apply Hf2, H4.
  - eapply sublist_NoDup; [exact Hnd|]. by apply (fmap_sublist tid).
  - intros t Ht Hcb. rewrite H1. apply Hd; [|done]. by eapply elem_of_sublist.
Qed.

Lemma quiet_settles w w' : quiet w w' -> settles w w'.
Proof.
  intros (Hc & Hs & _). unfold core in Hc. injection Hc as _ Hst _ _ Hnt _ _ _ Hh.
  split; [by rewrite Hst|]. split; [done|]. split; [done|]. intros id. by rewrite Hh.
Qed.

Lemma settles_br_same w w' :
  stator w' = stator w -> reactors w' = reactors w ->
  timers (br w') = timers (br w) -> next_timer (br w') = next_timer (br w) ->
  settles w w'.
Proof. intros H1 H2 H3 H4. split; [by rewrite H1|]. rewrite H2, H3. by repeat split. Qed.

Lemma update_this_settles r f :
  (forall x id, _render_timeout (f x) = HId id -> _render_timeout x = HId id) ->
  respects settles (update_this r f).
Proof.
  intros H w. unfold update_this, modify. cbn [snd].
  split; [done|]. split; [done|]. split; [done|].
  cbn [with_reactors reactors].
  intros id (x & Hx & Hin)%list_elem_of_fmap.
  apply list_elem_of_lookup in Hin as [i Hi].
  destruct (decide (i = r)) as [->|Hne].
  - rewrite list_lookup_alter_eq in Hi.
    destruct (reactors w !! r) as [y|] eqn:E; [|done]. injection Hi as <-.
    apply list_elem_of_fmap. exists y. split; [|by eapply list_elem_of_lookup_2].
    symmetry. apply H. done.
  - rewrite list_lookup_alter_ne in Hi by done.
    apply list_elem_of_fmap. exists x. split; [done|]. by eapply list_elem_of_lookup_2.
Qed.

Lemma console_errors_settles msgs : respects settles (console_errors msgs).
Proof.
  intros w. rewrite console_errors_eq. by apply settles_br_same.
Qed.

Lemma add_listeners_settles fs : respects settles (add_listeners fs).
Proof.
  induction fs as [|f fs IH]; simpl.
  - apply respects_ret. apply _.
  - apply respects_bind; [apply _| |intros; apply IH].
    intros w. unfold addEventListener, modify. cbn. case_bool_decide; [reflexivity|].
    by apply settles_br_same.
Qed.

Lemma add_listener_settles func : respects settles (add_listener func).
Proof.
  destruct func as [f|fs]; simpl; [|apply add_listeners_settles].
  intros w. unfold addEventListener, modify. cbn. case_bool_decide; [reflexivity|].
  by apply settles_br_same.
Qed.

Lemma clone_settles v : respects settles (clone v).
Proof.
  intros w. unfold clone. destruct (_clone_obj (mem w) v) as [[v' h']|e]; [|reflexivity].
  by apply settles_br_same.
Qed.

Lemma proxy_target_settles v : respects settles (proxy_target v).
Proof.
  intros w. unfold proxy_target. destruct v; try reflexivity.
  destruct (mem w !! l) as [[|]|]; reflexivity.
Qed.

Lemma alloc_settles o : respects settles (alloc o).
Proof. intros w. by apply settles_br_same. Qed.

Lemma render_settles r : respects settles (render r).
Proof. intros w. apply quiet_settles, render_quiet. Qed.

Lemma new_object_settles : respects settles new_object.
Proof.
  intros w. unfold new_object. cbn [snd]. split; [done|]. split; [done|]. split; [done|].
  intros id. cbn [with_reactors reactors]. rewrite map_app. intros [H|H]%elem_of_app; [done|].
  apply list_elem_of_singleton in H. done.
Qed.

Ltac settle_step :=
  lazymatch goal with
  | |- respects _ (ret _) => apply respects_ret
  | |- respects _ (throw _) => apply respects_throw
  | |- respects _ (gets _) => apply respects_gets
  | |- respects _ (reported _) => apply respects_reported
  | |- respects _ (when _ _) => apply respects_when
  | |- respects _ (bind _ _) => apply respects_bind; [| | intros ?]
  | |- respects settles (update_this _ _) =>
      apply update_this_settles; intros [] ?; cbn; congruence
  | |- respects settles (console_errors _) => apply console_errors_settles
  | |- respects settles (add_listener _) => apply add_listener_settles
  | |- respects settles (clone _) => apply clone_settles
  | |- respects settles (proxy_target _) => apply proxy_target_settles
  | |- respects settles (alloc _) => apply alloc_settles
  | |- respects settles (render _) => apply render_settles
  | |- respects settles new_object => apply new_object_settles
  | |- respects _ (match ?x with _ => _ end) => destruct x
  end;
  try match goal with |- PreOrder _ => apply _ end.

Lemma Reactor_settles el options html_callback :
  respects settles (Reactor el options html_callback).
Proof. unfold Reactor. repeat settle_step. Qed.

Lemma create_state_settles v : respects settles (create_state v).
Proof.
  unfold create_state. repeat settle_step.
  - intros w. by repeat split.
  - intros w. by repeat split.
Qed.

Lemma NoDup_tid_app ts (x : timer) :
  NoDup (map tid ts) -> (forall t, t ∈ ts -> tid t <> tid x) -> NoDup (map tid (ts ++ [x])).
Proof.
  intros Hnd Hne. rewrite map_app. apply NoDup_app. split; [done|]. split.
  - intros i Hi Hx. apply list_elem_of_singleton in Hx. subst i.
    apply list_elem_of_fmap in Hi as (t & Ht & Hin). by apply (Hne t).
  - apply NoDup_singleton.
Qed.

Lemma cancel_NoDup h ts : NoDup (map tid ts) -> NoDup (map tid (cancel h ts)).
Proof.
  intros H. eapply sublist_NoDup; [exact H|]. apply (fmap_sublist tid), cancel_sublist.
Qed.

(** The debounce logic keeps the invariant. *)
Lemma emit_or_schedule_ok w : scheduler_ok w -> scheduler_ok (exec emit_or_schedule w).
Proof.
  intros ([Hf1 Hf2] & Hnd & Hd).
  pose proof (emit_or_schedule_spec w) as (_ & _ & _ & _ & _ & _ & _ & Hh & H).
  assert (Hnone : forall t, t ∈ cancel (_debounce_timeout (stator w)) (timers (br w)) ->
                    cb t <> CbDispatchEvent).
  { intros t [Hin Hne]%elem_of_cancel Hcb. apply Hne. symmetry. by apply Hd. }
  destruct (Z.of_nat _ >=? _).
  - destruct H as (H1 & H2 & H3 & H4 & H5 & H6).
    split; [split|split].
    + intros t Ht. rewrite H4. apply Hf1.
      eapply elem_of_sublist; [|apply cancel_sublist]. by eapply elem_of_sublist.
    + intros id Hid. rewrite H4. apply Hf2. by rewrite <- Hh.
    + eapply sublist_NoDup; [apply (cancel_NoDup (_debounce_timeout (stator w))), Hnd|].
      by apply (fmap_sublist tid).
    + intros t Ht Hcb. exfalso. apply (Hnone t); [|done]. by eapply elem_of_sublist.
  - destruct H as (H1 & H2 & H3 & H4 & H5 & H6 & _).
    assert (Hold : forall t, t ∈ cancel (_debounce_timeout (stator w)) (timers (br w)) ->
                     (tid t < next_timer (br w))%positive).
    { intros t Ht. apply Hf1. eapply elem_of_sublist; [exact Ht | apply cancel_sublist]. }
    split; [split|split].
    + rewrite H4, H5. intros t [Ht|Ht]%elem_of_app.
      * specialize (Hold t Ht). lia.
      * apply list_elem_of_singleton in Ht. subst t. simpl. lia.
    + rewrite H4, Hh. intros id Hid. specialize (Hf2 id Hid). lia.
    + rewrite H5. apply NoDup_tid_app; [by apply cancel_NoDup|].
      intros t Ht. specialize (Hold t Ht). simpl. lia.
    + rewrite H5, H1. intros t [Ht|Ht]%elem_of_app Hcb.
      * by destruct (Hnone t Ht).
      * apply list_elem_of_singleton in Ht. by subst t.
Qed.

Lemma state_set_ok key v w : scheduler_ok w -> scheduler_ok (exec (state_set key v) w).
Proof.
  intros Hok. unfold exec. rewrite state_set_eq. cbv zeta.
  destruct (negb _); [done|].
  destruct (strict_neq _ _); [|done].
  assert (Hlog : forall args,
            settles w (exec (when (debug (options (stator w))) (console_log args)) w)).
  { intros args. destruct (debug _); [|reflexivity]. by apply settles_br_same. }
  destruct (_ && _); [cbn [snd]; eapply settles_ok; [exact Hok | apply Hlog]|].
  destruct (_clone_obj (mem w) v) as [[copy h']|e];
    [|cbn [snd]; eapply settles_ok; [exact Hok | apply Hlog]].
  cbn [snd]. apply emit_or_schedule_ok. eapply settles_ok; [exact Hok|].
  etrans; [apply Hlog|]. by apply settles_br_same.
Qed.

Lemma local_set_ok r key v w : scheduler_ok w -> scheduler_ok (exec (local_set r key v) w).
Proof.
  intros Hok.
  destruct (reactors w !! r) as [that|] eqn:Hr.
  2: { unfold exec, local_set, bind at 1, this_. by rewrite Hr. }
  destruct (_data that) as [target|] eqn:Hd.
  2: { unfold exec, local_set, bind at 1, this_. rewrite Hr. cbv beta iota. by rewrite Hd. }
  unfold exec. rewrite (local_set_eq _ _ _ _ _ _ Hr Hd). cbv zeta.
  destruct (negb _); [done|].
  assert (Hlog : forall c args, settles w (exec (when c (console_log args)) w)).
  { intros c args. destruct c; [|reflexivity]. by apply settles_br_same. }
  destruct (_ && _); [cbn [snd]; eapply settles_ok; [exact Hok | apply Hlog]|].
  cbn [snd].
  match goal with |- context [exec _ (exec (when ?c (console_log ?a)) w)] =>
    pose proof (settles_ok _ _ Hok (Hlog c a)) as Hok1;
    set (w1 := exec (when c (console_log a)) w) in * end.
  assert (Hr1 : reactors w1 = reactors w) by (subst w1; by destruct (truthy_arg _)).
  destruct Hok1 as ([Hf1 Hf2] & Hnd & Hdd).
  unfold exec, bind, update_this, clearTimeout, setTimeout, modify.
  cbn [fst snd]. unfold with_reactors, with_br.
  cbn [mem document br stator cloned_initial_state reactors now timers next_timer
       listeners events console dom_writes calls].
  assert (Hold : forall t, t ∈ cancel (_render_timeout that) (timers (br w1)) ->
                   (tid t < next_timer (br w1))%positive).
  { intros t Ht. apply Hf1. eapply elem_of_sublist; [exact Ht | apply cancel_sublist]. }
  split; [split|split]; cbn [br timers next_timer reactors stator].
  - intros t [Ht|Ht]%elem_of_app.
    + specialize (Hold t Ht). lia.
    + apply list_elem_of_singleton in Ht. subst t. simpl. lia.
  - intros id (x & Hx & Hin)%list_elem_of_fmap.
    apply list_elem_of_lookup in Hin as [i Hi].
    destruct (decide (i = r)) as [->|Hne].
    + rewrite list_lookup_alter_eq in Hi.
      destruct (alter _ r (reactors w1) !! r) as [y|]; [|done]. injection Hi as <-.
      simpl in Hx. injection Hx as ->. lia.
    + rewrite list_lookup_alter_ne in Hi by done.
      destruct (decide (i = r)) as [->|_]; [done|].
      rewrite list_lookup_alter_ne in Hi by done.
      assert (HId id ∈ map _render_timeout (reactors w1)).
      { apply list_elem_of_fmap. exists x. split; [done|]. by eapply list_elem_of_lookup_2. }
      specialize (Hf2 id H). lia.
  - apply NoDup_tid_app; [by apply cancel_NoDup|].
    intros t Ht. specialize (Hold t Ht). simpl. lia.
  - intros t [Ht|Ht]%elem_of_app Hcb.
    + apply Hdd; [|done]. eapply elem_of_sublist; [exact Ht | apply cancel_sublist].
    + apply list_elem_of_singleton in Ht. by subst t.
Qed.

Lemma _dispatch_event_ok w : scheduler_ok w -> scheduler_ok (exec _dispatch_event w).
Proof.
  intros ([Hf1 Hf2] & Hnd & Hd).
  pose proof (_dispatch_event_spec w)
    as (_ & _ & _ & Hs & _ & _ & Hnt & _ & _ & Hh & Hsub & _).
  split; [split|split].
  - intros t Ht. rewrite Hnt. apply Hf1.
    eapply elem_of_sublist; [|apply cancel_sublist]. by eapply elem_of_sublist.
  - intros id Hid. rewrite Hnt. apply Hf2. by rewrite <- Hh.
  - eapply sublist_NoDup; [apply (cancel_NoDup (_debounce_timeout (stator w))), Hnd|].
    by apply (fmap_sublist tid).
  - intros t Ht Hcb. exfalso.
    assert (Hin : t ∈ cancel (_debounce_timeout (stator w)) (timers (br w)))
      by (by eapply elem_of_sublist).
    apply elem_of_cancel in Hin as [Hin Hne]. apply Hne. symmetry. by apply Hd.
Qed.

(** A timer leaves the table and the clock moves on: the invariant stays. *)
Lemma take_timer_ok x w :
  scheduler_ok w ->
  scheduler_ok (with_br (Browser (Z.max (now (br w)) (due x))
                           (cancel (HId (tid x)) (timers (br w)))
                           (next_timer (br w)) (listeners (br w)) (events (br w))
                           (console (br w)) (dom_writes (br w)) (calls (br w))) w).
Proof.
  intros Hok. eapply settles_ok; [exact Hok|].
  split; [done|]. split; [done|]. split; [apply sublist_filter | done].
Qed.

Lemma fire_ok x w : scheduler_ok w -> scheduler_ok (exec (fire x) w).
Proof.
  intros Hok. unfold exec. rewrite fire_eq. cbv zeta. cbn [snd].
  pose proof (take_timer_ok x w Hok) as H0.
  destruct (cb x) as [|r].
  - by apply _dispatch_event_ok.
  - eapply settles_ok; [exact H0|]. apply render_settles.
Qed.

Lemma run_timers_ok fuel t w :
  scheduler_ok w -> scheduler_ok (exec (run_timers fuel t) w).
Proof.
  revert w. induction fuel as [|fuel IH]; intros w Hok; [done|].
  destruct (earliest (timers (br w))) as [y|] eqn:He.
  - destruct (Z.le_gt_cases (due y) t) as [Hd|Hd].
    + rewrite (run_timers_step _ _ _ _ He Hd). by apply IH, fire_ok.
    + rewrite run_timers_stop; [done|]. rewrite He. lia.
  - rewrite run_timers_stop; [done|]. by rewrite He.
Qed.

Lemma advance_to_ok t w : scheduler_ok w -> scheduler_ok (exec (advance_to t) w).
Proof.
  intros Hok. unfold exec. rewrite advance_to_eq. cbv zeta. cbn [snd].
  eapply settles_ok; [apply (run_timers_ok (length (timers (br w))) t _ Hok)|].
  by apply settles_br_same.
Qed.

Lemma step_ok o w : scheduler_ok w -> scheduler_ok (exec (step o) w).
Proof.
  intros Hok. destruct o as [v|key v|key|func|o|el options cb|r key v|r key|r|o|t];
    cbn [step]; try change (exec (reported ?m) w) with (exec m w).
  - eapply settles_ok; [exact Hok | apply create_state_settles].
  - by apply state_set_ok.
  - by rewrite state_get_frame.
  - eapply settles_ok; [exact Hok | apply add_listener_settles].
  - eapply settles_ok; [exact Hok|]. by repeat split.
  - eapply settles_ok; [exact Hok | apply Reactor_settles].
  - by apply local_set_ok.
  - eapply settles_ok; [exact Hok|]. unfold exec, local_get, bind at 1, this_.
    destruct (reactors w !! r) as [that|]; [|reflexivity]. cbv beta iota.
    destruct (_data that); [|reflexivity]. unfold bind, gets. cbn.
    destruct (has_property _ _ _); reflexivity.
  - eapply settles_ok; [exact Hok | apply render_settles].
  - eapply settles_ok; [exact Hok | apply alloc_settles].
  - by apply advance_to_ok.
Qed.

Lemma initial_ok doc : scheduler_ok (initial_world doc).
Proof.
  split; [split|split]; cbn.
  - by intros t Ht%elem_of_nil.
  - by intros t Ht%elem_of_nil.
  - constructor.
  - by intros t Ht%elem_of_nil.
Qed.

Lemma run_ok ops w : scheduler_ok w -> scheduler_ok (run ops w).
Proof.
  revert w. induction ops as [|o ops IH]; intros w Hok; [done|].
  simpl. by apply IH, step_ok.
Qed.

Lemma same_tid (ts : list timer) t1 t2 :
  NoDup (map tid ts) -> t1 ∈ ts -> t2 ∈ ts -> tid t1 = tid t2 -> t1 = t2.
Proof.
  induction ts as [|t ts IH]; [by intros _ ?%elem_of_nil|].
  simpl. intros [Hn Hnd]%NoDup_cons H1 H2 Heq.
  apply elem_of_cons in H1 as [->|H1]; apply elem_of_cons in H2 as [->|H2]; [done|..].
  - exfalso. apply Hn. rewrite Heq. apply list_elem_of_fmap. by exists t2.
  - exfalso. apply Hn. rewrite <- Heq. apply list_elem_of_fmap. by exists t1.
  - by apply IH.
Qed.

(** Property X27.  Whatever the scripts of a page do with the library and
    however time passes in between, at most one timer of [_dispatch_event]
    is pending, and it is the one that [stator._debounce_timeout] names: two
    pending timers of [_dispatch_event] are the same timer. *)
Theorem one_debounce_timer (doc : string -> list nat) (ops : list op) (t1 t2 : timer) :
  t1 ∈ timers (br (run ops (initial_world doc))) ->
  t2 ∈ timers (br (run ops (initial_world doc))) ->
  cb t1 = CbDispatchEvent ->
  cb t2 = CbDispatchEvent ->
  t1 = t2 /\ _debounce_timeout (stator (run ops (initial_world doc))) = HId (tid t1).
Proof.
  intros H1 H2 Hc1 Hc2.
  destruct (run_ok ops _ (initial_ok doc)) as (_ & Hnd & Hd).
  split; [|by apply Hd].
  eapply same_tid; [exact Hnd | done | done |].
  pose proof (Hd t1 H1 Hc1) as E1. pose proof (Hd t2 H2 Hc2) as E2. congruence.
Qed.

Lemma one_debounce_timer_witness :
  _debounce_timeout (stator (run sample_script (initial_world sample_document))) = HId 2.
Proof.
  destruct (one_debounce_timer sample_document sample_script
              (Timer 2 10 CbDispatchEvent) (Timer 2 10 CbDispatchEvent)) as [_ H].
  - apply list_elem_of_singleton. reflexivity.
  - apply list_elem_of_singleton. reflexivity.
  - reflexivity.
  - reflexivity.
  - exact H.
Defined.

(** ** Debouncing *)

Lemma idle_render_timer x w : idle w -> x ∈ timers (br w) -> exists r, cb x = CbRender r.
Proof.
  intros [(_ & _ & Hd) Hh] Hx. destruct (cb x) as [|r] eqn:E; [|by eexists].
  rewrite (Hd x Hx E) in Hh. done.
Qed.

Lemma fire_render_core x r w :
  cb x = CbRender r ->
  events (br (exec (fire x) w)) = events (br w) /\
  stator (exec (fire x) w) = stator w /\
  map _render_timeout (reactors (exec (fire x) w)) = map _render_timeout (reactors w) /\
  now (br (exec (fire x) w)) = Z.max (now (br w)) (due x) /\
  (forall t, t ∈ timers (br w) -> tid t <> tid x ->
     HId (tid t) ∉ map _render_timeout (reactors w) ->
     t ∈ timers (br (exec (fire x) w))).
Proof.
  intros Hcb. unfold exec. rewrite fire_eq. cbv zeta. cbn [snd]. rewrite Hcb.
  set (w0 := with_br _ w).
  pose proof (render_quiet r w0) as (Hc & _ & Hk).
  fold (exec (render r) w0) in Hc, Hk. unfold core in Hc.
  injection Hc as _ Hst _ Hn _ _ Hev _ Hh.
  rewrite Hev, Hst, Hh, Hn. repeat split; try done.
  intros t Ht Hne Hnh.
  destruct (Hk t) as [?|Hbad]; [|done|done].
  subst w0. cbn. apply list_elem_of_filter. by split.
Qed.

Lemma fire_idle x w :
  idle w -> x ∈ timers (br w) ->
  idle (exec (fire x) w) /\ events (br (exec (fire x) w)) = events (br w).
Proof.
  intros Hi Hx. destruct (idle_render_timer x w Hi Hx) as [r Hcb].
  destruct (fire_render_core x r w Hcb) as (He & Hs & _).
  destruct Hi as [Hok Hh]. split; [|done]. split; [by apply fire_ok | by rewrite Hs].
Qed.

Lemma run_timers_idle fuel t w :
  idle w -> events (br (exec (run_timers fuel t) w)) = events (br w).
Proof.
  revert w. induction fuel as [|fuel IH]; intros w Hi; [done|].
  pose proof (earliest_spec (timers (br w))) as Hsp.
  destruct (earliest (timers (br w))) as [y|] eqn:He.
  - destruct Hsp as [Hy _]. destruct (Z.le_gt_cases (due y) t) as [Hd|Hd].
    + rewrite (run_timers_step _ _ _ _ He Hd).
      destruct (fire_idle y w Hi Hy) as [Hi' Hev]. by rewrite IH.
    + rewrite run_timers_stop; [done|]. rewrite He. lia.
  - rewrite run_timers_stop; [done|]. by rewrite He.
Qed.

Lemma fire_pending E0 id d x w :
  pending E0 id d w ->
  x ∈ timers (br w) ->
  (forall y, y ∈ timers (br w) -> due x <= due y) ->
  (cb x = CbDispatchEvent /\ due x = d /\ idle (exec (fire x) w) /\
   events (br (exec (fire x) w)) = E0 ++ [d])
  \/ pending E0 id d (exec (fire x) w).
Proof.
  intros (Hok & He & Hh & Hin & Hnr & Hnow) Hx Hmin.
  pose proof (Hmin _ Hin) as Hdue. simpl in Hdue.
  destruct Hok as (Hfr & Hnd & Hd).
  assert (Hok : scheduler_ok w) by done.
  destruct (cb x) as [|r] eqn:Hcb.
  - left. pose proof (Hd x Hx Hcb) as Hid. rewrite Hh in Hid. injection Hid as Hid.
    assert (Hxe : x = Timer id d CbDispatchEvent).
    { eapply same_tid; [exact Hnd | done | done | by rewrite <- Hid]. }
    subst x. cbn [due]. split; [done|]. split; [done|].
    assert (Hev : events (br (exec (fire (Timer id d CbDispatchEvent)) w)) = E0 ++ [d] /\
                  _debounce_timeout (stator (exec (fire (Timer id d CbDispatchEvent)) w)) = HNull).
    { unfold exec. rewrite fire_eq. cbv zeta. cbn [snd cb].
      match goal with |- context [exec _dispatch_event ?x] =>
        pose proof (_dispatch_event_spec x) as (_ & _ & _ & Hs & Hev & _) end.
      rewrite Hev, Hs. cbn. rewrite He. split; [|done]. do 2 f_equal. lia. }
    destruct Hev as [Hev Hnull]. split; [|done].
    split; [by apply fire_ok | by rewrite Hnull].
  - right. destruct (fire_render_core x r w Hcb) as (Hev & Hs & Hhs & Hn & Hkeep).
    split; [by apply fire_ok|]. rewrite Hev, Hs, Hhs, Hn.
    repeat split; try done; [|lia].
    apply Hkeep; [done| |done]. cbn. intros Heq.
    assert (x = Timer id d CbDispatchEvent)
      by (eapply same_tid; [exact Hnd | done | done | by rewrite <- Heq]).
    subst x. done.
Qed.

Lemma run_timers_pending E0 id d fuel t w :
  pending E0 id d w ->
  (length (timers (br w)) <= fuel)%nat ->
  (t < d /\ events (br (exec (run_timers fuel t) w)) = E0)
  \/ (d <= t /\ events (br (exec (run_timers fuel t) w)) = E0 ++ [d]).
Proof.
  revert w. induction fuel as [|fuel IH]; intros w Hp Hlen.
  - exfalso. destruct Hp as (_ & _ & _ & Hin & _).
    destruct (timers (br w)); [by apply elem_of_nil in Hin | simpl in Hlen; lia].
  - pose proof (earliest_spec (timers (br w))) as Hsp.
    destruct (earliest (timers (br w))) as [y|] eqn:He.
    + destruct Hsp as [Hy Hmin]. destruct (Z.le_gt_cases (due y) t) as [Hd|Hd].
      * rewrite (run_timers_step _ _ _ _ He Hd).
        destruct (fire_pending _ _ _ _ _ Hp Hy Hmin) as [(_ & Hdue & Hi & Hev)|Hp'].
        -- right. split; [lia|]. by rewrite run_timers_idle.
        -- apply IH; [done|]. destruct (fire_frame y w Hy) as [Hl _]. lia.
      * rewrite run_timers_stop; [|rewrite He; lia]. left.
        destruct Hp as (_ & Hev & _ & Hin & _). split; [|done].
        specialize (Hmin _ Hin). simpl in Hmin. lia.
    + exfalso. destruct Hp as (_ & _ & _ & Hin & _). rewrite Hsp in Hin.
      by apply elem_of_nil in Hin.
Qed.

(** Property X28.  Debouncing.  After an accepted change that does not
    reach [max_suppressed_event_count], nothing is dispatched at once; if no
    further change follows, exactly one event is dispatched, [debounce_ms]
    after the change (at once if [debounce_ms] is negative), and none
    before: up to any time [t], the events are those of before and, if [t]
    is not before that moment, this one. *)
Theorem debounce_fires_once (w : world) (key : string) (v : value) (t : Z) :
  scheduler_ok w ->
  accepted key v w ->
  Z.of_nat (suppressed_after (stator w)) < max_suppressed_event_count (options (stator w)) ->
  let d := now (br w) + Z.max 0 (debounce_ms (options (stator w))) in
  events (br (exec (state_set key v) w)) = events (br w) /\
  events (br (exec (advance_to t) (exec (state_set key v) w)))
    = events (br w) ++ (if d <=? t then [d] else []).
Proof.
  intros Hok Ha Hlt d.
  pose proof (state_set_ok key v w Hok) as Hok'.
  destruct Hok as (Hfr & _).
  destruct (write_arms _ _ _ Hfr Ha) as [[_ Hbad]|H]; [lia|]. cbv zeta in H.
  destruct H as (_ & _ & Hev & Hh & Hin & _ & Hnr & Hn & _).
  split; [done|].
  assert (Hp : pending (events (br w)) (next_timer (br w)) d (exec (state_set key v) w)).
  { split; [exact Hok'|]. split; [exact Hev|]. split; [exact Hh|]. split; [exact Hin|].
    split; [exact Hnr|]. rewrite Hn. unfold d. lia. }
  unfold exec at 1. rewrite advance_to_eq. cbv zeta. cbn [snd br events].
  destruct (run_timers_pending _ _ _ (length (timers (br (exec (state_set key v) w)))) t _ Hp)
    as [[H1 H2]|[H1 H2]]; [done | |].
  - rewrite H2. apply Z.leb_gt in H1. rewrite H1. by rewrite app_nil_r.
  - rewrite H2. apply Z.leb_le in H1. by rewrite H1.
Qed.

Lemma sample_store_ok : scheduler_ok sample_store.
Proof.
  split; [split|split].
  - intros t Ht. vm_compute in Ht. by apply elem_of_nil in Ht.
  - intros id Hid. vm_compute in Hid. by apply elem_of_nil in Hid.
  - vm_compute. constructor.
  - intros t Ht. vm_compute in Ht. by apply elem_of_nil in Ht.
Qed.

Lemma debounce_fires_once_witness :
  events (br (exec (advance_to 9) (exec (state_set "count" (VNum (Fin 1))) sample_store))) = [] /\
  events (br (exec (advance_to 25) (exec (state_set "count" (VNum (Fin 1))) sample_store)))
    = [10].
Proof.
  split.
  - destruct (debounce_fires_once sample_store "count" (VNum (Fin 1)) 9) as [_ H].
    + exact sample_store_ok.
    + split; reflexivity.
    + vm_compute. reflexivity.
    + rewrite H. reflexivity.
  - destruct (debounce_fires_once sample_store "count" (VNum (Fin 1)) 25) as [_ H].
    + exact sample_store_ok.
    + split; reflexivity.
    + vm_compute. reflexivity.
    + rewrite H. reflexivity.
Defined.

(** ** From a change of the state to the DOM *)

Lemma view_eq this w v :
  mem w = view_heap v -> cloned_initial_state w = view_global v -> _data this = view_local v ->
  view_of this w = v.
Proof. destruct v. unfold view_of. cbn. by intros -> -> ->. Qed.

Lemma shows_unchanged this g v :
  shows this (apply_jsfun g v) ->
  truthy (force_update this) || strict_neq (apply_jsfun g v) (old_node_html this) = false.
Proof.
  intros [-> ->]. cbn. apply apply_jsfun_self.
Qed.

(** One [render], of any Reactor. *)
Lemma render_follows r' r f g n v old0 fu0 w :
  truthy (apply_jsfun f v) = true ->
  follows r f g n v old0 fu0 w ->
  follows r f g n v old0 fu0 (exec (render r') w) /\
  (refreshed r f g n v old0 fu0 w -> refreshed r f g n v old0 fu0 (exec (render r') w)).
Proof.
  intros Ht (Hm & Hc & Hl & this & E & Hw & Hd & Hst).
  pose proof (render_frame r' w) as (Hm' & Hc' & _ & Hl' & _).
  destruct (render_others r' w) as [Ho [more Hdom]].
  pose proof (view_eq this w v Hm Hc Hd) as Hv.
  assert (Hnew : exists this',
            reactors (exec (render r') w) !! r = Some this' /\
            wired this' f g n /\ _data this' = view_local v /\
            ((old_node_html this' = old0 /\ force_update this' = fu0) \/
             (shows this' (apply_jsfun g v) /\
              (truthy fu0 || strict_neq (apply_jsfun g v) old0 = true ->
               (n, apply_jsfun g v) ∈ dom_writes (br (exec (render r') w))))) /\
            (shows this (apply_jsfun g v) -> shows this' (apply_jsfun g v))).
  { destruct (decide (r' = r)) as [->|Hne].
    - destruct (render_wired r w this f g n E Hw) as (_ & Hrs & Hdw & _); [by rewrite Hv|].
      cbv zeta in Hrs, Hdw. rewrite Hv in Hrs, Hdw.
      destruct (truthy (force_update this) || strict_neq (apply_jsfun g v) (old_node_html this))
        eqn:Hch.
      + eexists. split; [by rewrite Hrs, list_lookup_alter_eq, E|].
        split; [by apply (wired_same this)|]. split; [done|]. split; [|done].
        right. split; [done|]. intros _. rewrite Hdw. apply elem_of_app. right.
        by apply list_elem_of_singleton.
      + exists this. split; [by rewrite Hrs|]. split; [done|]. split; [done|]. split; [|done].
        destruct Hst as [HA|[HB HD]]; [by left|right]. split; [done|].
        intros H. rewrite Hdom. apply elem_of_app. left. by apply HD.
    - exists this. split; [by rewrite Ho|]. split; [done|]. split; [done|]. split; [|done].
      destruct Hst as [HA|[HB HD]]; [by left|right]. split; [done|].
      intros H. rewrite Hdom. apply elem_of_app. left. by apply HD. }
  destruct Hnew as (this' & E' & Hw' & Hd' & Hst' & Hkeep).
  assert (Hf : follows r f g n v old0 fu0 (exec (render r') w)).
  { split; [congruence|]. split; [congruence|]. split; [by rewrite Hl'|]. by exists this'. }
  split; [exact Hf|].
  intros (_ & this2 & E2 & Hs2 & Hd2). split; [exact Hf|].
  rewrite E in E2. injection E2 as <-.
  exists this'. split; [done|]. split; [by apply Hkeep|].
  intros H. rewrite Hdom. apply elem_of_app. left. by apply Hd2.
Qed.

Lemma dispatch_follows r f g n v old0 fu0 w :
  truthy (apply_jsfun f v) = true ->
  follows r f g n v old0 fu0 w ->
  refreshed r f g n v old0 fu0 (exec _dispatch_event w).
Proof.
  intros Ht (Hm & Hc & Hl & this & E & Hw & Hd & Hst).
  pose proof (view_eq this w v Hm Hc Hd) as Hv.
  pose proof (_dispatch_event_spec w) as (_ & Hm' & Hc' & _ & _ & _ & _ & Hl' & _).
  unfold refreshed, follows. rewrite Hm', Hc', Hl'.
  unfold exec. rewrite _dispatch_event_eq. cbn [snd].
  set (w0 := exec record_event w).
  assert (Hv0 : view_of this w0 = v) by (rewrite <- Hv; done).
  destruct (run_listeners_refresh (listeners (br w)) w0 r this f g n)
    as (_ & _ & [more Hdom] & (this' & E' & Hs' & Hff) & Hwr);
    [done | done | by rewrite Hv0 | by left |].
  rewrite Hv0 in *.
  set (w2 := exec (run_listeners (listeners (br w))) w0) in *.
  assert (Htail : reactors (exec (_clear_debounce_timeout ;; set__suppressed_event_count 0) w2)
                  = reactors w2 /\
                  dom_writes (br (exec (_clear_debounce_timeout ;; set__suppressed_event_count 0) w2))
                  = dom_writes (br w2)) by done.
  destruct Htail as (-> & ->).
  assert (Hw' : wired this' f g n /\ _data this' = view_local v).
  { unfold fixed_fields in Hff. injection Hff as ? ? ? ? ? ?.
    split; [by apply (wired_same this) | congruence]. }
  destruct Hw' as [Hw' Hd'].
  assert (HD : truthy fu0 || strict_neq (apply_jsfun g v) old0 = true ->
               (n, apply_jsfun g v) ∈ dom_writes (br w2)).
  { intros H. destruct Hst as [[<- <-]|[HB HD]].
    - by apply Hwr.
    - rewrite Hdom. apply elem_of_app. left. by apply HD. }
  split.
  - split; [done|]. split; [done|]. split; [done|]. exists this'.
    split; [done|]. split; [done|]. split; [done|]. right. by split.
  - exists this'. by split.
Qed.

Lemma take_timer_follows r f g n v old0 fu0 x w :
  follows r f g n v old0 fu0 w ->
  follows r f g n v old0 fu0
    (with_br (Browser (Z.max (now (br w)) (due x)) (cancel (HId (tid x)) (timers (br w)))
                (next_timer (br w)) (listeners (br w)) (events (br w)) (console (br w))
                (dom_writes (br w)) (calls (br w))) w).
Proof. intros H. exact H. Qed.

Lemma fire_follows r f g n v old0 fu0 x w :
  truthy (apply_jsfun f v) = true ->
  follows r f g n v old0 fu0 w ->
  follows r f g n v old0 fu0 (exec (fire x) w) /\
  (refreshed r f g n v old0 fu0 w -> refreshed r f g n v old0 fu0 (exec (fire x) w)) /\
  (cb x = CbDispatchEvent -> refreshed r f g n v old0 fu0 (exec (fire x) w)).
Proof.
  intros Ht Hf. unfold exec. rewrite fire_eq. cbv zeta. cbn [snd].
  pose proof (take_timer_follows r f g n v old0 fu0 x w Hf) as H0.
  set (w0 := with_br _ w) in *.
  destruct (cb x) as [|r'].
  - pose proof (dispatch_follows _ _ _ _ _ _ _ _ Ht H0) as Hr.
    split; [apply Hr|]. by split.
  - destruct (render_follows r' _ _ _ _ _ _ _ _ Ht H0) as [H1 H2].
    split; [done|]. split; [|done].
    intros [_ Hr]. apply H2. by split.
Qed.

Lemma run_timers_refreshed r f g n v old0 fu0 fuel t w :
  truthy (apply_jsfun f v) = true ->
  refreshed r f g n v old0 fu0 w ->
  refreshed r f g n v old0 fu0 (exec (run_timers fuel t) w).
Proof.
  intros Ht. revert w. induction fuel as [|fuel IH]; intros w Hr; [done|].
  destruct (earliest (timers (br w))) as [y|] eqn:He.
  - destruct (Z.le_gt_cases (due y) t) as [Hd|Hd].
    + rewrite (run_timers_step _ _ _ _ He Hd). apply IH.
      destruct (fire_follows r f g n v old0 fu0 y w Ht) as (_ & H & _); [apply Hr|].
      by apply H.
    + rewrite run_timers_stop; [done|]. rewrite He. lia.
  - rewrite run_timers_stop; [done|]. by rewrite He.
Qed.

Lemma run_timers_reaches r f g n v old0 fu0 E0 id d fuel t w :
  truthy (apply_jsfun f v) = true ->
  pending E0 id d w ->
  follows r f g n v old0 fu0 w ->
  (length (timers (br w)) <= fuel)%nat ->
  d <= t ->
  refreshed r f g n v old0 fu0 (exec (run_timers fuel t) w).
Proof.
  intros Ht. revert w. induction fuel as [|fuel IH]; intros w Hp Hf Hlen Hdt.
  - exfalso. destruct Hp as (_ & _ & _ & Hin & _).
    destruct (timers (br w)); [by apply elem_of_nil in Hin | simpl in Hlen; lia].
  - pose proof (earliest_spec (timers (br w))) as Hsp.
    destruct (earliest (timers (br w))) as [y|] eqn:He.
    + destruct Hsp as [Hy Hmin]. destruct (Z.le_gt_cases (due y) t) as [Hd|Hd].
      * rewrite (run_timers_step _ _ _ _ He Hd).
        destruct (fire_follows r f g n v old0 fu0 y w Ht Hf) as (Hf' & _ & Hdisp).
        destruct (fire_pending _ _ _ _ _ Hp Hy Hmin) as [(Hcb & _)|Hp'].
        -- apply run_timers_refreshed; [done|]. by apply Hdisp.
        -- apply IH; [done | done | | done].
           destruct (fire_frame y w Hy) as [Hl _]. lia.
      * exfalso. destruct Hp as (_ & _ & _ & Hin & _).
        specialize (Hmin _ Hin). simpl in Hmin. lia.
    + exfalso. destruct Hp as (_ & _ & _ & Hin & _). rewrite Hsp in Hin.
      by apply elem_of_nil in Hin.
Qed.

(** Property X29.  One-way data flow.  After an accepted change of the
    global state, once [debounce_ms] has passed, a wired Reactor that
    listens to the global state and whose [should_render] agrees shows the
    new state: its cache holds the html of its render callback for the
    state after the change and, if that html was a change, it has been
    assigned to the Reactor's node.  This holds whether the event was
    dispatched by the write itself or by the debounce timer, and whatever
    other timers fired meanwhile. *)
Theorem state_change_reaches_dom (w : world) (key : string) (v : value)
    (r : nat) (this : reactor) (f g : jsfun) (n : nat) (t : Z) :
  scheduler_ok w ->
  accepted key v w ->
  LRender r ∈ listeners (br w) ->
  reactors w !! r = Some this ->
  wired this f g n ->
  truthy (apply_jsfun f (View (mem (exec (state_set key v) w))
                              (cloned_initial_state (exec (state_set key v) w))
                              (_data this))) = true ->
  now (br w) + Z.max 0 (debounce_ms (options (stator w))) <= t ->
  let html := apply_jsfun g (View (mem (exec (state_set key v) w))
                                  (cloned_initial_state (exec (state_set key v) w))
                                  (_data this)) in
  exists this',
    reactors (exec (advance_to t) (exec (state_set key v) w)) !! r = Some this' /\
    old_node_html this' = html /\
    truthy (force_update this') = false /\
    (truthy (force_update this) || strict_neq html (old_node_html this) = true ->
     (n, html) ∈ dom_writes (br (exec (advance_to t) (exec (state_set key v) w)))).
Proof.
  intros Hok Ha Hl E Hw Ht Hdt html.
  set (w1 := exec (state_set key v) w) in *.
  set (vw := View (mem w1) (cloned_initial_state w1) (_data this)) in *.
  assert (Hr : refreshed r f g n vw (old_node_html this) (force_update this)
                 (exec (run_timers (length (timers (br w1))) t) w1)).
  { pose proof (state_set_ok key v w Hok) as Hok1. fold w1 in Hok1.
    destruct (accepted_inv _ _ _ Ha)
      as (copy & h' & w2 & _ & Hex & Hm2 & Hc2 & Hs2 & Hr2 & Hn2 & Hti2 & Hnt2 & Hl2 & He2).
    fold w1 in Hex.
    pose proof (emit_or_schedule_spec w2) as (_ & Hm' & Hc' & _ & _ & _ & Hl' & _ & Hbr).
    assert (Hf2 : follows r f g n vw (old_node_html this) (force_update this) w2).
    { unfold vw. rewrite Hex, Hm', Hc'.
      split; [done|]. split; [done|]. split; [by rewrite Hl2|].
      exists this. split; [by rewrite Hr2|]. split; [done|]. split; [done|]. by left. }
    destruct (Z.of_nat (suppressed_after (stator w2))
              >=? max_suppressed_event_count (options (stator w2))) eqn:Hge.
    - (* the event is dispatched by the write *)
      apply run_timers_refreshed; [done|]. rewrite Hex.
      unfold exec at 1. rewrite emit_or_schedule_eq. cbv zeta. cbn [snd]. rewrite Hge.
      apply dispatch_follows; [done|].
      destruct (handle_truthy _); destruct (debug _); exact Hf2.
    - (* the event is scheduled *)
      destruct Hbr as (Hh & _ & Hev & _ & Htim & Hrs & _).
      assert (Hf1 : follows r f g n vw (old_node_html this) (force_update this) w1).
      { unfold vw. split; [done|]. split; [done|].
        rewrite Hex, Hl', Hl2, Hrs, Hr2. split; [done|].
        exists this. split; [done|]. split; [done|]. split; [done|]. by left. }
      destruct Hok as (Hfr & Hok').
      assert (Hlt : Z.of_nat (suppressed_after (stator w))
                    < max_suppressed_event_count (options (stator w))).
      { rewrite Hs2 in Hge. rewrite Z.geb_leb in Hge. apply Z.leb_gt in Hge. lia. }
      destruct (write_arms _ _ _ Hfr Ha) as [[_ Hbad]|H]; [lia|]. cbv zeta in H.
      fold w1 in H. destruct H as (_ & _ & Hev1 & Hh1 & Hin1 & _ & Hnr1 & Hn1 & _).
      eapply (run_timers_reaches _ _ _ _ _ _ _ (events (br w)) (next_timer (br w))
                (now (br w) + Z.max 0 (debounce_ms (options (stator w)))));
        [done | | done | done | done].
      split; [exact Hok1|]. split; [exact Hev1|]. split; [exact Hh1|]. split; [exact Hin1|].
      split; [exact Hnr1|]. rewrite Hn1. lia. }
  destruct Hr as (_ & this' & E' & [Hs1 Hs2] & Hdom).
  assert (Hadv : reactors (exec (advance_to t) w1)
                  = reactors (exec (run_timers (length (timers (br w1))) t) w1) /\
                  dom_writes (br (exec (advance_to t) w1))
                  = dom_writes (br (exec (run_timers (length (timers (br w1))) t) w1))).
  { unfold exec at 1 3. rewrite advance_to_eq. cbv zeta. cbn [snd]. done. }
  destruct Hadv as [-> ->]. by exists this'.
Qed.

Lemma sample_app_ok : scheduler_ok sample_app.
Proof.
  split; [split|split].
  - intros t Ht. vm_compute in Ht. by apply elem_of_nil in Ht.
  - intros id Hid. vm_compute in Hid. apply list_elem_of_singleton in Hid. discriminate.
  - vm_compute. constructor.
  - intros t Ht. vm_compute in Ht. by apply elem_of_nil in Ht.
Qed.

Lemma state_change_reaches_dom_witness :
  (7%nat, VStr "1")
    ∈ dom_writes (br (exec (advance_to 10)
                        (exec (state_set "count" (VNum (Fin 1))) sample_app))).
Proof.
  destruct (state_change_reaches_dom sample_app "count" (VNum (Fin 1)) 0
              (Reactor_ HNull (Some "#app") (Some 7%nat)
                 (Some (default_options (VRef 2%nat))) (Some (FHtml global_count))
                 (Some (Container [] ProtoObject)) (VStr "0") (VBool false))
              prototype_should_render (FHtml global_count) 7 10)
    as (this' & _ & _ & _ & H).
  - exact sample_app_ok.
  - split; reflexivity.
  - apply list_elem_of_singleton. reflexivity.
  - reflexivity.
  - eexists _, _. repeat split; reflexivity.
  - reflexivity.
  - vm_compute. discriminate.
  - apply H. reflexivity.
Defined.
